(** * aithentic-scripts: the grading pipeline's orchestration layer

    A shallow embedding of the JavaScript sources

      - the Lambda batch script   (sanitizeText, normalizeForOneLine,
        invokeModelEndpoint with retries, validateDynamoDBStructure,
        saveAnalysisToDynamoDB, convert, handler),
      - script/part2_Sagemaker.js (the same handler with the SageMaker
        invoker and the validation step switched on),
      - the analytics script      (convert, toDynamoDBFormat,
        generateAnalyticsSummary, uploadAnalyticsSummary, main,
        generateHomeDataSummary, uploadHomeDataSummary, updateHomeData),
      - the fetch-and-convert script (convertPDFsToText),

    followed by the properties proved about them.

    Conventions.  A JavaScript string is the list of its UTF-16 code units.
    A JavaScript value is a tree (undefined, null, booleans, numbers,
    strings, arrays, objects); an object is the list of its own enumerable
    properties in enumeration order.  Functions, prototypes, getters and
    sparse arrays are outside the value model, which is what JSON.parse and
    the AWS SDK hand to these scripts.  Numbers are IEEE doubles in the
    source; the development is parametric in the runtime's number type and
    its conversions (class [Numbers]), and a runtime restricted to integers
    is supplied at the end for closed examples.  An exception is a value of
    type [error]; a computation that may throw returns a [completion]. *)

From Stdlib Require Import String Ascii ZArith NArith Lia Bool List.
From Stdlib Require Import DecimalString DecimalZ DecimalN.
From Equations Require Import Equations.
Import ListNotations.
Open Scope string_scope.
Open Scope list_scope.

Set Implicit Arguments.
Set Warnings "-register-all".

(* ================================================================== *)
(** * Part I.  The runtime: strings, numbers, values, exceptions      *)
(* ================================================================== *)

(** ** Strings *)

Definition jsstring := list N.

Definition lit (s : string) : jsstring :=
  List.map N_of_ascii (list_ascii_of_string s).

Fixpoint str_eqb (a b : jsstring) : bool :=
  match a, b with
  | [], [] => true
  | x :: a', y :: b' => N.eqb x y && str_eqb a' b'
  | _, _ => false
  end.

(** Decimal rendering of an integer, as template literals and property
    keys render integer-valued numbers. *)
Definition dec (z : Z) : jsstring := lit (NilZero.string_of_int (Z.to_int z)).

(** [s.substring(0, n)] *)
Definition substring0 (n : nat) (s : jsstring) : jsstring := firstn n s.

(** [s.endsWith(suffix)] *)
Definition endsWith (s suffix : jsstring) : bool :=
  str_eqb (skipn (length s - length suffix) s) suffix
  && (length suffix <=? length s)%nat.

(** [s.startsWith(p)] as a structural test. *)
Fixpoint starts_with (p s : jsstring) : bool :=
  match p, s with
  | [], _ => true
  | _ :: _, [] => false
  | a :: p', b :: s' => N.eqb a b && starts_with p' s'
  end.

(** [s.replace(pat, '')] with a string pattern: the first occurrence of
    [pat] is removed; the empty pattern matches at index 0 and removes
    nothing. *)
Fixpoint remove_first (pat s : jsstring) : jsstring :=
  if starts_with pat s then skipn (length pat) s
  else match s with
       | [] => []
       | c :: s' => c :: remove_first pat s'
       end.

(** The white space of the language: the characters [\s] matches and
    [trim] strips (WhiteSpace and LineTerminator code points). *)
Definition is_space (c : N) : bool :=
  ((9 <=? c) && (c <=? 13) || (c =? 32) || (c =? 160) || (c =? 5760)
   || (8192 <=? c) && (c <=? 8202) || (c =? 8232) || (c =? 8233)
   || (c =? 8239) || (c =? 8287) || (c =? 12288) || (c =? 65279))%N.

Fixpoint trimStart (s : jsstring) : jsstring :=
  match s with
  | c :: s' => if is_space c then trimStart s' else s
  | [] => []
  end.

Definition trimEnd (s : jsstring) : jsstring := rev (trimStart (rev s)).

Definition trim (s : jsstring) : jsstring := trimEnd (trimStart s).

(** [path.extname] on a POSIX path: from the last dot of the last path
    segment to the end; empty when that segment has no dot, when its only
    dot is its first character, or when it is [..]. *)
Fixpoint last_segment (acc s : jsstring) : jsstring :=
  match s with
  | [] => acc
  | c :: s' => if (c =? 47)%N then last_segment [] s' else last_segment (acc ++ [c]) s'
  end.

Fixpoint from_last_dot (s : jsstring) : option jsstring :=
  match s with
  | [] => None
  | c :: s' =>
      match from_last_dot s' with
      | Some e => Some e
      | None => if (c =? 46)%N then Some s else None
      end
  end.

Definition extname (p : jsstring) : jsstring :=
  let base := last_segment [] p in
  match base with
  | [] => []
  | c :: rest =>
      if str_eqb base (lit "..") then []
      else match from_last_dot rest with
           | Some e => e
           | None => []
           end
  end.

(** ** Numbers *)

(** What the scripts use of the runtime's numbers.  [of_Z] is the double
    of an integer literal or counter, [NumberToString] is [String(x)] on a
    number, [StringToNumber] is [Number(s)] on a string.  The three laws
    are facts of ECMAScript: [isNaN(NaN)], zero is falsy, and an
    integer-valued number survives printing and re-reading. *)
Class Numbers := {
  number : Type;
  NaN : number;
  neg_infinity : number;
  of_Z : Z -> number;
  NumberToString : number -> jsstring;
  StringToNumber : jsstring -> number;
  isNaN : number -> bool;
  is_zero : number -> bool;
  num_gtb : number -> number -> bool;
  num_add : number -> number -> number;
  isNaN_NaN : isNaN NaN = true;
  is_zero_0 : is_zero (of_Z 0) = true;
  int_roundtrip : forall z, StringToNumber (NumberToString (of_Z z)) = of_Z z
}.

(** ** Exceptions *)

Record error := mkError {
  name : jsstring;
  message : jsstring;
  response_status : option Z;   (* error.response?.status *)
  code : option jsstring        (* error.code *)
}.

(** [new Error(msg)] *)
Definition Error (msg : jsstring) : error := mkError (lit "Error") msg None None.
Definition TypeError (msg : jsstring) : error := mkError (lit "TypeError") msg None None.
Definition SyntaxError (msg : jsstring) : error := mkError (lit "SyntaxError") msg None None.
Definition RangeError (msg : jsstring) : error := mkError (lit "RangeError") msg None None.

(** [String(e)] on an error object (Error.prototype.toString). *)
Definition error_toString (e : error) : jsstring :=
  match name e, message e with
  | [], m => m
  | n, [] => n
  | n, m => n ++ lit ": " ++ m
  end.

Inductive completion (A : Type) : Type :=
| Return (a : A)
| Throw (e : error).
Arguments Return {A} a.
Arguments Throw {A} e.

Definition bind {A B} (c : completion A) (k : A -> completion B) : completion B :=
  match c with
  | Return a => k a
  | Throw e => Throw e
  end.

Declare Scope js_scope.
Delimit Scope js_scope with js.
Notation "'let*' x := c 'in' k" := (bind c (fun x => k))
  (at level 10, x name, c at level 100, k at level 200) : js_scope.
Open Scope js_scope.

(** [xs.map(f)] where [f] may throw: elements are visited left to right
    and the first exception ends the traversal. *)
Fixpoint map_c {A B} (f : A -> completion B) (xs : list A) : completion (list B) :=
  match xs with
  | [] => Return []
  | x :: xs' =>
      let* y := f x in
      let* ys := map_c f xs' in
      Return (y :: ys)
  end.

(** [xs.forEach(f)] where [f] may throw. *)
Fixpoint forEach {A} (f : A -> completion unit) (xs : list A) : completion unit :=
  match xs with
  | [] => Return tt
  | x :: xs' => let* _ := f x in forEach f xs'
  end.

(** ** Values *)

Section Values.
Context {NUM : Numbers}.

Inductive value : Type :=
| VUndef
| VNull
| VBool (b : bool)
| VNum (n : number)
| VStr (s : jsstring)
| VArr (items : list value)
| VObj (fields : list (jsstring * value)).

Definition fields := list (jsstring * value).

(** Truthiness: what [!v], [a && b] and [if (v)] test. *)
Definition ToBoolean (v : value) : bool :=
  match v with
  | VUndef | VNull => false
  | VBool b => b
  | VNum n => negb (is_zero n || isNaN n)
  | VStr [] => false
  | VStr (_ :: _) => true
  | VArr _ | VObj _ => true
  end.

(** [v !== undefined] *)
Definition defined (v : value) : bool :=
  match v with
  | VUndef => false
  | _ => true
  end.

(** [typeof v === 'object'] (true of null, arrays and objects). *)
Definition typeof_object (v : value) : bool :=
  match v with
  | VNull | VArr _ | VObj _ => true
  | _ => false
  end.

(** Own property of an object; [undefined] when absent. *)
Fixpoint lookup (k : jsstring) (fs : fields) : value :=
  match fs with
  | [] => VUndef
  | (k', v) :: fs' => if str_eqb k k' then v else lookup k fs'
  end.

(** [k in o] for an object [o]. *)
Fixpoint has_key (k : jsstring) (fs : fields) : bool :=
  match fs with
  | [] => false
  | (k', _) :: fs' => str_eqb k k' || has_key k fs'
  end.

(** Writing an own property: an existing one keeps its place, a new one
    is appended. *)
Fixpoint own_set (fs : fields) (k : jsstring) (v : value) : fields :=
  match fs with
  | [] => [(k, v)]
  | (k', v') :: fs' =>
      if str_eqb k k' then (k, v) :: fs' else (k', v') :: own_set fs' k v
  end.

(** The one name an assignment does not turn into an own property. *)
Definition PROTO : jsstring := lit "__proto__".

(** [o[k] = v] on an object that the script built from [{}] by such
    assignments.  For every name but [__proto__] this writes the own
    property.  For [__proto__] the assignment reaches the accessor
    inherited from Object.prototype: the object gets no own property (its
    prototype is replaced when [v] is an object or [null], and nothing
    happens otherwise).  Prototypes are outside the value model, so the
    own properties below are all that is kept of such an object, and what
    is proved about objects built by these assignments is stated for
    property names other than [__proto__]. *)
Definition obj_set (fs : fields) (k : jsstring) (v : value) : fields :=
  if str_eqb k PROTO then fs else own_set fs k v.

(** A property key that is an array index: the canonical decimal
    rendering of a natural number. *)
Definition digit_of (c : N) : option N :=
  if ((48 <=? c) && (c <=? 57))%N then Some (c - 48)%N else None.

Fixpoint digits_value (acc : N) (s : jsstring) : option N :=
  match s with
  | [] => Some acc
  | c :: s' =>
      match digit_of c with
      | Some d => digits_value (10 * acc + d)%N s'
      | None => None
      end
  end.

Definition index_of_key (k : jsstring) : option nat :=
  match k with
  | [] => None
  | _ :: _ =>
      match digits_value 0 k with
      | Some n => if str_eqb (dec (Z.of_N n)) k then Some (N.to_nat n) else None
      | None => None
      end
  end.

(** The names an object built from [{}] inherits from Object.prototype.
    A read of one of them on an object that does not own it gives the
    inherited function or accessor value, not [undefined]. *)
Definition prototype_names : list jsstring :=
  [ lit "constructor"; lit "__defineGetter__"; lit "__defineSetter__";
    lit "hasOwnProperty"; lit "__lookupGetter__"; lit "__lookupSetter__";
    lit "isPrototypeOf"; lit "propertyIsEnumerable"; lit "toString";
    lit "valueOf"; lit "__proto__"; lit "toLocaleString" ].

Definition inherited (k : jsstring) : bool := existsb (str_eqb k) prototype_names.

(** Property read [v[k]] / [v.k] of an own property.  Reading a property
    of [undefined] or [null] throws; arrays and strings own [length] and
    their indices; other primitives own nothing.  The members inherited
    from Object.prototype, Array.prototype and String.prototype
    ([constructor], [toString], [__proto__], [map], ...) are functions and
    accessors, outside the value model: [get] is the read of a name that
    is owned or not [inherited], as every name the scripts read is. *)
Definition get (v : value) (k : jsstring) : completion value :=
  match v with
  | VUndef =>
      Throw (TypeError (lit "Cannot read properties of undefined (reading '" ++ k ++ lit "')"))
  | VNull =>
      Throw (TypeError (lit "Cannot read properties of null (reading '" ++ k ++ lit "')"))
  | VObj fs => Return (lookup k fs)
  | VArr xs =>
      Return (if str_eqb k (lit "length") then VNum (of_Z (Z.of_nat (length xs)))
              else match index_of_key k with
                   | Some i => nth i xs VUndef
                   | None => VUndef
                   end)
  | VStr s =>
      Return (if str_eqb k (lit "length") then VNum (of_Z (Z.of_nat (length s)))
              else match index_of_key k with
                   | Some i => match nth_error s i with
                               | Some c => VStr [c]
                               | None => VUndef
                               end
                   | None => VUndef
                   end)
  | VBool _ | VNum _ => Return VUndef
  end.

(** [xs.join(',')] on already rendered elements. *)
Fixpoint join_comma (parts : list jsstring) : jsstring :=
  match parts with
  | [] => []
  | [p] => p
  | p :: rest => p ++ 44%N :: join_comma rest
  end.

(** [String(v)] *)
Fixpoint ToString (v : value) : jsstring :=
  match v with
  | VUndef => lit "undefined"
  | VNull => lit "null"
  | VBool true => lit "true"
  | VBool false => lit "false"
  | VNum n => NumberToString n
  | VStr s => s
  | VArr xs =>
      join_comma (List.map (fun x => match x with
                                     | VUndef | VNull => []
                                     | _ => ToString x
                                     end) xs)
  | VObj _ => lit "[object Object]"
  end.

(** [Number(v)] *)
Definition ToNumber (v : value) : number :=
  match v with
  | VUndef => NaN
  | VNull => of_Z 0
  | VBool true => of_Z 1
  | VBool false => of_Z 0
  | VNum n => n
  | VStr s => StringToNumber s
  | VArr _ | VObj _ => StringToNumber (ToString v)
  end.

(** The loops [for (const key in item) out[key] = f(item[key])] over the
    three kinds of [item] that have enumerable keys. *)
Fixpoint assign_fields (f : value -> completion value) (fs out : fields)
  : completion fields :=
  match fs with
  | [] => Return out
  | (k, v) :: fs' =>
      let* y := f v in
      assign_fields f fs' (obj_set out k y)
  end.

Fixpoint assign_indexed (f : value -> completion value) (i : nat) (xs : list value)
  (out : fields) : completion fields :=
  match xs with
  | [] => Return out
  | x :: xs' =>
      let* y := f x in
      assign_indexed f (S i) xs' (obj_set out (dec (Z.of_nat i)) y)
  end.

Fixpoint assign_chars (f : value -> completion value) (i : nat) (s : jsstring)
  (out : fields) : completion fields :=
  match s with
  | [] => Return out
  | c :: s' =>
      let* y := f (VStr [c]) in
      assign_chars f (S i) s' (obj_set out (dec (Z.of_nat i)) y)
  end.

(** ** JSON *)

(** [JSON.parse] returns a value or throws a SyntaxError (its message on
    the right); [JSON.stringify] returns a string, or [undefined] exactly
    on [undefined] within this value model.  The empty string is not a
    JSON text. *)
Class JSON := {
  JSON_parse : jsstring -> value + jsstring;
  JSON_stringify : value -> option jsstring;
  parse_empty : forall v, JSON_parse [] <> inl v;
  stringify_undefined : forall v, JSON_stringify v = None <-> v = VUndef
}.

Definition JSON_parse_c {J : JSON} (s : jsstring) : completion value :=
  match JSON_parse s with
  | inl v => Return v
  | inr msg => Throw (SyntaxError msg)
  end.

End Values.

Arguments value {NUM}.
Arguments fields {NUM}.
Arguments JSON {NUM}.

(* ================================================================== *)
(** * Part II.  The scripts                                            *)
(* ================================================================== *)

(** ** Text sanitizer (Lambda batch script) *)

(** [s.replace(/c/g, '')] for a one-character pattern [c]. *)
Definition remove_char (c : N) (s : jsstring) : jsstring :=
  filter (fun x => negb (x =? c)%N) s.

(** [s.replace(/c/g, r)] for a one-character pattern and replacement. *)
Definition replace_char (c r : N) (s : jsstring) : jsstring :=
  List.map (fun x => if (x =? c)%N then r else x) s.

(** The class [[^\x09\x0A\x0D\x20-\x7E\xa0-\uFFFF]]: what sanitizeText
    deletes. *)
Definition weird_char (c : N) : bool :=
  negb ((c =? 9) || (c =? 10) || (c =? 13)
        || (32 <=? c) && (c <=? 126)
        || (160 <=? c) && (c <=? 65535))%N.

Definition sanitizeText (text : jsstring) : jsstring :=
  filter (fun c => negb (weird_char c))
    (replace_char 13 10
      (replace_char 12 10
        (remove_char 0 text))).

(** [s.replace(/\r\n/g, ' ')] *)
Fixpoint replace_crlf (s : jsstring) : jsstring :=
  match s with
  | [] => []
  | c :: s' =>
      match s' with
      | d :: s'' =>
          if ((c =? 13) && (d =? 10))%N then 32%N :: replace_crlf s''
          else c :: replace_crlf s'
      | [] => [c]
      end
  end.

Definition starts_with_space (s : jsstring) : bool :=
  match s with
  | c :: _ => is_space c
  | [] => false
  end.

Lemma length_trimStart (s : jsstring) : (length (trimStart s) <= length s)%nat.
Proof.
  induction s as [|c s IH]; simpl; [lia|].
  destruct (is_space c); simpl; lia.
Qed.

(** [s.replace(/\s\s+/g, ' ')]: scanning from the left, a run of two or
    more white-space characters is consumed whole and becomes one space;
    any other character is copied. *)
Equations collapse_spaces (s : jsstring) : jsstring by wf (length s) lt :=
collapse_spaces [] := [];
collapse_spaces (c :: s') with is_space c && starts_with_space s' := {
  | true := 32%N :: collapse_spaces (trimStart s')
  | false := c :: collapse_spaces s' }.
Next Obligation. pose proof (length_trimStart s'). lia. Qed.

Definition normalizeForOneLine (text : jsstring) : jsstring :=
  trim
    (collapse_spaces
      (replace_char 9 32
        (replace_char 10 32
          (replace_char 13 32
            (replace_crlf
              (replace_char 12 32
                (remove_char 0 text))))))).

(** The sanitizer of the invoker: [normalizeForOneLine(sanitizeText(s))]. *)
Definition sanitize (s : jsstring) : jsstring :=
  normalizeForOneLine (sanitizeText s).

(** The payload text: the sanitized text between the two sentinels. *)
Definition RAW_TEXT_START : jsstring := lit "<<RAW_TEXT_START>>".
Definition RAW_TEXT_END : jsstring := lit "<<RAW_TEXT_END>>".

Definition safeText (assignmentText : jsstring) : jsstring :=
  RAW_TEXT_START ++ sanitize assignmentText ++ RAW_TEXT_END.

(** ** Result codec *)

Section CodecHelpers.
Context {NUM : Numbers}.

(** [o.k !== undefined ? found(o.k) : otherwise] on the own properties of
    an object. *)
Definition with_field {A} (k : jsstring) (fs : fields) (found : value -> A)
  (otherwise : A) : A :=
  (fix scan (fs : fields) : A :=
     match fs with
     | [] => otherwise
     | (k', v) :: fs' =>
         if str_eqb k k' then
           match v with
           | VUndef => otherwise
           | _ => found v
           end
         else scan fs'
     end) fs.

(** [l.map(f)] as a method call, where [receiver] is the source text of
    [l]: only an array has the method; reading it off [null] or
    [undefined] throws, and calling what any other value has in its place
    ([undefined]) throws too. *)
Definition map_method (receiver : string) (f : value -> completion value) (l : value)
  : completion value :=
  match l with
  | VArr xs => let* ys := map_c f xs in Return (VArr ys)
  | VNull => Throw (TypeError (lit "Cannot read properties of null (reading 'map')"))
  | VUndef =>
      Throw (TypeError (lit "Cannot read properties of undefined (reading 'map')"))
  | VBool _ | VNum _ | VStr _ | VObj _ =>
      Throw (TypeError (lit receiver ++ lit ".map is not a function"))
  end.

(** The pure loops [for (const key in obj) out[key] = f(obj[key])]. *)
Fixpoint put_fields (f : value -> value) (fs out : fields) : fields :=
  match fs with
  | [] => out
  | (k, v) :: fs' => put_fields f fs' (obj_set out k (f v))
  end.

Fixpoint put_indexed (f : value -> value) (i : nat) (xs : list value) (out : fields)
  : fields :=
  match xs with
  | [] => out
  | x :: xs' => put_indexed f (S i) xs' (obj_set out (dec (Z.of_nat i)) (f x))
  end.

Fixpoint put_chars (f : value -> value) (i : nat) (s : jsstring) (out : fields)
  : fields :=
  match s with
  | [] => out
  | c :: s' => put_chars f (S i) s' (obj_set out (dec (Z.of_nat i)) (f (VStr [c])))
  end.

(** [{ tag: v }] *)
Definition tagged (tag : string) (v : value) : value := VObj [(lit tag, v)].

End CodecHelpers.

(** *** The batch scripts' decoder (Lambda script and part2_Sagemaker.js) *)

Module Batch.
Section Decoder.
Context {NUM : Numbers}.

(** The body of the loop for one [val = item[key]]: the chain of tests on
    [val.S], [val.N], [val.BOOL], [val.M], [val.L].  Reading [val.S] throws
    when [val] is undefined or null; a primitive or an array has none of
    the five properties. *)
Definition convert_attr (convert : value -> completion value) (val : value)
  : completion value :=
  match val with
  | VUndef | VNull => let* _ := get val (lit "S") in Return val
  | VObj vfs =>
      with_field (lit "S") vfs (fun s => Return s)
      (with_field (lit "N") vfs (fun n => Return (VNum (ToNumber n)))
      (with_field (lit "BOOL") vfs (fun b => Return b)
      (with_field (lit "M") vfs (fun m => convert m)
      (with_field (lit "L") vfs (fun l => map_method "val.L" convert l)
      (Return val)))))
  | VBool _ | VNum _ | VStr _ | VArr _ => Return val
  end.

Fixpoint convert (item : value) : completion value :=
  if negb (ToBoolean item) then Return VNull
  else
    match item with
    | VObj fs =>
        let* out := assign_fields (convert_attr convert) fs [] in
        Return (VObj out)
    | VArr xs =>
        let* out := assign_indexed (convert_attr convert) 0 xs [] in
        Return (VObj out)
    | VStr s =>
        let* out := assign_chars (convert_attr convert) 0 s [] in
        Return (VObj out)
    | VUndef | VNull | VBool _ | VNum _ => Return (VObj [])
    end.

End Decoder.
End Batch.

(** *** The analytics script's decoder and encoder *)

Module Analytics.
Section Codec.
Context {NUM : Numbers}.

(** ['S' in item || 'N' in item || 'BOOL' in item || 'M' in item || 'L' in item] *)
Definition is_typed_wrapper (fs : fields) : bool :=
  has_key (lit "S") fs || has_key (lit "N") fs || has_key (lit "BOOL") fs
  || has_key (lit "M") fs || has_key (lit "L") fs.

(** On a non-empty string the loop calls [convert] on the one-character
    string [item[0]], whose own loop calls [convert] on the same string
    again: the recursion never ends and the engine throws a RangeError. *)
Definition stack_overflow : error :=
  RangeError (lit "Maximum call stack size exceeded").

Fixpoint convert (item : value) : completion value :=
  if negb (ToBoolean item) then Return VNull
  else
    match item with
    | VObj fs =>
        let as_map :=
          let* out := assign_fields convert fs [] in
          Return (VObj out) in
        if is_typed_wrapper fs then
          with_field (lit "S") fs (fun s => Return s)
          (with_field (lit "N") fs (fun n => Return (VNum (ToNumber n)))
          (with_field (lit "BOOL") fs (fun b => Return b)
          (with_field (lit "M") fs (fun m => convert m)
          (with_field (lit "L") fs (fun l => map_method "item.L" convert l)
          as_map))))
        else as_map
    | VArr xs =>
        let* out := assign_indexed convert 0 xs [] in
        Return (VObj out)
    | VStr [] => Return (VObj [])
    | VStr (_ :: _) => Throw stack_overflow
    | VUndef | VNull | VBool _ | VNum _ => Return (VObj [])
    end.

(** The callback of [val.map(...)] inside toDynamoDBFormat. *)
Definition encode_item (toDynamoDBFormat : value -> value) (item : value) : value :=
  match item with
  | VStr _ => tagged "S" item
  | VNum n => tagged "N" (VStr (NumberToString n))
  | VBool _ => tagged "BOOL" item
  | VNull | VArr _ | VObj _ => tagged "M" (toDynamoDBFormat item)
  | VUndef => tagged "S" (VStr (ToString item))
  end.

(** The chain of [typeof] tests on [val = obj[key]]. *)
Definition encode_attr (toDynamoDBFormat : value -> value) (val : value) : value :=
  match val with
  | VStr _ => tagged "S" val
  | VNum n => tagged "N" (VStr (NumberToString n))
  | VBool _ => tagged "BOOL" val
  | VArr items => tagged "L" (VArr (List.map (encode_item toDynamoDBFormat) items))
  | VNull | VObj _ => tagged "M" (toDynamoDBFormat val)
  | VUndef => tagged "S" (VStr (ToString val))
  end.

(** The keys of a string are its indices and every [val] is then a
    one-character string, for which the chain stops at its first test. *)
Fixpoint toDynamoDBFormat (obj : value) : value :=
  match obj with
  | VUndef | VNull => VNull
  | VObj fs => VObj (put_fields (encode_attr toDynamoDBFormat) fs [])
  | VArr xs => VObj (put_indexed (encode_attr toDynamoDBFormat) 0 xs [])
  | VStr s => VObj (put_chars (tagged "S") 0 s [])
  | VBool _ | VNum _ => VObj []
  end.

End Codec.
End Analytics.

(** ** Result validator (identical in the Lambda script and part2_Sagemaker.js) *)

Section Validator.
Context {NUM : Numbers}.

Definition required : list jsstring :=
  [ lit "analyticsId"; lit "assignmentId"; lit "gradeReceived";
    lit "aiGeneratedAnalytics"; lit "plagarismAnalytics";
    lit "gradeReasoning"; lit "remarks" ].

Definition missing_field (field : jsstring) : error :=
  Error (lit "Missing required field: " ++ field).

(** The callback of [required.forEach]. *)
Definition check_field (result : value) (field : jsstring) : completion unit :=
  let* v := get result field in
  if negb (ToBoolean v) then Throw (missing_field field) else Return tt.

Definition validateDynamoDBStructure (result : value) : completion bool :=
  let* _ := forEach (check_field result) required in
  Return true.

End Validator.

(** ** Effects: the outside world and the trace of what a run did to it *)

Section Pipeline.
Context {NUM : Numbers} {J : JSON}.

(** The body the Lambda invoker posts. *)
Record payload := mkPayload {
  assignmentText : jsstring;
  assignmentId : jsstring;
  analyticsId : number
}.

(** What the network does with one request: an HTTP reply (status and the
    body as axios hands it over in [response.data]), or no reply at all
    (time-out, connection failure) with the error the client raises. *)
Inductive http_outcome :=
| Reply (status : Z) (data : value)
| NoReply (e : error).

(** The collaborators: the result store, the local text directory, the
    grading endpoint behind API Gateway (what attempt number [k] of a
    request meets) and the SageMaker runtime endpoint. *)
Record world := mkWorld {
  scan : completion (list value);
  readdir : completion (list jsstring);
  readFile : jsstring -> completion jsstring;
  http : payload -> Z -> http_outcome;
  sagemaker : jsstring -> jsstring -> number -> completion jsstring;
  putItem : value -> completion unit
}.

Inductive event :=
| EvScan
| EvReaddir
| EvRead (path : jsstring)
| EvPost (attempt : Z) (p : payload)
| EvSleep (ms : Z)
| EvSagemaker (assignment_id : jsstring)
| EvPut (item : value).

(** An effectful computation: the events it caused, in order, and how it
    completed. *)
Definition io (A : Type) : Type := (list event * completion A)%type.

Definition ret {A} (a : A) : io A := ([], Return a).
Definition throw {A} (e : error) : io A := ([], Throw e).
Definition emit (ev : event) : io unit := ([ev], Return tt).
Definition lift {A} (c : completion A) : io A := ([], c).

Definition io_bind {A B} (c : io A) (k : A -> io B) : io B :=
  match c with
  | (tr, Return a) => let (tr', r) := k a in (tr ++ tr', r)
  | (tr, Throw e) => (tr, Throw e)
  end.

(** [try { c } catch (e) { handler(e) }] *)
Definition try_catch {A} (c : io A) (handler : error -> io A) : io A :=
  match c with
  | (tr, Return a) => (tr, Return a)
  | (tr, Throw e) => let (tr', r) := handler e in (tr ++ tr', r)
  end.

Notation "'let+' x := c 'in' k" := (io_bind c (fun x => k))
  (at level 10, x name, c at level 100, k at level 200).

(** ** Endpoint invoker with retries (Lambda batch script) *)

Definition MAX_RETRIES : Z := 3.
Definition TIMEOUT_MS : Z := 60000.

Inductive axios_result :=
| Resolved (status : Z) (data : value)
| Rejected (e : error).

Definition ERR_BAD_REQUEST : jsstring := lit "ERR_BAD_REQUEST".
Definition ERR_BAD_RESPONSE : jsstring := lit "ERR_BAD_RESPONSE".
Definition ECONNABORTED : jsstring := lit "ECONNABORTED".

(** The error axios raises for a reply outside 2xx. *)
Definition status_error (status : Z) : error :=
  mkError (lit "AxiosError")
    (lit "Request failed with status code " ++ dec status)
    (Some status)
    (if (400 <=? status) && (status <? 500) then Some ERR_BAD_REQUEST
     else if (500 <=? status) && (status <? 600) then Some ERR_BAD_RESPONSE
     else None)%Z.

(** The error axios raises when [timeout] elapses. *)
Definition timeout_error : error :=
  mkError (lit "AxiosError")
    (lit "timeout of " ++ dec TIMEOUT_MS ++ lit "ms exceeded")
    None (Some ECONNABORTED).

(** [axios.post] with the default [validateStatus]: a 2xx reply resolves,
    any other reply rejects with an error that carries the response. *)
Definition axios_post (w : world) (p : payload) (attempt : Z) : io axios_result :=
  let+ _ := emit (EvPost attempt p) in
  ret (match http w p attempt with
       | Reply status data =>
           if ((200 <=? status) && (status <? 300))%Z then Resolved status data
           else Rejected (status_error status)
       | NoReply e => Rejected e
       end).

(** [JSON.stringify(v).substring(0, n)]; calling [substring] on
    [undefined] throws. *)
Definition stringify_prefix (n : nat) (v : value) : completion jsstring :=
  match JSON_stringify v with
  | Some t => Return (substring0 n t)
  | None =>
      Throw (TypeError (lit "Cannot read properties of undefined (reading 'substring')"))
  end.

Definition unknown_format (result : value) : completion value :=
  let* snippet := stringify_prefix 200 result in
  Throw (Error (lit "Unknown response format. Expected DynamoDB JSON or SageMaker array. Got: "
                ++ snippet)).

(** The second and third branches of the shape test: the old SageMaker
    array format, or the unknown-format error. *)
Definition decode_legacy (result : value) : completion value :=
  match result with
  | VArr (first :: _) =>
      let* generated_text := get first (lit "generated_text") in
      if ToBoolean generated_text
      then JSON_parse_c (ToString generated_text)
      else unknown_format result
  | _ => unknown_format result
  end.

(** [result.analyticsId && result.analyticsId.N !== undefined] *)
Definition is_dynamodb_format (result : value) : completion bool :=
  let* aid := get result (lit "analyticsId") in
  if ToBoolean aid
  then let* n := get aid (lit "N") in Return (defined n)
  else Return false.

(** The inner [try] block: reconcile the two response shapes. *)
Definition parse_response (raw : value) : completion value :=
  let* result := match raw with
                 | VStr s => JSON_parse_c s
                 | _ => Return raw
                 end in
  let* dynamodb := is_dynamodb_format result in
  if dynamodb then Return result else decode_legacy result.

(** One pass through the outer [try] block. *)
Definition attempt_once (w : world) (text id : jsstring) (aid : number) (attempt : Z)
  : io value :=
  let p := mkPayload (safeText text) id aid in
  let+ response := axios_post w p attempt in
  match response with
  | Rejected e => throw e
  | Resolved status raw =>
      let+ _ := lift (stringify_prefix 500 raw) in
      if (status >=? 400)%Z then
        match JSON_stringify raw with
        | Some t => throw (Error (lit "Lambda returned HTTP " ++ dec status ++ lit ": " ++ t))
        | None => throw (Error (lit "Lambda returned HTTP " ++ dec status ++ lit ": undefined"))
        end
      else lift (parse_response raw)
  end.

Definition status_is (s : Z) (e : error) : bool :=
  match response_status e with
  | Some s' => (s' =? s)%Z
  | None => false
  end.

Definition code_is (c : jsstring) (e : error) : bool :=
  match code e with
  | Some c' => str_eqb c' c
  | None => false
  end.

(** The outer [catch]: sleep and go round again, or give up. *)
Definition on_error (attempt : Z) (e : error) (continue : io value) : io value :=
  if (attempt <? MAX_RETRIES)%Z && (status_is 502 e || code_is ECONNABORTED e) then
    let+ _ := emit (EvSleep (1000 * attempt)) in
    continue
  else if (attempt =? MAX_RETRIES)%Z then
    throw (Error (lit "Lambda invocation failed after " ++ dec MAX_RETRIES
                  ++ lit " attempts: " ++ message e))
  else throw e.

(** [for (let attempt = 1; attempt <= MAX_RETRIES; attempt++)], over the
    attempt numbers still to come.  Falling out of the loop returns
    [undefined]. *)
Fixpoint attempts (w : world) (text id : jsstring) (aid : number) (todo : list Z)
  : io value :=
  match todo with
  | [] => ret VUndef
  | attempt :: todo' =>
      try_catch (attempt_once w text id aid attempt)
                (fun e => on_error attempt e (attempts w text id aid todo'))
  end.

Definition attempt_numbers : list Z :=
  List.map Z.of_nat (seq 1 (Z.to_nat MAX_RETRIES)).

Definition invokeModelEndpoint (w : world) (text id : jsstring) (aid : number)
  : io value :=
  attempts w text id aid attempt_numbers.

(** ** Endpoint invoker of part2_Sagemaker.js: one call, no retry.  The
    request carries the constant system prompt beside the three fields
    passed on here. *)
Definition invokeSagemaker (w : world) (text id : jsstring) (aid : number) : io value :=
  let+ _ := emit (EvSagemaker id) in
  let+ raw := lift (sagemaker w text id aid) in
  lift (JSON_parse_c raw).

(** ** Persistence *)

(** [saveAnalysisToDynamoDB]: the write, then the log line that reads
    [result.assignmentId.N]. *)
Definition saveAnalysisToDynamoDB (w : world) (result : value) : io unit :=
  let+ _ := emit (EvPut result) in
  let+ _ := lift (putItem w result) in
  let+ aid := lift (get result (lit "assignmentId")) in
  let+ _ := lift (get aid (lit "N")) in
  ret tt.

(** ** Batch orchestrator *)

Inductive status := SUCCESS | FAILED.

(** One entry of [results]. *)
Record outcome := mkOutcome {
  outcome_id : jsstring;            (* assignmentId *)
  outcome_status : status;
  outcome_error : option jsstring   (* error, when present *)
}.

Inductive body :=
| Results (results : list outcome)   (* JSON.stringify(results, null, 2) *)
| Message (text : jsstring)          (* { message } *)
| ErrorBody (text : jsstring).       (* { error } *)

Record response := mkResponse {
  statusCode : Z;
  response_body : body
}.

Definition LOCAL_CONVERTED_DIR : jsstring := lit "./converted".

(** [path.join(CONFIG.LOCAL_CONVERTED_DIR, filename)] for a directory
    entry: the leading [./] is normalised away. *)
Definition fullPath (filename : jsstring) : jsstring :=
  lit "converted/" ++ filename.

(** [filename.replace(path.extname(filename), '')] *)
Definition derived_id (filename : jsstring) : jsstring :=
  remove_first (extname filename) filename.

Definition readAssignmentFromLocal (w : world) (filename : jsstring)
  : io (jsstring * jsstring) :=
  let+ _ := emit (EvRead (fullPath filename)) in
  match readFile w (fullPath filename) with
  | Return text => ret (text, derived_id filename)
  | Throw e =>
      throw (Error (lit "Failed to read file " ++ fullPath filename
                    ++ lit ": " ++ message e))
  end.

(** [(saveErr && saveErr.message) || String(saveErr)] *)
Definition save_error_text (e : error) : jsstring :=
  match message e with
  | [] => error_toString e
  | m => m
  end.

(** What differs between the two handlers: the invoker, whether the
    validation call is live, and the batch id handed to the invoker. *)
Record variant := mkVariant {
  invoke : world -> jsstring -> jsstring -> number -> io value;
  validates : bool;
  batch_id : number -> number
}.

(** The Lambda script: retrying invoker, validation commented out,
    [maxId + 1]. *)
Definition lambda_script : variant :=
  mkVariant invokeModelEndpoint false (fun maxId => num_add maxId (of_Z 1)).

(** part2_Sagemaker.js: single-shot invoker, validation live, [maxId]. *)
Definition sagemaker_script : variant :=
  mkVariant invokeSagemaker true (fun maxId => maxId).

(** The body of [for (const file of txtFiles)]: the new contents of
    [results]. *)
Definition process_file (v : variant) (w : world) (aid : number)
  (results : list outcome) (file : jsstring) : io (list outcome) :=
  try_catch
    (let+ loaded := readAssignmentFromLocal w file in
     let (text, id) := loaded in
     if isNaN (StringToNumber id) then ret results
     else
       let+ modelResult := invoke v w text id aid in
       let+ _ := (if validates v then lift (validateDynamoDBStructure modelResult)
                  else ret true) in
       try_catch
         (let+ _ := saveAnalysisToDynamoDB w modelResult in
          ret (results ++ [mkOutcome id SUCCESS None]))
         (fun saveErr =>
            ret (results ++ [mkOutcome id FAILED (Some (save_error_text saveErr))])))
    (fun e =>
       ret (results ++ [mkOutcome (remove_first (lit ".txt") file) FAILED
                          (Some (message e))])).

Fixpoint process_files (v : variant) (w : world) (aid : number)
  (results : list outcome) (files : list jsstring) : io (list outcome) :=
  match files with
  | [] => ret results
  | file :: files' =>
      let+ results' := process_file v w aid results file in
      process_files v w aid results' files'
  end.

(** The loop that finds the highest numeric analyticsId. *)
Fixpoint highest_id (maxId : number) (allAssignments : list value) : completion number :=
  match allAssignments with
  | [] => Return maxId
  | a :: rest =>
      let* aid := get a (lit "analyticsId") in
      let id := ToNumber aid in
      highest_id (if negb (isNaN id) && num_gtb id maxId then id else maxId) rest
  end.

(** The part of the handler before its [try]: scan the table, decode
    every row, find the highest id. *)
Definition highest_analyticsId (w : world) : completion number :=
  let* items := scan w in
  let* allAssignments := map_c Batch.convert items in
  highest_id neg_infinity allAssignments.

Definition handler (v : variant) (w : world) : io response :=
  let+ _ := emit EvScan in
  let+ maxId := lift (highest_analyticsId w) in
  try_catch
    (let+ _ := emit EvReaddir in
     let+ files := lift (readdir w) in
     let txtFiles := filter (fun f => endsWith f (lit ".txt")) files in
     match txtFiles with
     | [] => ret (mkResponse 400 (Message (lit "No converted files found.")))
     | _ :: _ =>
         let+ results := process_files v w (batch_id v maxId) [] txtFiles in
         ret (mkResponse 200 (Results results))
     end)
    (fun e => ret (mkResponse 500 (ErrorBody (message e)))).

End Pipeline.

Notation "'let+' x := c 'in' k" := (io_bind c (fun x => k))
  (at level 10, x name, c at level 100, k at level 200) : js_scope.

(** ** Analytics summary (analytics script) *)

Module Summary.

(** What the summary functions use of the runtime's arithmetic beyond
    the class [Numbers]: [Infinity], [===] on numbers, [Math.max],
    [Math.min], [*], [/] and [Math.round]. *)
Class Arithmetic {NUM : Numbers} := {
  pos_infinity : number;
  num_eqb : number -> number -> bool;
  num_max : number -> number -> number;
  num_min : number -> number -> number;
  num_mul : number -> number -> number;
  num_div : number -> number -> number;
  num_round : number -> number
}.

Section Script.
Context {NUM : Numbers} {AR : Arithmetic}.

(** [v || 0] *)
Definition or_zero (v : value) : value :=
  if ToBoolean v then v else VNum (of_Z 0).

(** [o && o.k]: the property when [o] is truthy, [o] itself otherwise. *)
Definition and_get (o : value) (k : jsstring) : completion value :=
  if ToBoolean o then get o k else Return o.

(** [a + b]: an object or an array becomes a string first; with a string
    on either side the operands are concatenated, otherwise they are added
    as numbers. *)
Definition stringy (v : value) : bool :=
  match v with
  | VStr _ | VArr _ | VObj _ => true
  | _ => false
  end.

Definition js_add (a b : value) : value :=
  if stringy a || stringy b then VStr (ToString a ++ ToString b)
  else VNum (num_add (ToNumber a) (ToNumber b)).

(** [v > n] for a number [n]. *)
Definition js_gt (v : value) (n : number) : bool := num_gtb (ToNumber v) n.

(** [v === n] for a number [n]. *)
Definition strict_equals (v : value) (n : number) : bool :=
  match v with
  | VNum m => num_eqb m n
  | _ => false
  end.

(** [Math.round(x * 100) / 100] *)
Definition round2 (x : number) : number :=
  num_div (num_round (num_mul x (of_Z 100))) (of_Z 100).

(** [xs.filter(p)] where [p] may throw. *)
Fixpoint filter_c {A} (p : A -> completion bool) (xs : list A) : completion (list A) :=
  match xs with
  | [] => Return []
  | x :: xs' =>
      let* keep := p x in
      let* rest := filter_c p xs' in
      Return (if keep then x :: rest else rest)
  end.

(** [xs.forEach(f)] where [f] updates the enclosing variables [s]. *)
Fixpoint fold_c {A S} (f : S -> A -> completion S) (xs : list A) (s : S) : completion S :=
  match xs with
  | [] => Return s
  | x :: xs' => let* s' := f s x in fold_c f xs' s'
  end.

(** The counters and collectors of generateAnalyticsSummary.  A counter
    that only ever grows by [++] from 0 is a natural number. *)
Record tally := mkTally {
  submissionCount : nat;
  totalGrade : value;
  topGrade : number;
  bottomGrade : number;
  totalAIPercentage : value;
  countAIUsed : nat;
  countAIOver70 : nat;
  totalPlagiarism : value;
  countPlagiarized : nat;
  listAIAbove70 : list value;
  listPlagiarismAbove50 : list value
}.

Definition count (n : nat) : number := of_Z (Z.of_nat n).

Definition initial : tally :=
  mkTally 0 (VNum (of_Z 0)) neg_infinity pos_infinity (VNum (of_Z 0)) 0 0
          (VNum (of_Z 0)) 0 [] [].

(** The callback of [filtered.forEach].  Its property reads are gathered
    at the top: a read of [item] throws only when [item] is [null] or
    [undefined], and then the first one does. *)
Definition tally_item (t : tally) (item : value) : completion tally :=
  let* gradeReceived := get item (lit "gradeReceived") in
  let grade := or_zero gradeReceived in
  let* ai := get item (lit "aiGeneratedAnalytics") in
  let* aiUsed := and_get ai (lit "percentageOfAIUsed") in
  let aiPercentage := or_zero aiUsed in
  let* assignmentId := get item (lit "assignmentId") in
  let* plag := get item (lit "plagarismAnalytics") in
  let* plagUsed := and_get plag (lit "plagarisedPercentage") in
  let plagiarismPercentage := or_zero plagUsed in
  Return
    (mkTally
       (S (submissionCount t))
       (js_add (totalGrade t) grade)
       (num_max (topGrade t) (ToNumber grade))
       (num_min (bottomGrade t) (ToNumber grade))
       (js_add (totalAIPercentage t) aiPercentage)
       (if js_gt aiPercentage (of_Z 0) then S (countAIUsed t) else countAIUsed t)
       (if js_gt aiPercentage (of_Z 70) then S (countAIOver70 t) else countAIOver70 t)
       (js_add (totalPlagiarism t) plagiarismPercentage)
       (if js_gt plagiarismPercentage (of_Z 0) then S (countPlagiarized t)
        else countPlagiarized t)
       (if js_gt aiPercentage (of_Z 70)
        then listAIAbove70 t ++ [VObj [ (lit "assignmentId", assignmentId);
                                        (lit "aiPercentage", aiPercentage);
                                        (lit "grade", grade) ]]
        else listAIAbove70 t)
       (if js_gt plagiarismPercentage (of_Z 50)
        then listPlagiarismAbove50 t
             ++ [VObj [ (lit "assignmentId", assignmentId);
                        (lit "plagiarismPercentage", plagiarismPercentage);
                        (lit "grade", grade) ]]
        else listPlagiarismAbove50 t)).

(** [total / n], rounded to two decimals. *)
Definition average (total : value) (n : nat) : number :=
  round2 (num_div (ToNumber total) (count n)).

(** The object literal [summary]. *)
Definition summary_of (analyticsId : number) (timestamp : jsstring) (t : tally) : value :=
  VObj
    [ (lit "analyticsId", VNum analyticsId);
      (lit "timestamp", VStr timestamp);
      (lit "submissionCount", VNum (count (submissionCount t)));
      (lit "gradeDistribution",
         VObj [ (lit "topGrade",
                   VNum (if num_eqb (topGrade t) neg_infinity then of_Z 0 else topGrade t));
                (lit "bottomGrade",
                   VNum (if num_eqb (bottomGrade t) pos_infinity then of_Z 0
                         else bottomGrade t));
                (lit "averageGrade",
                   VNum (if (0 <? submissionCount t)%nat
                         then average (totalGrade t) (submissionCount t)
                         else of_Z 0)) ]);
      (lit "aiGeneratedAnalytics",
         VObj [ (lit "averagePercentageOfAIUsed",
                   VNum (if (0 <? countAIUsed t)%nat
                         then average (totalAIPercentage t) (submissionCount t)
                         else of_Z 0));
                (lit "countOfAssignmentsUsedAI", VNum (count (countAIUsed t)));
                (lit "countOfAssignmentsUsedAIOver70", VNum (count (countAIOver70 t))) ]);
      (lit "plagarismAnalytics",
         VObj [ (lit "noOfPlagarisedAssignments", VNum (count (countPlagiarized t)));
                (lit "averagePercentageOfPlagarism",
                   VNum (if (0 <? countPlagiarized t)%nat
                         then average (totalPlagiarism t) (countPlagiarized t)
                         else of_Z 0)) ]);
      (lit "listOfAIGeneratedAssignementsAbove70", VArr (listAIAbove70 t));
      (lit "listOfPlagarisedAssignmentsAbove50", VArr (listPlagiarismAbove50 t)) ].

(** The callback of [allAssignments.filter]. *)
Definition of_batch (analyticsId : number) (e : value) : completion bool :=
  let* id := get e (lit "analyticsId") in
  Return (strict_equals id analyticsId).

(** generateAnalyticsSummary: [scan] is what the Scan of
    assignment_analysis_data returns in [Items], [timestamp] is
    [new Date().toISOString()].  The [catch] logs and rethrows. *)
Definition generateAnalyticsSummary (scan : completion (list value))
  (timestamp : jsstring) (analyticsId : number) : completion value :=
  let* items := scan in
  let* allAssignments := map_c Analytics.convert items in
  let* filtered := filter_c (of_batch analyticsId) allAssignments in
  let* t := fold_c tally_item filtered initial in
  Return (summary_of analyticsId timestamp t).

(** A write to a table, and a computation with the writes it made. *)
Definition written (A : Type) : Type := (list (jsstring * value) * completion A)%type.

(** uploadAnalyticsSummary: [put] is the PutItem call; the log line after
    it reads [summary.analyticsId]. *)
Definition uploadAnalyticsSummary (put : jsstring -> value -> completion unit)
  (summary : value) (summaryTableName : jsstring) : written value :=
  let dynamoDBItem := Analytics.toDynamoDBFormat summary in
  ([(summaryTableName, dynamoDBItem)],
   let* _ := put summaryTableName dynamoDBItem in
   let* _ := get summary (lit "analyticsId") in
   Return summary).

(** [main] of the analytics script. *)
Definition main (scan : completion (list value)) (timestamp : jsstring)
  (put : jsstring -> value -> completion unit) : written unit :=
  match generateAnalyticsSummary scan timestamp (of_Z 1) with
  | Throw e => ([], Throw e)
  | Return summary =>
      let (writes, r) := uploadAnalyticsSummary put summary (lit "analysis_data") in
      (writes, let* _ := r in Return tt)
  end.

(** *** Home data (the same script) *)

(** Iterating a value in [push(...v)]: an array gives its elements, a
    string its code points (a surrogate pair is one element); any other
    truthy value is not iterable. *)
Definition high_surrogate (c : N) : bool := ((55296 <=? c) && (c <=? 56319))%N.
Definition low_surrogate (c : N) : bool := ((56320 <=? c) && (c <=? 57343))%N.

Fixpoint code_points (s : jsstring) : list value :=
  match s with
  | [] => []
  | c :: s' =>
      match s' with
      | d :: s'' =>
          if high_surrogate c && low_surrogate d
          then VStr [c; d] :: code_points s''
          else VStr [c] :: code_points s'
      | [] => [VStr [c]]
      end
  end.

Definition not_iterable : error :=
  TypeError (lit "Spread syntax requires ...iterable[Symbol.iterator] to be a function").

Definition spread (v : value) : completion (list value) :=
  match v with
  | VArr xs => Return xs
  | VStr s => Return (code_points s)
  | _ => Throw not_iterable
  end.

(** [if (v) list.push(...v)] *)
Definition push_all (target : list value) (v : value) : completion (list value) :=
  if ToBoolean v then let* xs := spread v in Return (target ++ xs) else Return target.

(** [o?.k] *)
Definition optional_get (o : value) (k : jsstring) : completion value :=
  match o with
  | VUndef | VNull => Return VUndef
  | _ => get o k
  end.

(** [Math.max(...xs)] and [Math.min(...xs)] *)
Definition max_of (xs : list value) : number :=
  fold_left (fun m x => num_max m (ToNumber x)) xs neg_infinity.

Definition min_of (xs : list value) : number :=
  fold_left (fun m x => num_min m (ToNumber x)) xs pos_infinity.

(** The aggregators of generateHomeDataSummary. *)
Record home_tally := mkHomeTally {
  totalNoAssignments : nat;
  analyzedAssignments : nat;
  totalSubmissionCount : value;
  totalTopGrades : value;
  totalBottomGrades : value;
  totalAverageGrades : value;
  homeTotalAIPercentage : value;
  totalCountAIUsed : value;
  totalCountAIOver70 : value;
  totalPlagiarizedAssignments : value;
  totalPlagiarismPercentage : value;
  aggregatedAIAbove70 : list value;
  aggregatedPlagiarismAbove50 : list value
}.

Definition home_initial : home_tally :=
  let zero := VNum (of_Z 0) in
  mkHomeTally 0 0 zero zero zero zero zero zero zero zero zero [] [].

(** [total += o.k || 0] *)
Definition add_field (total o : value) (k : jsstring) : completion value :=
  let* v := get o k in Return (js_add total (or_zero v)).

(** The callback of [allSummaries.forEach]. *)
Definition home_item (t : home_tally) (summary : value) : completion home_tally :=
  let* submissions := add_field (totalSubmissionCount t) summary (lit "submissionCount") in
  let* gd := get summary (lit "gradeDistribution") in
  let* grades :=
    (if ToBoolean gd then
       let* top := add_field (totalTopGrades t) gd (lit "topGrade") in
       let* bottom := add_field (totalBottomGrades t) gd (lit "bottomGrade") in
       let* avg := add_field (totalAverageGrades t) gd (lit "averageGrade") in
       Return (top, bottom, avg)
     else Return (totalTopGrades t, totalBottomGrades t, totalAverageGrades t)) in
  let* ai := get summary (lit "aiGeneratedAnalytics") in
  let* ais :=
    (if ToBoolean ai then
       let* pct := add_field (homeTotalAIPercentage t) ai (lit "averagePercentageOfAIUsed") in
       let* used := add_field (totalCountAIUsed t) ai (lit "countOfAssignmentsUsedAI") in
       let* over := add_field (totalCountAIOver70 t) ai
                      (lit "countOfAssignmentsUsedAIOver70") in
       Return (pct, used, over)
     else Return (homeTotalAIPercentage t, totalCountAIUsed t, totalCountAIOver70 t)) in
  let* pl := get summary (lit "plagarismAnalytics") in
  let* pls :=
    (if ToBoolean pl then
       let* n := add_field (totalPlagiarizedAssignments t) pl
                   (lit "noOfPlagarisedAssignments") in
       let* pct := add_field (totalPlagiarismPercentage t) pl
                     (lit "averagePercentageOfPlagarism") in
       Return (n, pct)
     else Return (totalPlagiarizedAssignments t, totalPlagiarismPercentage t)) in
  let* l1 := get summary (lit "listOfAIGeneratedAssignementsAbove70") in
  let* above70 := push_all (aggregatedAIAbove70 t) l1 in
  let* l2 := get summary (lit "listOfPlagarisedAssignmentsAbove50") in
  let* above50 := push_all (aggregatedPlagiarismAbove50 t) l2 in
  let '(top, bottom, avg) := grades in
  let '(pct, used, over) := ais in
  let '(plagiarized, plagiarism) := pls in
  Return (mkHomeTally (S (totalNoAssignments t)) (S (analyzedAssignments t))
            submissions top bottom avg pct used over plagiarized plagiarism
            above70 above50).

(** [s.gradeDistribution?.k || 0], the callback of the two [map] calls. *)
Definition grade_of (k : jsstring) (s : value) : completion value :=
  let* gd := get s (lit "gradeDistribution") in
  let* g := optional_get gd k in
  Return (or_zero g).

(** [total / analyzedAssignments], rounded to two decimals. *)
Definition home_average (total : value) (t : home_tally) : number :=
  round2 (num_div (ToNumber total) (count (analyzedAssignments t))).

(** The object literal [homeData]. *)
Definition home_data_of (timestamp : jsstring) (allSummaries : list value)
  (t : home_tally) : completion value :=
  let* topGrade :=
    (if js_gt (totalTopGrades t) (of_Z 0)
     then let* tops := map_c (grade_of (lit "topGrade")) allSummaries in
          Return (max_of tops)
     else Return (of_Z 0)) in
  let* bottomGrade :=
    (if js_gt (totalBottomGrades t) (of_Z 0)
     then let* bottoms := map_c (grade_of (lit "bottomGrade")) allSummaries in
          Return (min_of bottoms)
     else Return (of_Z 0)) in
  let analyzed := (0 <? analyzedAssignments t)%nat in
  Return (VObj
    [ (lit "id", VNum (of_Z 1));
      (lit "isAssignmentToBeAnalyzed",
         VBool (num_gtb (count (totalNoAssignments t)) (count (analyzedAssignments t))));
      (lit "totalNoAssignments", VNum (count (totalNoAssignments t)));
      (lit "analyzedAssignments", VNum (count (analyzedAssignments t)));
      (lit "averageSubmissionCount",
         VNum (if analyzed then home_average (totalSubmissionCount t) t else of_Z 0));
      (lit "gradeDistribution",
         VObj [ (lit "topGrade", VNum topGrade);
                (lit "bottomGrade", VNum bottomGrade);
                (lit "averageGrade",
                   VNum (if analyzed then home_average (totalAverageGrades t) t
                         else of_Z 0)) ]);
      (lit "aiGeneratedAnalytics",
         VObj [ (lit "averagePercentageOfAIUsed",
                   VNum (if analyzed then home_average (homeTotalAIPercentage t) t
                         else of_Z 0));
                (lit "countOfAssignmentsUsedAI", totalCountAIUsed t);
                (lit "countOfAssignmentsUsedAIOver70", totalCountAIOver70 t) ]);
      (lit "plagarismAnalytics",
         VObj [ (lit "noOfPlagarisedAssignments", totalPlagiarizedAssignments t);
                (lit "averagePercentageOfPlagarism",
                   VNum (if js_gt (totalPlagiarizedAssignments t) (of_Z 0)
                         then home_average (totalPlagiarismPercentage t) t
                         else of_Z 0)) ]);
      (lit "listOfAIGeneratedAssignementsAbove70", VArr (aggregatedAIAbove70 t));
      (lit "listOfPlagarisedAssignmentsAbove50", VArr (aggregatedPlagiarismAbove50 t));
      (lit "timestamp", VStr timestamp) ]).

(** generateHomeDataSummary: [scan] is what the Scan of analysis_data
    returns in [Items]. *)
Definition generateHomeDataSummary (scan : completion (list value))
  (timestamp : jsstring) : completion value :=
  let* items := scan in
  let* allSummaries := map_c Analytics.convert items in
  let* t := fold_c home_item allSummaries home_initial in
  home_data_of timestamp allSummaries t.

Definition uploadHomeDataSummary (put : jsstring -> value -> completion unit)
  (homeData : value) : written value :=
  let dynamoDBItem := Analytics.toDynamoDBFormat homeData in
  ([(lit "home_data", dynamoDBItem)],
   let* _ := put (lit "home_data") dynamoDBItem in
   Return homeData).

Definition updateHomeData (scan : completion (list value)) (timestamp : jsstring)
  (put : jsstring -> value -> completion unit) : written unit :=
  match generateHomeDataSummary scan timestamp with
  | Throw e => ([], Throw e)
  | Return homeData =>
      let (writes, r) := uploadHomeDataSummary put homeData in
      (writes, let* _ := r in Return tt)
  end.

End Script.
End Summary.

(** ** PDF conversion (fetch-and-convert script) *)

Module Conversion.

(** [s.replace(pat, rep)] with a string pattern and a replacement without
    [$]: the first occurrence of [pat] is replaced. *)
Fixpoint replace_first (pat rep s : jsstring) : jsstring :=
  if starts_with pat s then rep ++ skipn (length pat) s
  else match s with
       | [] => []
       | c :: s' => c :: replace_first pat rep s'
       end.

(** [c] is the letter [l] (given in lower case) in either case. *)
Definition letter (l c : N) : bool := ((c =? l) || (c =? l - 32))%N.

(** [s.replace(/\.pdf$/i, '.txt')]: the pattern matches only at the end of
    the string, in either case of the three letters. *)
Fixpoint replace_pdf_suffix (s : jsstring) : jsstring :=
  match s with
  | [dot; p; d; f] =>
      if ((dot =? 46)%N && letter 112 p && letter 100 d && letter 102 f)%bool
      then lit ".txt" else s
  | c :: s' => c :: replace_pdf_suffix s'
  | [] => []
  end.

(** One downloaded file, as fetchAssignmentsFromS3 describes it. *)
Record pdf_file := mkPdfFile {
  fileName : jsstring;
  localPath : jsstring;
  s3Key : jsstring
}.

(** One entry of [convertedFiles]. *)
Record converted_file := mkConverted {
  originalFile : jsstring;
  textFile : jsstring;
  textPath : jsstring;
  characterCount : nat
}.

(** The object written to _conversion_summary.json. *)
Record conversion_summary := mkSummary {
  timestamp : jsstring;
  totalFiles : nat;
  successfulConversions : nat;
  files : list converted_file
}.

(** The file system and the pdftotext utility. *)
Record host := mkHost {
  readBinary : jsstring -> completion unit;               (* fsp.readFile(path) *)
  pdftotext : jsstring -> jsstring -> completion unit;    (* execSync(pdftotext in out) *)
  readText : jsstring -> completion jsstring;             (* fsp.readFile(path, 'utf8') *)
  writeFile : jsstring -> jsstring -> completion unit;    (* fsp.writeFile(path, text) *)
  writeSummary : conversion_summary -> completion unit
}.

Inductive action :=
| ReadPdf (path : jsstring)
| RunPdftotext (input output : jsstring)
| ReadText (path : jsstring)
| WriteNotice (path text : jsstring)
| WriteSummary (summary : conversion_summary).

(** [path.join(CONFIG.localConvertedDir, name)] for a file name. *)
Definition converted_path (name : jsstring) : jsstring := lit "converted/" ++ name.

(** [error && error.message ? error.message : error] inside a template. *)
Definition error_text (e : error) : jsstring :=
  match message e with
  | [] => error_toString e
  | m => m
  end.

Definition failureNotice (f : pdf_file) (e : error) : jsstring :=
  lit "Conversion failed for " ++ fileName f ++ 10%N :: lit "Error: "
  ++ error_text e ++ [10%N].

(** The outer [catch] of the loop body: write the placeholder, whatever
    comes of it, and go on. *)
Definition placeholder (f : pdf_file) (e : error) : list action :=
  [WriteNotice (converted_path (replace_pdf_suffix (fileName f))) (failureNotice f e)].

(** The loop body for one file: what it does and what it adds to
    [convertedFiles]. *)
Definition convert_one (h : host) (f : pdf_file) : list action * option converted_file :=
  let txtFileName := replace_first (lit ".pdf") (lit ".txt") (fileName f) in
  let txtFilePath := converted_path txtFileName in
  match readBinary h (localPath f) with
  | Throw e => (ReadPdf (localPath f) :: placeholder f e, None)
  | Return _ =>
      match pdftotext h (localPath f) txtFilePath with
      | Throw e =>
          (ReadPdf (localPath f) :: RunPdftotext (localPath f) txtFilePath
             :: placeholder f e, None)
      | Return _ =>
          match readText h txtFilePath with
          | Throw e =>
              (ReadPdf (localPath f) :: RunPdftotext (localPath f) txtFilePath
                 :: ReadText txtFilePath :: placeholder f e, None)
          | Return txtContent =>
              ([ReadPdf (localPath f); RunPdftotext (localPath f) txtFilePath;
                ReadText txtFilePath],
               Some (mkConverted (fileName f) txtFileName txtFilePath
                                 (length txtContent)))
          end
      end
  end.

Fixpoint convert_all (h : host) (pdfFiles : list pdf_file)
  (convertedFiles : list converted_file) : list action * list converted_file :=
  match pdfFiles with
  | [] => ([], convertedFiles)
  | f :: rest =>
      let (acts, r) := convert_one h f in
      let (acts', out) :=
        convert_all h rest (match r with
                            | Some c => convertedFiles ++ [c]
                            | None => convertedFiles
                            end) in
      (acts ++ acts', out)
  end.

(** convertPDFsToText: [now] is [new Date().toISOString()]. *)
Definition convertPDFsToText (h : host) (now : jsstring) (pdfFiles : list pdf_file)
  : list action * completion (list converted_file) :=
  let (acts, convertedFiles) := convert_all h pdfFiles [] in
  let summary := mkSummary now (length pdfFiles) (length convertedFiles) convertedFiles in
  (acts ++ [WriteSummary summary],
   let* _ := writeSummary h summary in Return convertedFiles).

End Conversion.

(* ================================================================== *)
(** * Part III.  Properties                                            *)
(* ================================================================== *)

(** ** Strings and objects *)

Lemma str_eqb_refl (a : jsstring) : str_eqb a a = true.
Proof. induction a as [|x a IH]; simpl; [reflexivity|]. now rewrite N.eqb_refl, IH. Qed.

Lemma str_eqb_eq (a b : jsstring) : str_eqb a b = true -> a = b.
Proof.
  revert b. induction a as [|x a IH]; intros [|y b]; simpl; try discriminate; auto.
  intros H. apply andb_true_iff in H. destruct H as [Hx Hr].
  apply N.eqb_eq in Hx. subst. f_equal. auto.
Qed.

Lemma str_eqb_sym (a b : jsstring) : str_eqb a b = str_eqb b a.
Proof.
  destruct (str_eqb a b) eqn:E.
  - apply str_eqb_eq in E. subst. symmetry. apply str_eqb_refl.
  - destruct (str_eqb b a) eqn:E'; [|reflexivity].
    apply str_eqb_eq in E'. subst. now rewrite str_eqb_refl in E.
Qed.

(** ** The sanitizer *)

Module SanitizerFacts.

(** A character that every step of both passes leaves alone: printable
    ASCII or anything from U+00A0 up. *)
Definition tidy (c : N) : bool :=
  ((32 <=? c) && (c <=? 126) || (160 <=? c) && (c <=? 65535))%N.

(** No two adjacent white-space characters. *)
Fixpoint no_space_pair (s : jsstring) : Prop :=
  match s with
  | [] => True
  | c :: s' => (is_space c && starts_with_space s' = false) /\ no_space_pair s'
  end.

Definition head_ok (s : jsstring) : Prop := starts_with_space s = false.

Ltac bool_lia :=
  repeat match goal with
    | H : _ && _ = true |- _ => apply andb_true_iff in H; destruct H
    | H : _ || _ = true |- _ => apply orb_true_iff in H; destruct H
    | H : negb _ = true |- _ => apply negb_true_iff in H
    | H : _ && _ = false |- _ => apply andb_false_iff in H; destruct H
    | H : _ || _ = false |- _ => apply orb_false_iff in H; destruct H
    | H : negb _ = false |- _ => apply negb_false_iff in H
    | H : (_ =? _)%N = true |- _ => apply N.eqb_eq in H
    | H : (_ =? _)%N = false |- _ => apply N.eqb_neq in H
    | H : (_ <=? _)%N = true |- _ => apply N.leb_le in H
    | H : (_ <=? _)%N = false |- _ => apply N.leb_gt in H
    end;
  try lia.

Lemma tidy_facts c :
  tidy c = true ->
  weird_char c = false /\ c <> 0%N /\ c <> 9%N /\ c <> 10%N /\ c <> 12%N /\ c <> 13%N.
Proof.
  unfold tidy, weird_char. intros H.
  assert (Hr : (32 <= c <= 126 \/ 160 <= c <= 65535)%N) by (bool_lia).
  split; [|lia].
  apply negb_false_iff.
  destruct Hr as [[? ?]|[? ?]].
  - replace ((32 <=? c)%N) with true by (symmetry; apply N.leb_le; lia).
    replace ((c <=? 126)%N) with true by (symmetry; apply N.leb_le; lia).
    simpl. now rewrite !orb_true_r.
  - replace ((160 <=? c)%N) with true by (symmetry; apply N.leb_le; lia).
    replace ((c <=? 65535)%N) with true by (symmetry; apply N.leb_le; lia).
    simpl. now rewrite !orb_true_r.
Qed.

(** *** The single-character steps *)

Lemma remove_char_id c s :
  Forall (fun x => x <> c) s -> remove_char c s = s.
Proof.
  unfold remove_char. induction 1 as [|x s Hx _ IH]; simpl; [reflexivity|].
  apply N.eqb_neq in Hx. rewrite Hx. simpl. now rewrite IH.
Qed.

Lemma replace_char_id c r s :
  Forall (fun x => x <> c) s -> replace_char c r s = s.
Proof.
  unfold replace_char. induction 1 as [|x s Hx _ IH]; simpl; [reflexivity|].
  apply N.eqb_neq in Hx. rewrite Hx. now rewrite IH.
Qed.

Lemma replace_crlf_cons2 c d s :
  replace_crlf (c :: d :: s) =
  if ((c =? 13) && (d =? 10))%N then 32%N :: replace_crlf s
  else c :: replace_crlf (d :: s).
Proof. reflexivity. Qed.

Lemma replace_crlf_id s :
  Forall (fun x => x <> 13%N) s -> replace_crlf s = s.
Proof.
  induction 1 as [|x s Hx Hs IH]; [reflexivity|].
  destruct s as [|d s']; [reflexivity|].
  rewrite replace_crlf_cons2.
  apply N.eqb_neq in Hx. rewrite Hx. simpl andb. cbv iota. now rewrite IH.
Qed.

Lemma filter_id (f : N -> bool) s :
  Forall (fun x => f x = true) s -> filter f s = s.
Proof.
  induction 1 as [|x s Hx _ IH]; simpl; [reflexivity|].
  now rewrite Hx, IH.
Qed.

Lemma Forall_remove_char (P : N -> Prop) c s :
  Forall P s -> Forall P (remove_char c s).
Proof.
  unfold remove_char. intros H. apply Forall_forall. intros x Hx.
  apply filter_In in Hx. rewrite Forall_forall in H. now apply H.
Qed.

(** After [replace_char c r], every character satisfies [Q] as soon as the
    replacement does and every other original character did. *)
Lemma Forall_replace_char (P Q : N -> Prop) c r s :
  Forall P s -> Q r -> (forall x, P x -> x <> c -> Q x) ->
  Forall Q (replace_char c r s).
Proof.
  unfold replace_char. intros H Hr Hstep.
  induction H as [|x s Hx _ IH]; simpl; constructor; auto.
  destruct (N.eqb_spec x c); auto.
Qed.

Lemma Forall_replace_crlf (P : N -> Prop) s :
  Forall P s -> P 32%N -> Forall P (replace_crlf s).
Proof.
  intros H Hsp. revert H.
  induction s as [s IH] using (well_founded_induction
                                 (Wf_nat.well_founded_ltof _ (@length N))).
  intros H. destruct s as [|c [|d s'']]; [constructor|exact H|].
  rewrite replace_crlf_cons2.
  inversion H as [|? ? Hc Hrest]; subst.
  inversion Hrest as [|? ? Hd Hrest']; subst.
  destruct ((c =? 13)%N && (d =? 10)%N).
  - constructor; auto. apply IH; auto. unfold ltof. simpl. lia.
  - constructor; auto. apply IH; auto. unfold ltof. simpl. lia.
Qed.

(** *** trim *)

Lemma trimStart_suffix s : exists x, s = x ++ trimStart s.
Proof.
  induction s as [|c s [x IH]]; simpl.
  - now exists [].
  - destruct (is_space c).
    + exists (c :: x). simpl. now f_equal.
    + now exists [].
Qed.

Lemma trimEnd_prefix s : exists y, s = trimEnd s ++ y.
Proof.
  unfold trimEnd. destruct (trimStart_suffix (rev s)) as [x Hx].
  exists (rev x). rewrite <- rev_app_distr, <- Hx. now rewrite rev_involutive.
Qed.

Lemma head_ok_trimStart s : head_ok (trimStart s).
Proof.
  unfold head_ok. induction s as [|c s IH]; simpl; [reflexivity|].
  destruct (is_space c) eqn:E; simpl; auto.
Qed.

Lemma trimStart_id s : head_ok s -> trimStart s = s.
Proof.
  unfold head_ok. destruct s as [|c s]; simpl; [reflexivity|].
  now intros ->.
Qed.

Lemma trimStart_snoc s c :
  is_space c = false -> trimStart (s ++ [c]) = trimStart s ++ [c].
Proof.
  intros Hc. induction s as [|d s IH]; simpl.
  - now rewrite Hc.
  - destruct (is_space d); auto.
Qed.

Lemma trimEnd_cons c s :
  is_space c = false -> trimEnd (c :: s) = c :: trimEnd s.
Proof.
  intros Hc. unfold trimEnd. simpl.
  rewrite trimStart_snoc by assumption.
  now rewrite rev_app_distr.
Qed.

Lemma head_ok_trimEnd s : head_ok s -> head_ok (trimEnd s).
Proof.
  unfold head_ok. destruct s as [|c s]; simpl.
  - reflexivity.
  - intros Hc. rewrite trimEnd_cons by assumption. exact Hc.
Qed.

Lemma trimEnd_idem s : trimEnd (trimEnd s) = trimEnd s.
Proof.
  unfold trimEnd. rewrite rev_involutive.
  now rewrite (trimStart_id (head_ok_trimStart (rev s))).
Qed.

Lemma trim_idem s : trim (trim s) = trim s.
Proof.
  unfold trim.
  rewrite (trimStart_id (head_ok_trimEnd (head_ok_trimStart s))).
  apply trimEnd_idem.
Qed.

(** *** Collapsing runs of white space *)

Lemma no_space_pair_app_l a b : no_space_pair (a ++ b) -> no_space_pair a.
Proof.
  induction a as [|c a IH]; simpl; [trivial|].
  intros [Hc Hrest]. split; [|auto].
  destruct a as [|d a]; simpl in *.
  - now rewrite andb_false_r.
  - exact Hc.
Qed.

Lemma no_space_pair_app_r a b : no_space_pair (a ++ b) -> no_space_pair b.
Proof.
  induction a as [|c a IH]; simpl; [trivial|]. intros [_ H]. auto.
Qed.

Lemma collapse_spaces_id s : no_space_pair s -> collapse_spaces s = s.
Proof.
  induction s as [|c s IH]; intros H.
  - now simp collapse_spaces.
  - destruct H as [Hc Hs]. simp collapse_spaces. rewrite Hc. simpl.
    now rewrite IH.
Qed.

Lemma collapse_spaces_head s : head_ok s -> head_ok (collapse_spaces s).
Proof.
  unfold head_ok. destruct s as [|c s]; intros H.
  - now simp collapse_spaces.
  - simpl in H. simp collapse_spaces. rewrite H. simpl. exact H.
Qed.

Lemma no_space_pair_collapse s : no_space_pair (collapse_spaces s).
Proof.
  funelim (collapse_spaces s).
  - exact I.
  - (* a run: one space, then what follows the run *)
    split; [|assumption].
    rewrite (collapse_spaces_head (head_ok_trimStart s')).
    apply andb_false_r.
  - split; [|assumption].
    destruct (is_space c) eqn:Ec; [|reflexivity]. simpl in Heq |- *.
    now apply collapse_spaces_head.
Qed.

Lemma Forall_collapse (P : N -> Prop) s :
  Forall P s -> P 32%N -> Forall P (collapse_spaces s).
Proof.
  intros H Hsp. funelim (collapse_spaces s).
  - constructor.
  - constructor; [assumption|].
    match goal with IH : forall Q : N -> Prop, Forall Q _ -> _ |- _ =>
      apply IH; auto end.
    match goal with Hall : Forall _ (_ :: _) |- _ =>
      inversion Hall as [|? ? _ Hrest]; subst end.
    destruct (trimStart_suffix s') as [x Hx]. rewrite Hx in Hrest.
    apply Forall_app in Hrest. tauto.
  - match goal with Hall : Forall _ (_ :: _) |- _ =>
      inversion Hall as [|? ? Hc Hrest]; subst end.
    constructor; auto.
Qed.

(** *** What the pipeline's output looks like *)

Lemma Forall_trim (P : N -> Prop) s : Forall P s -> Forall P (trim s).
Proof.
  intros H. unfold trim.
  destruct (trimStart_suffix s) as [x Hx].
  destruct (trimEnd_prefix (trimStart s)) as [y Hy].
  rewrite Hx in H. apply Forall_app in H. destruct H as [_ H].
  rewrite Hy in H. apply Forall_app in H. tauto.
Qed.

Lemma no_space_pair_trim s : no_space_pair s -> no_space_pair (trim s).
Proof.
  intros H. unfold trim.
  destruct (trimStart_suffix s) as [x Hx].
  destruct (trimEnd_prefix (trimStart s)) as [y Hy].
  rewrite Hx in H. apply no_space_pair_app_r in H.
  rewrite Hy in H. now apply no_space_pair_app_l in H.
Qed.

(** After sanitizeText only tab, newline and tidy characters remain. *)
Lemma sanitizeText_chars text :
  Forall (fun c => c = 9%N \/ c = 10%N \/ tidy c = true) (sanitizeText text).
Proof.
  unfold sanitizeText. apply Forall_forall. intros c Hc.
  apply filter_In in Hc. destruct Hc as [Hin Hw].
  assert (Hne : c <> 13%N).
  { unfold replace_char in Hin. apply in_map_iff in Hin.
    destruct Hin as [x [Hx _]]. destruct (N.eqb_spec x 13); subst; lia. }
  unfold weird_char in Hw. rewrite negb_involutive in Hw. unfold tidy.
  repeat (apply orb_true_iff in Hw; destruct Hw as [Hw|Hw]).
  - left. now apply N.eqb_eq.
  - right. left. now apply N.eqb_eq.
  - apply N.eqb_eq in Hw. contradiction.
  - right. right. rewrite Hw. reflexivity.
  - right. right. rewrite Hw. apply orb_true_r.
Qed.

Lemma tidy_space : tidy 32 = true.
Proof. reflexivity. Qed.

(** The three facts about [normalizeForOneLine] on sanitized text. *)
Lemma normalize_chars s :
  Forall (fun c => c = 9%N \/ c = 10%N \/ tidy c = true) s ->
  Forall (fun c => tidy c = true) (normalizeForOneLine s).
Proof.
  intros H. unfold normalizeForOneLine.
  apply Forall_trim. apply Forall_collapse; [|exact tidy_space].
  apply Forall_replace_char
    with (P := fun c => c = 9%N \/ tidy c = true); [| exact tidy_space |].
  2:{ intros x [Hx|Hx] Hn; [contradiction|assumption]. }
  apply Forall_replace_char
    with (P := fun c => c = 9%N \/ c = 10%N \/ tidy c = true);
    [| right; exact tidy_space |].
  2:{ intros x [Hx|[Hx|Hx]] Hn; [now left|contradiction|now right]. }
  apply Forall_replace_char
    with (P := fun c => c = 9%N \/ c = 10%N \/ tidy c = true);
    [| right; right; exact tidy_space | intros x Hx _; exact Hx].
  apply Forall_replace_crlf; [| right; right; exact tidy_space].
  apply Forall_replace_char
    with (P := fun c => c = 9%N \/ c = 10%N \/ tidy c = true);
    [| right; right; exact tidy_space | intros x Hx _; exact Hx].
  now apply Forall_remove_char.
Qed.

Lemma normalize_no_space_pair s : no_space_pair (normalizeForOneLine s).
Proof.
  unfold normalizeForOneLine. apply no_space_pair_trim, no_space_pair_collapse.
Qed.

Lemma normalize_trimmed s : trim (normalizeForOneLine s) = normalizeForOneLine s.
Proof. unfold normalizeForOneLine. apply trim_idem. Qed.

(** *** Both passes are the identity on such text *)

Lemma Forall_tidy_ne c s :
  tidy c = false -> Forall (fun x => tidy x = true) s -> Forall (fun x => x <> c) s.
Proof.
  intros Hc H. eapply Forall_impl; [|exact H].
  intros x Hx ->. congruence.
Qed.

Lemma sanitizeText_fixed t :
  Forall (fun c => tidy c = true) t -> sanitizeText t = t.
Proof.
  intros H. unfold sanitizeText.
  rewrite (remove_char_id (c := 0)) by (now apply Forall_tidy_ne).
  rewrite (replace_char_id (c := 12)) by (now apply Forall_tidy_ne).
  rewrite (replace_char_id (c := 13)) by (now apply Forall_tidy_ne).
  apply filter_id. eapply Forall_impl; [|exact H].
  intros c Hc. apply tidy_facts in Hc. destruct Hc as [-> _]. reflexivity.
Qed.

Lemma normalize_fixed t :
  Forall (fun c => tidy c = true) t -> no_space_pair t -> trim t = t ->
  normalizeForOneLine t = t.
Proof.
  intros H Hp Ht. unfold normalizeForOneLine.
  rewrite (remove_char_id (c := 0)) by (now apply Forall_tidy_ne).
  rewrite (replace_char_id (c := 12)) by (now apply Forall_tidy_ne).
  rewrite replace_crlf_id by (now apply Forall_tidy_ne).
  rewrite (replace_char_id (c := 13)) by (now apply Forall_tidy_ne).
  rewrite (replace_char_id (c := 10)) by (now apply Forall_tidy_ne).
  rewrite (replace_char_id (c := 9)) by (now apply Forall_tidy_ne).
  rewrite collapse_spaces_id by assumption.
  exact Ht.
Qed.

(** *** Lengths *)

Lemma length_remove_char c s : (length (remove_char c s) <= length s)%nat.
Proof.
  unfold remove_char. induction s as [|x s IH]; simpl; [lia|].
  destruct (negb (x =? c)%N); simpl; lia.
Qed.

Lemma length_filter (f : N -> bool) s : (length (filter f s) <= length s)%nat.
Proof.
  induction s as [|x s IH]; simpl; [lia|]. destruct (f x); simpl; lia.
Qed.

Lemma length_replace_char c r s : length (replace_char c r s) = length s.
Proof. unfold replace_char. apply length_map. Qed.

Lemma length_replace_crlf s : (length (replace_crlf s) <= length s)%nat.
Proof.
  enough (H : (length (replace_crlf s) <= length s)%nat
              /\ forall c, (length (replace_crlf (c :: s)) <= length (c :: s))%nat)
    by apply H.
  induction s as [|d s [IH1 IH2]].
  - split; [simpl; lia | intros c; simpl; lia].
  - split; [apply IH2|]. intros c. rewrite replace_crlf_cons2.
    destruct ((c =? 13) && (d =? 10))%N.
    + simpl. lia.
    + specialize (IH2 d). simpl in *. lia.
Qed.

Lemma length_collapse_spaces s : (length (collapse_spaces s) <= length s)%nat.
Proof.
  funelim (collapse_spaces s).
  - simpl. lia.
  - pose proof (length_trimStart s'). simpl. lia.
  - simpl. lia.
Qed.

Lemma length_trim s : (length (trim s) <= length s)%nat.
Proof.
  unfold trim, trimEnd. rewrite length_rev.
  pose proof (length_trimStart (rev (trimStart s))) as H1.
  rewrite length_rev in H1. pose proof (length_trimStart s). lia.
Qed.

Lemma length_sanitize s : (length (sanitize s) <= length s)%nat.
Proof.
  unfold sanitize, normalizeForOneLine, sanitizeText.
  repeat first
    [ rewrite length_replace_char
    | match goal with
      | |- (length (trim ?x) <= _)%nat =>
          apply Nat.le_trans with (length x); [apply length_trim|]
      | |- (length (collapse_spaces ?x) <= _)%nat =>
          apply Nat.le_trans with (length x); [apply length_collapse_spaces|]
      | |- (length (replace_crlf ?x) <= _)%nat =>
          apply Nat.le_trans with (length x); [apply length_replace_crlf|]
      | |- (length (remove_char ?c ?x) <= _)%nat =>
          apply Nat.le_trans with (length x); [apply length_remove_char|]
      | |- (length (filter ?f ?x) <= _)%nat =>
          apply Nat.le_trans with (length x); [apply length_filter|]
      end ].
  lia.
Qed.

(** *** Visible characters *)

(** A character that is neither white space nor deleted by sanitizeText. *)
Definition visible (c : N) : bool := negb (is_space c) && negb (weird_char c).

Lemma visible_tidy c : visible c = true -> tidy c = true.
Proof.
  unfold visible, weird_char, is_space, tidy. intros H.
  apply andb_true_iff in H. destruct H as [Hs Hw].
  apply negb_true_iff in Hs. apply negb_true_iff, negb_false_iff in Hw.
  destruct (c =? 9)%N eqn:E9; [apply N.eqb_eq in E9; subst; discriminate|].
  destruct (c =? 10)%N eqn:E10; [apply N.eqb_eq in E10; subst; discriminate|].
  destruct (c =? 13)%N eqn:E13; [apply N.eqb_eq in E13; subst; discriminate|].
  exact Hw.
Qed.

Lemma tidy_invisible_space c : tidy c = true -> visible c = false -> is_space c = true.
Proof.
  intros Ht Hv. apply tidy_facts in Ht. destruct Ht as [Hw _].
  unfold visible in Hv. rewrite Hw in Hv. simpl in Hv.
  rewrite andb_true_r in Hv. now apply negb_false_iff in Hv.
Qed.

Lemma visible_filter (p : N -> bool) s :
  (forall c, visible c = true -> p c = true) ->
  filter visible (filter p s) = filter visible s.
Proof.
  intros Hp. induction s as [|x s IH]; simpl; [reflexivity|].
  destruct (p x) eqn:Ep; simpl; rewrite IH; [reflexivity|].
  destruct (visible x) eqn:Ev; [|reflexivity].
  apply Hp in Ev. congruence.
Qed.

Lemma visible_remove_char c s :
  visible c = false -> filter visible (remove_char c s) = filter visible s.
Proof.
  intros Hc. unfold remove_char. apply visible_filter. intros x Hx.
  apply negb_true_iff, N.eqb_neq. intros ->. congruence.
Qed.

Lemma visible_replace_char c r s :
  visible c = false -> visible r = false ->
  filter visible (replace_char c r s) = filter visible s.
Proof.
  intros Hc Hr. unfold replace_char. induction s as [|x s IH]; simpl; [reflexivity|].
  rewrite IH. destruct (x =? c)%N eqn:E; [|reflexivity].
  apply N.eqb_eq in E. subst x. now rewrite Hc, Hr.
Qed.

Lemma visible_replace_crlf s :
  filter visible (replace_crlf s) = filter visible s.
Proof.
  enough (H : filter visible (replace_crlf s) = filter visible s
              /\ forall c, filter visible (replace_crlf (c :: s))
                           = filter visible (c :: s))
    by apply H.
  induction s as [|d s [IH1 IH2]].
  - split; [reflexivity | intros c; reflexivity].
  - split; [apply IH2|]. intros c. rewrite replace_crlf_cons2.
    destruct ((c =? 13) && (d =? 10))%N eqn:E.
    + apply andb_true_iff in E. destruct E as [Ec Ed].
      apply N.eqb_eq in Ec, Ed. subst c d. simpl. exact IH1.
    + pose proof (IH2 d) as Hd. cbn [filter] in Hd |- *. now rewrite Hd.
Qed.

Lemma visible_trimStart s : filter visible (trimStart s) = filter visible s.
Proof.
  induction s as [|c s IH]; simpl; [reflexivity|].
  destruct (is_space c) eqn:E; [|reflexivity].
  rewrite IH. unfold visible at 2. now rewrite E.
Qed.

Lemma visible_trim s : filter visible (trim s) = filter visible s.
Proof.
  unfold trim, trimEnd. rewrite filter_rev, visible_trimStart, <- filter_rev.
  rewrite rev_involutive. apply visible_trimStart.
Qed.

Lemma visible_collapse_spaces s :
  filter visible (collapse_spaces s) = filter visible s.
Proof.
  funelim (collapse_spaces s).
  - reflexivity.
  - apply andb_true_iff in Heq. destruct Heq as [Hc _].
    simpl. rewrite H, visible_trimStart. unfold visible at 2. now rewrite Hc.
  - simpl. now rewrite H.
Qed.

Lemma visible_sanitize s : filter visible (sanitize s) = filter visible s.
Proof.
  unfold sanitize, normalizeForOneLine, sanitizeText.
  rewrite visible_trim, visible_collapse_spaces.
  rewrite !visible_replace_char by reflexivity.
  rewrite visible_replace_crlf.
  rewrite !visible_replace_char by reflexivity.
  rewrite visible_remove_char by reflexivity.
  rewrite visible_filter.
  - rewrite !visible_replace_char by reflexivity.
    now rewrite visible_remove_char.
  - intros c Hc. unfold visible in Hc. apply andb_true_iff in Hc. tauto.
Qed.

(** *** The shape of the output *)

Lemma sanitize_tidy s : Forall (fun c => tidy c = true) (sanitize s).
Proof. unfold sanitize. apply normalize_chars, sanitizeText_chars. Qed.

Lemma sanitize_head_ok s : head_ok (sanitize s).
Proof.
  unfold sanitize, normalizeForOneLine, trim.
  apply head_ok_trimEnd, head_ok_trimStart.
Qed.

Lemma sanitize_last_ok s : head_ok (rev (sanitize s)).
Proof.
  unfold sanitize, normalizeForOneLine, trim, trimEnd.
  rewrite rev_involutive. apply head_ok_trimStart.
Qed.

Lemma trim_id s : head_ok s -> head_ok (rev s) -> trim s = s.
Proof.
  intros H1 H2. unfold trim, trimEnd.
  rewrite (trimStart_id H1), (trimStart_id H2). apply rev_involutive.
Qed.

End SanitizerFacts.

(** C9.  The sanitizer of the invoker, [normalizeForOneLine] after
    [sanitizeText], is idempotent: sanitizing its own output changes
    nothing, for every input string. *)
Theorem sanitize_idempotent (s : jsstring) :
  sanitize (sanitize s) = sanitize s.
Proof.
  unfold sanitize at 1.
  pose proof (SanitizerFacts.normalize_chars (SanitizerFacts.sanitizeText_chars s)) as Hc.
  fold (sanitize s) in Hc.
  rewrite (SanitizerFacts.sanitizeText_fixed Hc).
  apply SanitizerFacts.normalize_fixed.
  - exact Hc.
  - apply SanitizerFacts.normalize_no_space_pair.
  - apply SanitizerFacts.normalize_trimmed.
Qed.

(** The sanitizer's output is safe on one line: it holds no null byte, no
    tab, no line feed, no form feed and no carriage return, and nothing
    else that [sanitizeText] deletes. *)
Theorem sanitize_output_single_line (s : jsstring) :
  Forall (fun c => weird_char c = false
                   /\ c <> 0%N /\ c <> 9%N /\ c <> 10%N /\ c <> 12%N /\ c <> 13%N)
         (sanitize s).
Proof.
  unfold sanitize.
  eapply Forall_impl;
    [| apply SanitizerFacts.normalize_chars, SanitizerFacts.sanitizeText_chars].
  intros c Hc. now apply SanitizerFacts.tidy_facts.
Qed.

(** The sanitizer never lengthens the text, so the payload text is at most
    the 34 code units of the two sentinels longer than the file's text. *)
Theorem sanitize_never_lengthens (s : jsstring) :
  (length (sanitize s) <= length s)%nat
  /\ (length (safeText s) <= length s + 34)%nat.
Proof.
  pose proof (SanitizerFacts.length_sanitize s) as H.
  split; [exact H|].
  unfold safeText. rewrite !length_app.
  change (length RAW_TEXT_START) with 18%nat.
  change (length RAW_TEXT_END) with 16%nat. lia.
Qed.

(** The sanitizer keeps every visible character (one that is neither white
    space nor in the class sanitizeText deletes), in order and unchanged:
    only white space and deleted characters are dropped or rewritten. *)
Theorem sanitize_keeps_visible_characters (s : jsstring) :
  filter SanitizerFacts.visible (sanitize s) = filter SanitizerFacts.visible s.
Proof. apply SanitizerFacts.visible_sanitize. Qed.

(** The texts the sanitizer leaves alone are exactly the one-line texts:
    printable ASCII and code units from U+00A0 up only, no two adjacent
    white-space characters, no white space at either end. *)
Theorem sanitize_fixed_points (s : jsstring) :
  sanitize s = s
  <-> Forall (fun c => SanitizerFacts.tidy c = true) s
      /\ SanitizerFacts.no_space_pair s
      /\ starts_with_space s = false
      /\ starts_with_space (rev s) = false.
Proof.
  split.
  - intros <-. split; [apply SanitizerFacts.sanitize_tidy|].
    split; [apply SanitizerFacts.normalize_no_space_pair|].
    split; [apply SanitizerFacts.sanitize_head_ok | apply SanitizerFacts.sanitize_last_ok].
  - intros [Ht [Hp [Hh Hl]]]. unfold sanitize.
    rewrite SanitizerFacts.sanitizeText_fixed by assumption.
    apply SanitizerFacts.normalize_fixed; try assumption.
    now apply SanitizerFacts.trim_id.
Qed.

(** The sanitized text is empty exactly when the file has no visible
    character: the payload then holds the two sentinels and nothing
    between them. *)
Theorem sanitize_empty_iff_blank (s : jsstring) :
  (sanitize s = [] <-> Forall (fun c => is_space c = true \/ weird_char c = true) s)
  /\ (sanitize s = [] -> safeText s = RAW_TEXT_START ++ RAW_TEXT_END).
Proof.
  split; [|intros H; unfold safeText; now rewrite H].
  assert (Hblank : filter SanitizerFacts.visible s = []
                   <-> Forall (fun c => is_space c = true \/ weird_char c = true) s).
  { induction s as [|c s IH]; simpl.
    - split; [constructor | reflexivity].
    - unfold SanitizerFacts.visible at 1.
      destruct (is_space c) eqn:Es; simpl.
      + rewrite IH. split; [intros H; constructor; auto | now inversion 1].
      + destruct (weird_char c) eqn:Ew; simpl.
        * rewrite IH. split; [intros H; constructor; auto | now inversion 1].
        * split; [discriminate|]. inversion 1 as [|? ? [Hc|Hc] _]; congruence. }
  rewrite <- Hblank, <- (SanitizerFacts.visible_sanitize s).
  split; [now intros -> |].
  intros Hv.
  pose proof (SanitizerFacts.sanitize_tidy s) as Ht.
  pose proof (SanitizerFacts.sanitize_head_ok s) as Hh.
  destruct (sanitize s) as [|c t]; [reflexivity|].
  exfalso. unfold SanitizerFacts.head_ok in Hh. simpl in Hh, Hv.
  inversion Ht as [|? ? Hc _]; subst.
  destruct (SanitizerFacts.visible c) eqn:Ev; [discriminate|].
  apply (SanitizerFacts.tidy_invisible_space _ Hc) in Ev. congruence.
Qed.

(** ** The validator *)

Section ValidatorFacts.
Context {NUM : Numbers}.

(** [result[field]] can be read and is truthy / falsy. *)
Definition present (result : value) (field : jsstring) : Prop :=
  exists v, get result field = Return v /\ ToBoolean v = true.

Definition missing (result : value) (field : jsstring) : Prop :=
  exists v, get result field = Return v /\ ToBoolean v = false.

Lemma check_field_present result field :
  present result field -> check_field result field = Return tt.
Proof. intros [v [Hg Ht]]. unfold check_field. now rewrite Hg; simpl; rewrite Ht. Qed.

Lemma check_field_missing result field :
  missing result field -> check_field result field = Throw (missing_field field).
Proof. intros [v [Hg Ht]]. unfold check_field. now rewrite Hg; simpl; rewrite Ht. Qed.

Lemma check_field_return_inv result field :
  check_field result field = Return tt -> present result field.
Proof.
  unfold check_field, present. destruct (get result field) as [v|e]; simpl; [|discriminate].
  destruct (ToBoolean v) eqn:Ht; simpl; [|discriminate]. intros _. now exists v.
Qed.

Lemma forEach_all_present result fields_ :
  (forall g, In g fields_ -> present result g) ->
  forEach (check_field result) fields_ = Return tt.
Proof.
  induction fields_ as [|f l IH]; intros H; simpl; [reflexivity|].
  rewrite check_field_present by (apply H; now left). simpl.
  apply IH. intros g Hg. apply H. now right.
Qed.

Lemma forEach_first_missing result pre field post :
  (forall g, In g pre -> present result g) ->
  missing result field ->
  forEach (check_field result) (pre ++ field :: post) = Throw (missing_field field).
Proof.
  induction pre as [|f pre IH]; intros Hpre Hm; simpl.
  - now rewrite check_field_missing.
  - rewrite check_field_present by (apply Hpre; now left). simpl.
    apply IH; [|assumption]. intros g Hg. apply Hpre. now right.
Qed.

Lemma forEach_return_inv result fields_ :
  forEach (check_field result) fields_ = Return tt ->
  forall g, In g fields_ -> present result g.
Proof.
  induction fields_ as [|f l IH]; simpl; intros H g Hg; [contradiction|].
  destruct (check_field result f) as [[]|e] eqn:Hc; simpl in H; [|discriminate].
  destruct Hg as [<-|Hg]; [now apply check_field_return_inv | now apply IH].
Qed.

(** A result one property of which can be read is not [undefined] or
    [null], so each of its properties is either present or missing. *)
Lemma present_or_missing result k v field :
  get result k = Return v -> present result field \/ missing result field.
Proof.
  intros Hk.
  assert (Hf : exists x, get result field = Return x).
  { destruct result; simpl in *; try discriminate; eauto. }
  destruct Hf as [x Hx]. destruct (ToBoolean x) eqn:Ht; [left|right]; now exists x.
Qed.

Lemma zero_is_falsy : ToBoolean (VNum (of_Z 0)) = false.
Proof. simpl. now rewrite is_zero_0. Qed.

Lemma validate_throws_first result pre field post :
  required = pre ++ field :: post ->
  (forall g, In g pre -> present result g) ->
  missing result field ->
  validateDynamoDBStructure result = Throw (missing_field field).
Proof.
  unfold validateDynamoDBStructure. intros -> Hpre Hm.
  now rewrite forEach_first_missing.
Qed.

Lemma validate_accepts result :
  (forall g, In g required -> present result g) ->
  validateDynamoDBStructure result = Return true.
Proof.
  unfold validateDynamoDBStructure. intros H. now rewrite forEach_all_present.
Qed.

(** C5.  The validator fails fast, in the enumeration order analyticsId,
    assignmentId, gradeReceived, aiGeneratedAnalytics, plagarismAnalytics,
    gradeReasoning, remarks: when a field is missing (falsy) and every
    field before it in that order is present and truthy, the error thrown
    is [Missing required field: <that field>], however many of the later
    fields are missing too; and when all seven are present and truthy the
    validator returns true. *)
Theorem validate_reports_first_missing (result : value) :
  (forall pre field post,
      [ lit "analyticsId"; lit "assignmentId"; lit "gradeReceived";
        lit "aiGeneratedAnalytics"; lit "plagarismAnalytics";
        lit "gradeReasoning"; lit "remarks" ] = pre ++ field :: post ->
      (forall g, In g pre -> present result g) ->
      missing result field ->
      validateDynamoDBStructure result
      = Throw (Error (lit "Missing required field: " ++ field)))
  /\ ((forall g, In g [ lit "analyticsId"; lit "assignmentId"; lit "gradeReceived";
                        lit "aiGeneratedAnalytics"; lit "plagarismAnalytics";
                        lit "gradeReasoning"; lit "remarks" ] ->
                 present result g) ->
      validateDynamoDBStructure result = Return true).
Proof.
  split.
  - intros pre field post. apply validate_throws_first.
  - apply validate_accepts.
Qed.

(** C4 (amended).  A result whose gradeReceived is exactly 0 is always
    rejected with a missing-field error.  The error is
    [Missing required field: gradeReceived] when analyticsId and
    assignmentId are present and truthy; it is
    [Missing required field: analyticsId] when analyticsId is missing, and
    [Missing required field: assignmentId] when analyticsId is present and
    assignmentId is missing.  The validator accepts a result exactly when
    all seven fields are present and truthy. *)
Theorem zero_grade_is_rejected (result : value) :
  (get result (lit "gradeReceived") = Return (VNum (of_Z 0)) ->
   (present result (lit "analyticsId") ->
    present result (lit "assignmentId") ->
    validateDynamoDBStructure result
    = Throw (Error (lit "Missing required field: gradeReceived")))
   /\ (missing result (lit "analyticsId") ->
       validateDynamoDBStructure result
       = Throw (Error (lit "Missing required field: analyticsId")))
   /\ (present result (lit "analyticsId") ->
       missing result (lit "assignmentId") ->
       validateDynamoDBStructure result
       = Throw (Error (lit "Missing required field: assignmentId")))
   /\ (present result (lit "analyticsId") \/ missing result (lit "analyticsId"))
   /\ (present result (lit "assignmentId") \/ missing result (lit "assignmentId")))
  /\ (forall ok, validateDynamoDBStructure result = Return ok ->
      ok = true
      /\ forall g, In g [ lit "analyticsId"; lit "assignmentId"; lit "gradeReceived";
                          lit "aiGeneratedAnalytics"; lit "plagarismAnalytics";
                          lit "gradeReasoning"; lit "remarks" ] ->
                   present result g)
  /\ ((forall g, In g [ lit "analyticsId"; lit "assignmentId"; lit "gradeReceived";
                        lit "aiGeneratedAnalytics"; lit "plagarismAnalytics";
                        lit "gradeReasoning"; lit "remarks" ] ->
                 present result g) ->
      validateDynamoDBStructure result = Return true).
Proof.
  split; [|split].
  - intros Hz.
    assert (Hg : missing result (lit "gradeReceived")).
    { exists (VNum (of_Z 0)). split; [assumption | apply zero_is_falsy]. }
    pose proof (@validate_throws_first result) as Hfirst.
    split; [|split; [|split; [|split]]].
    + intros Ha Hb.
      apply (Hfirst [lit "analyticsId"; lit "assignmentId"] (lit "gradeReceived")
                    [lit "aiGeneratedAnalytics"; lit "plagarismAnalytics";
                     lit "gradeReasoning"; lit "remarks"]);
        [reflexivity | | assumption].
      intros g [<-|[<-|[]]]; assumption.
    + intros Ha.
      apply (Hfirst [] (lit "analyticsId")
                    [lit "assignmentId"; lit "gradeReceived"; lit "aiGeneratedAnalytics";
                     lit "plagarismAnalytics"; lit "gradeReasoning"; lit "remarks"]);
        [reflexivity | | assumption].
      intros g [].
    + intros Ha Hb.
      apply (Hfirst [lit "analyticsId"] (lit "assignmentId")
                    [lit "gradeReceived"; lit "aiGeneratedAnalytics";
                     lit "plagarismAnalytics"; lit "gradeReasoning"; lit "remarks"]);
        [reflexivity | | assumption].
      intros g [<-|[]]; assumption.
    + exact (@present_or_missing result _ _ (lit "analyticsId") Hz).
    + exact (@present_or_missing result _ _ (lit "assignmentId") Hz).
  - unfold validateDynamoDBStructure. intros ok H.
    destruct (forEach (check_field result) required) as [[]|e] eqn:Hf; [|discriminate].
    split; [simpl in H; congruence|].
    now apply forEach_return_inv.
  - apply validate_accepts.
Qed.

(** In the pipeline the validator sees the wire format, where every
    attribute is an object and therefore truthy: a record with the seven
    attributes passes whatever they hold, a grade of ["0"] included. *)
Theorem validate_accepts_typed_attributes (result : value) :
  (forall g, In g required -> exists attr, get result g = Return (VObj attr)) ->
  validateDynamoDBStructure result = Return true.
Proof.
  intros H. apply validate_accepts. intros g Hg.
  destruct (H g Hg) as [attr Hattr]. exists (VObj attr). now split.
Qed.

End ValidatorFacts.

(** ** The invoker *)

Section InvokerFacts.
Context {NUM : Numbers} {J : JSON}.

(** A status axios resolves on. *)
Definition is_2xx (status : Z) : bool := ((200 <=? status) && (status <? 300))%Z.

(** The two shapes [parse_response] recognises, on the decoded body. *)
Definition canonical_shape (result : value) : Prop :=
  exists fs afs,
    result = VObj fs /\ lookup (lit "analyticsId") fs = VObj afs
    /\ lookup (lit "N") afs <> VUndef.

Definition legacy_shape (result : value) : Prop :=
  exists first rest generated_text,
    result = VArr (first :: rest)
    /\ get first (lit "generated_text") = Return generated_text
    /\ ToBoolean generated_text = true.

(** [raw] is the decoded body itself, or a string that parses to it. *)
Definition decodes_to (raw result : value) : Prop :=
  (raw = result /\ forall s, raw <> VStr s)
  \/ (exists s, raw = VStr s /\ JSON_parse s = inl result).

(** An error that the retry test of the outer [catch] lets through. *)
Definition not_retryable (e : error) : Prop :=
  status_is 502 e = false /\ code_is ECONNABORTED e = false.

(** What the invocation ends with when attempt [k] fails with [e] and is
    not retried. *)
Definition final_error (k : Z) (e : error) : error :=
  if (k =? MAX_RETRIES)%Z
  then Error (lit "Lambda invocation failed after " ++ dec MAX_RETRIES
              ++ lit " attempts: " ++ message e)
  else e.

Lemma plain_not_retryable e :
  response_status e = None -> code e = None -> not_retryable e.
Proof. intros Hs Hc. unfold not_retryable, status_is, code_is. now rewrite Hs, Hc. Qed.

Lemma stringify_prefix_defined n v :
  v <> VUndef -> exists t, stringify_prefix n v = Return t.
Proof.
  intros Hv. unfold stringify_prefix.
  destruct (JSON_stringify v) as [t|] eqn:E; [eauto|].
  apply stringify_undefined in E. contradiction.
Qed.

(** *** One attempt *)

Lemma attempt_once_rejected w text id aid k status data :
  http w (mkPayload (safeText text) id aid) k = Reply status data ->
  is_2xx status = false ->
  attempt_once w text id aid k
  = ([EvPost k (mkPayload (safeText text) id aid)], Throw (status_error status)).
Proof.
  intros Hh Hs. unfold attempt_once, axios_post. simpl.
  rewrite Hh. unfold is_2xx in Hs. rewrite Hs. reflexivity.
Qed.

Lemma attempt_once_no_reply w text id aid k e :
  http w (mkPayload (safeText text) id aid) k = NoReply e ->
  attempt_once w text id aid k
  = ([EvPost k (mkPayload (safeText text) id aid)], Throw e).
Proof.
  intros Hh. unfold attempt_once, axios_post. simpl. now rewrite Hh.
Qed.

Lemma attempt_once_resolved w text id aid k status raw :
  http w (mkPayload (safeText text) id aid) k = Reply status raw ->
  is_2xx status = true ->
  raw <> VUndef ->
  attempt_once w text id aid k
  = ([EvPost k (mkPayload (safeText text) id aid)], parse_response raw).
Proof.
  intros Hh Hs Hraw. unfold attempt_once, axios_post. simpl.
  rewrite Hh. unfold is_2xx in Hs. rewrite Hs.
  destruct (stringify_prefix_defined 500 Hraw) as [t Ht]. rewrite Ht. simpl.
  assert (H400 : (status >=? 400)%Z = false).
  { apply andb_true_iff in Hs. destruct Hs as [_ Hlt].
    apply Z.ltb_lt in Hlt. rewrite Z.geb_leb. apply Z.leb_gt. lia. }
  rewrite H400. unfold lift. now destruct (parse_response raw).
Qed.

(** *** The errors of the parsing step carry neither a response nor a code *)

Lemma get_error_plain v k e :
  get v k = Throw e -> response_status e = None /\ code e = None.
Proof. destruct v; simpl; intros [= <-]; auto. Qed.

Lemma JSON_parse_c_error_plain s e :
  JSON_parse_c s = Throw e -> response_status e = None /\ code e = None.
Proof. unfold JSON_parse_c. destruct (JSON_parse s); intros [= <-]; auto. Qed.

Lemma unknown_format_throws result :
  exists e, unknown_format result = Throw e
            /\ response_status e = None /\ code e = None.
Proof.
  unfold unknown_format, stringify_prefix.
  destruct (JSON_stringify result); simpl; eauto.
Qed.

Lemma decode_legacy_error_plain result e :
  decode_legacy result = Throw e -> response_status e = None /\ code e = None.
Proof.
  assert (Hu : forall r, unknown_format r = Throw e ->
                         response_status e = None /\ code e = None).
  { intros r H. destruct (unknown_format_throws r) as [e' [He' Hp]].
    rewrite He' in H. now injection H as <-. }
  destruct result as [| | | | |[|first rest]|]; simpl; try apply Hu.
  destruct (get first (lit "generated_text")) as [gt|e3] eqn:Hgt; simpl.
  - destruct (ToBoolean gt); [apply JSON_parse_c_error_plain | apply Hu].
  - intros [= <-]. now apply get_error_plain in Hgt.
Qed.

Lemma is_dynamodb_format_error_plain result e :
  is_dynamodb_format result = Throw e -> response_status e = None /\ code e = None.
Proof.
  unfold is_dynamodb_format.
  destruct (get result (lit "analyticsId")) as [aid|e1] eqn:Haid; simpl.
  - destruct (ToBoolean aid); [|discriminate].
    destruct (get aid (lit "N")) as [n|e2] eqn:Hn; simpl; [discriminate|].
    intros [= <-]. now apply get_error_plain in Hn.
  - intros [= <-]. now apply get_error_plain in Haid.
Qed.

Lemma parse_response_error_plain raw e :
  parse_response raw = Throw e -> response_status e = None /\ code e = None.
Proof.
  unfold parse_response.
  destruct (match raw with VStr s => JSON_parse_c s | _ => Return raw end)
    as [result|e0] eqn:Hres; simpl.
  - destruct (is_dynamodb_format result) as [[|]|e1] eqn:Hd; simpl.
    + discriminate.
    + apply decode_legacy_error_plain.
    + intros [= <-]. now apply is_dynamodb_format_error_plain in Hd.
  - intros [= <-]. destruct raw; try discriminate.
    now apply JSON_parse_c_error_plain in Hres.
Qed.

(** *** What [parse_response] accepts *)

Lemma get_analyticsId_array xs :
  get (VArr xs) (lit "analyticsId") = Return VUndef.
Proof. reflexivity. Qed.

Lemma get_analyticsId_string s :
  get (VStr s) (lit "analyticsId") = Return VUndef.
Proof. reflexivity. Qed.

Lemma is_dynamodb_format_true result :
  is_dynamodb_format result = Return true -> canonical_shape result.
Proof.
  unfold is_dynamodb_format, canonical_shape.
  destruct result as [| | | | | xs | fs]; simpl get; try discriminate;
    try (rewrite ?get_analyticsId_array, ?get_analyticsId_string; discriminate).
  simpl. destruct (lookup (lit "analyticsId") fs) as [| | [|] | n | [|c t] | ys | afs] eqn:Haid;
    simpl; try discriminate.
  - destruct (negb (is_zero n || isNaN n)); discriminate.
  - intros [= Hd]. exists fs, afs. repeat split; try assumption.
    intros E. rewrite E in Hd. discriminate.
Qed.

Lemma canonical_is_dynamodb_format result :
  canonical_shape result -> is_dynamodb_format result = Return true.
Proof.
  intros [fs [afs [-> [Haid Hn]]]]. unfold is_dynamodb_format. simpl.
  rewrite Haid. simpl. destruct (lookup (lit "N") afs); try reflexivity.
  contradiction.
Qed.

Lemma decode_legacy_return result v :
  decode_legacy result = Return v -> legacy_shape result.
Proof.
  assert (Hu : forall r, unknown_format r <> Return v).
  { intros r H. destruct (unknown_format_throws r) as [e [He _]]. congruence. }
  unfold legacy_shape.
  destruct result as [| | | | |[|first rest]|]; simpl; intros H;
    try (now apply Hu in H).
  destruct (get first (lit "generated_text")) as [gt|e] eqn:Hgt; simpl in H;
    [|discriminate].
  destruct (ToBoolean gt) eqn:Ht; [|now apply Hu in H].
  now exists first, rest, gt.
Qed.

Lemma decoded_result raw result :
  decodes_to raw result ->
  match raw with VStr s => JSON_parse_c s | _ => Return raw end = Return result.
Proof.
  intros [[<- Hns]|[s [-> Hp]]].
  - destruct raw; try reflexivity. now destruct (Hns s).
  - unfold JSON_parse_c. now rewrite Hp.
Qed.

Lemma parse_response_return_inv raw result v :
  decodes_to raw result -> parse_response raw = Return v ->
  canonical_shape result \/ legacy_shape result.
Proof.
  intros Hd. unfold parse_response. rewrite (decoded_result Hd). simpl.
  destruct (is_dynamodb_format result) as [[|]|e] eqn:E; simpl.
  - intros _. left. now apply is_dynamodb_format_true.
  - intros H. right. eapply decode_legacy_return; eauto.
  - discriminate.
Qed.

(** *** The retry loop *)

Lemma attempt_not_retried w text id aid k rest tr e :
  attempt_once w text id aid k = (tr, Throw e) ->
  not_retryable e ->
  attempts w text id aid (k :: rest) = (tr, Throw (final_error k e)).
Proof.
  intros H [Hs Hc]. simpl. rewrite H. unfold try_catch, on_error.
  rewrite Hs, Hc. rewrite andb_false_r. unfold final_error.
  destruct (k =? MAX_RETRIES)%Z; simpl; now rewrite app_nil_r.
Qed.

Lemma status_error_404_not_retryable : not_retryable (status_error 404).
Proof. split; reflexivity. Qed.

(** A body that is not [undefined] and that [parse_response] rejects, or
    one that is [undefined]: the attempt throws an error that is not
    retried. *)
Lemma attempt_once_bad_body w text id aid k status raw :
  http w (mkPayload (safeText text) id aid) k = Reply status raw ->
  is_2xx status = true ->
  (forall v, parse_response raw <> Return v) ->
  exists e, attempt_once w text id aid k
            = ([EvPost k (mkPayload (safeText text) id aid)], Throw e)
            /\ not_retryable e.
Proof.
  intros Hh Hs Hbad.
  destruct raw as [| | b | n | s | xs | fs] eqn:Eraw.
  1:{ (* undefined: the log line throws *)
      unfold attempt_once, axios_post. simpl. rewrite Hh.
      unfold is_2xx in Hs. rewrite Hs. unfold stringify_prefix.
      destruct (JSON_stringify VUndef) as [t|] eqn:E.
      - assert (JSON_stringify VUndef = None) by (now apply stringify_undefined).
        congruence.
      - simpl. eexists. split; [reflexivity|]. now apply plain_not_retryable. }
  all: rewrite (attempt_once_resolved _ _ _ _ _ Hh Hs) by discriminate;
    match goal with |- context [parse_response ?r] =>
      destruct (parse_response r) as [v|e] eqn:Hp;
      [ now destruct (Hbad v)
      | exists e; split; [reflexivity|];
        apply parse_response_error_plain in Hp;
        now apply plain_not_retryable ] end.
Qed.

(** Whatever happens to it, one attempt is one post. *)
Lemma attempt_once_trace w text id aid k :
  fst (attempt_once w text id aid k) = [EvPost k (mkPayload (safeText text) id aid)].
Proof.
  unfold attempt_once, axios_post. simpl.
  destruct (http w (mkPayload (safeText text) id aid) k) as [status data|e]; simpl;
    [|reflexivity].
  destruct ((200 <=? status) && (status <? 300))%Z; simpl; [|reflexivity].
  destruct (stringify_prefix 500 data) as [t|e]; simpl; [|reflexivity].
  destruct (status >=? 400)%Z; simpl.
  - destruct (JSON_stringify data); reflexivity.
  - destruct (parse_response data); reflexivity.
Qed.

Lemma attempt_once_split w text id aid k :
  attempt_once w text id aid k
  = ([EvPost k (mkPayload (safeText text) id aid)], snd (attempt_once w text id aid k)).
Proof.
  rewrite <- (attempt_once_trace w text id aid k).
  now destruct (attempt_once w text id aid k).
Qed.

(** C1.  When every attempt meets HTTP 502, invokeModelEndpoint posts
    exactly MAX_RETRIES = 3 times, sleeps 1000 ms after the first attempt
    and 2000 ms after the second, and then throws an error whose message
    holds the attempt count and the message of the last underlying
    failure. *)
Theorem retries_exhausted_on_502 (w : world) (text id : jsstring) (aid : number) :
  (forall k, exists data,
      http w (mkPayload (safeText text) id aid) k = Reply 502 data) ->
  invokeModelEndpoint w text id aid
  = ([ EvPost 1 (mkPayload (safeText text) id aid); EvSleep 1000;
       EvPost 2 (mkPayload (safeText text) id aid); EvSleep 2000;
       EvPost 3 (mkPayload (safeText text) id aid) ],
     Throw (Error (lit "Lambda invocation failed after " ++ dec MAX_RETRIES
                   ++ lit " attempts: " ++ message (status_error 502)))).
Proof.
  intros H.
  destruct (H 1%Z) as [d1 H1], (H 2%Z) as [d2 H2], (H 3%Z) as [d3 H3].
  unfold invokeModelEndpoint.
  change attempt_numbers with [1; 2; 3]%Z.
  cbn [attempts].
  rewrite (attempt_once_rejected _ _ _ _ _ H1) by reflexivity.
  rewrite (attempt_once_rejected _ _ _ _ _ H2) by reflexivity.
  rewrite (attempt_once_rejected _ _ _ _ _ H3) by reflexivity.
  reflexivity.
Qed.

(** A time-out is retried like a 502: when no attempt gets a reply before
    the time-out, the invocation posts three times, sleeps 1000 ms and
    2000 ms in between, and throws the wrapped time-out error. *)
Theorem retries_exhausted_on_timeout (w : world) (text id : jsstring) (aid : number) :
  (forall k, http w (mkPayload (safeText text) id aid) k = NoReply timeout_error) ->
  invokeModelEndpoint w text id aid
  = ([ EvPost 1 (mkPayload (safeText text) id aid); EvSleep 1000;
       EvPost 2 (mkPayload (safeText text) id aid); EvSleep 2000;
       EvPost 3 (mkPayload (safeText text) id aid) ],
     Throw (Error (lit "Lambda invocation failed after " ++ dec MAX_RETRIES
                   ++ lit " attempts: " ++ message timeout_error))).
Proof.
  intros H. unfold invokeModelEndpoint.
  change attempt_numbers with [1; 2; 3]%Z.
  cbn [attempts].
  rewrite !(attempt_once_no_reply _ _ _ _ _ (H _)).
  reflexivity.
Qed.

(** A retry can succeed: a 502 at attempt 1 followed by a canonical body
    at attempt 2 gives that body after one sleep of 1000 ms. *)
Theorem retry_then_success (w : world) (text id : jsstring) (aid : number)
  (data B : value) :
  http w (mkPayload (safeText text) id aid) 1 = Reply 502 data ->
  http w (mkPayload (safeText text) id aid) 2 = Reply 200 B ->
  canonical_shape B ->
  invokeModelEndpoint w text id aid
  = ([ EvPost 1 (mkPayload (safeText text) id aid); EvSleep 1000;
       EvPost 2 (mkPayload (safeText text) id aid) ],
     Return B).
Proof.
  intros H1 H2 Hc. unfold invokeModelEndpoint.
  change attempt_numbers with [1; 2; 3]%Z.
  cbn [attempts].
  rewrite (attempt_once_rejected _ _ _ _ _ H1) by reflexivity.
  rewrite (attempt_once_resolved _ _ _ _ _ H2) by
    (try reflexivity; destruct Hc as [fs [afs [-> _]]]; discriminate).
  unfold parse_response.
  assert (Hraw : match B with VStr s0 => JSON_parse_c s0 | _ => Return B end = Return B).
  { destruct Hc as [fs [afs [-> _]]]. reflexivity. }
  rewrite Hraw. cbn [bind]. rewrite (canonical_is_dynamodb_format Hc). reflexivity.
Qed.

Lemma invoke_trace_cases (w : world) (text id : jsstring) (aid : number) :
  let p := mkPayload (safeText text) id aid in
  fst (invokeModelEndpoint w text id aid) = [EvPost 1 p]
  \/ fst (invokeModelEndpoint w text id aid) = [EvPost 1 p; EvSleep 1000; EvPost 2 p]
  \/ fst (invokeModelEndpoint w text id aid)
     = [EvPost 1 p; EvSleep 1000; EvPost 2 p; EvSleep 2000; EvPost 3 p].
Proof.
  intros p. unfold invokeModelEndpoint.
  change attempt_numbers with [1; 2; 3]%Z. cbn [attempts].
  rewrite (attempt_once_split w text id aid 1).
  rewrite (attempt_once_split w text id aid 2).
  rewrite (attempt_once_split w text id aid 3).
  fold p. unfold try_catch, on_error.
  destruct (snd (attempt_once w text id aid 1)) as [v1|e1]; [now left|].
  destruct ((1 <? MAX_RETRIES)%Z && (status_is 502 e1 || code_is ECONNABORTED e1));
    [|left; reflexivity].
  cbn [io_bind emit].
  destruct (snd (attempt_once w text id aid 2)) as [v2|e2]; [right; now left|].
  destruct ((2 <? MAX_RETRIES)%Z && (status_is 502 e2 || code_is ECONNABORTED e2));
    [|right; left; reflexivity].
  cbn [io_bind emit].
  destruct (snd (attempt_once w text id aid 3)) as [v3|e3]; right; right; reflexivity.
Qed.


(** Whatever the network does, one invocation posts the same payload (the
    sanitized text between the sentinels, the id and the batch id) once,
    twice or three times, never more, and sleeps only 1000 ms after the
    first post and 2000 ms after the second. *)
Theorem invocation_posts_at_most_three_times (w : world) (text id : jsstring)
  (aid : number) :
  let p := mkPayload (safeText text) id aid in
  fst (invokeModelEndpoint w text id aid) = [EvPost 1 p]
  \/ fst (invokeModelEndpoint w text id aid) = [EvPost 1 p; EvSleep 1000; EvPost 2 p]
  \/ fst (invokeModelEndpoint w text id aid)
     = [EvPost 1 p; EvSleep 1000; EvPost 2 p; EvSleep 2000; EvPost 3 p].
Proof. apply invoke_trace_cases. Qed.

(** Only 502 and time-outs are retried.  Any other status outside 2xx at
    the first attempt (a redirect, a 4xx, 500, 503, 504) ends the
    invocation after one post with the error of the HTTP client, unwrapped;
    so does any other failure without a reply (a refused connection, a
    failed name lookup: an error that carries no response and a code other
    than ECONNABORTED). *)
Theorem only_502_and_timeouts_are_retried (w : world) (text id : jsstring)
  (aid : number) :
  (forall status data,
     http w (mkPayload (safeText text) id aid) 1 = Reply status data ->
     is_2xx status = false ->
     status <> 502%Z ->
     invokeModelEndpoint w text id aid
     = ([EvPost 1 (mkPayload (safeText text) id aid)], Throw (status_error status)))
  /\ (forall e,
        http w (mkPayload (safeText text) id aid) 1 = NoReply e ->
        response_status e = None ->
        code_is ECONNABORTED e = false ->
        invokeModelEndpoint w text id aid
        = ([EvPost 1 (mkPayload (safeText text) id aid)], Throw e)).
Proof.
  split.
  - intros status data Hh Hs Hn. unfold invokeModelEndpoint.
    change attempt_numbers with [1; 2; 3]%Z.
    rewrite (attempt_not_retried _ _ _ _ _ _ (attempt_once_rejected _ _ _ _ _ Hh Hs)).
    + reflexivity.
    + split; [|unfold status_error, code_is; simpl;
               destruct ((400 <=? status) && (status <? 500))%Z;
               [reflexivity|destruct ((500 <=? status) && (status <? 600))%Z; reflexivity]].
      unfold status_is, status_error. simpl. now apply Z.eqb_neq.
  - intros e Hh Hs Hc. unfold invokeModelEndpoint.
    change attempt_numbers with [1; 2; 3]%Z.
    rewrite (attempt_not_retried _ _ _ _ _ _ (attempt_once_no_reply _ _ _ _ _ Hh)).
    + reflexivity.
    + split; [|exact Hc]. unfold status_is. now rewrite Hs.
Qed.

(** An error at the third attempt is always wrapped, whatever it is: after
    two 502 replies, a 2xx body that the parsing step rejects gives the
    error that holds the attempt count and the parse error's message,
    after three posts and both sleeps. *)
Theorem last_attempt_error_is_wrapped (w : world) (text id : jsstring)
  (aid : number) (d1 d2 raw : value) (status : Z) (e : error) :
  http w (mkPayload (safeText text) id aid) 1 = Reply 502 d1 ->
  http w (mkPayload (safeText text) id aid) 2 = Reply 502 d2 ->
  http w (mkPayload (safeText text) id aid) 3 = Reply status raw ->
  is_2xx status = true ->
  raw <> VUndef ->
  parse_response raw = Throw e ->
  invokeModelEndpoint w text id aid
  = ([ EvPost 1 (mkPayload (safeText text) id aid); EvSleep 1000;
       EvPost 2 (mkPayload (safeText text) id aid); EvSleep 2000;
       EvPost 3 (mkPayload (safeText text) id aid) ],
     Throw (Error (lit "Lambda invocation failed after " ++ dec MAX_RETRIES
                   ++ lit " attempts: " ++ message e))).
Proof.
  intros H1 H2 H3 Hs Hraw Hp. unfold invokeModelEndpoint.
  change attempt_numbers with [1; 2; 3]%Z. cbn [attempts].
  rewrite (attempt_once_rejected _ _ _ _ _ H1) by reflexivity.
  rewrite (attempt_once_rejected _ _ _ _ _ H2) by reflexivity.
  rewrite (attempt_once_resolved _ _ _ _ _ H3 Hs Hraw). rewrite Hp.
  destruct (parse_response_error_plain _ Hp) as [Hst Hc].
  unfold try_catch, on_error, status_is, code_is. rewrite Hst, Hc. reflexivity.
Qed.

(** C2.  An attempt that meets HTTP 404, a 2xx reply whose body is a
    string that is not JSON, a 2xx reply whose decoded body has neither
    recognised shape, or more generally any 2xx reply that the parsing
    step rejects (a legacy body whose inner text is not JSON, say), ends
    the invocation: that attempt's post is the last event and the loop
    throws, without sleeping or posting again.  In particular, when this
    happens at attempt 1 the invocation consists of one post. *)
Theorem no_retry_on_404_or_bad_body (w : world) (text id : jsstring) (aid : number)
  (k : Z) (rest : list Z) :
  (exists data, http w (mkPayload (safeText text) id aid) k = Reply 404 data)
  \/ (exists status s msg,
         http w (mkPayload (safeText text) id aid) k = Reply status (VStr s)
         /\ is_2xx status = true /\ JSON_parse s = inr msg)
  \/ (exists status raw result,
         http w (mkPayload (safeText text) id aid) k = Reply status raw
         /\ is_2xx status = true /\ decodes_to raw result
         /\ ~ canonical_shape result /\ ~ legacy_shape result)
  \/ (exists status raw e0,
         http w (mkPayload (safeText text) id aid) k = Reply status raw
         /\ is_2xx status = true /\ parse_response raw = Throw e0) ->
  (exists e, attempts w text id aid (k :: rest)
             = ([EvPost k (mkPayload (safeText text) id aid)], Throw e))
  /\ (k = 1%Z ->
       exists e, invokeModelEndpoint w text id aid
                 = ([EvPost 1 (mkPayload (safeText text) id aid)], Throw e)).
Proof.
  intros Hcase.
  assert (Hone : exists e, attempt_once w text id aid k
                           = ([EvPost k (mkPayload (safeText text) id aid)], Throw e)
                           /\ not_retryable e).
  { destruct Hcase as [[data Hh] | [[status [s [msg [Hh [Hs Hp]]]]]
                                   | [[status [raw [result [Hh [Hs [Hd [Hc Hl]]]]]]]
                                     | [status [raw [e0 [Hh [Hs Hp]]]]]]]].
    - exists (status_error 404). split.
      + now apply (attempt_once_rejected _ _ _ _ _ Hh).
      + apply status_error_404_not_retryable.
    - apply (attempt_once_bad_body _ _ _ _ _ Hh Hs).
      intros v. unfold parse_response, JSON_parse_c. rewrite Hp. discriminate.
    - apply (attempt_once_bad_body _ _ _ _ _ Hh Hs).
      intros v Hv. destruct (parse_response_return_inv Hd Hv); contradiction.
    - apply (attempt_once_bad_body _ _ _ _ _ Hh Hs).
      intros v Hv. congruence. }
  destruct Hone as [e [He Hn]]. split.
  - eexists. apply (attempt_not_retried _ _ _ _ _ rest He Hn).
  - intros ->. eexists. unfold invokeModelEndpoint.
    change attempt_numbers with [1; 2; 3]%Z.
    apply (attempt_not_retried _ _ _ _ _ _ He Hn).
Qed.

(** C3 (amended).  Let B be a canonical body: an object whose analyticsId
    attribute is an object with an N member.  If the endpoint answers with
    B itself, or with the legacy body [[{ generated_text: s }]] where s is
    a JSON text of B, invokeModelEndpoint makes one post and returns B in
    both cases. *)
Theorem legacy_body_same_as_canonical (w1 w2 : world) (text id : jsstring)
  (aid : number) (s : jsstring) (B : value) :
  canonical_shape B ->
  JSON_parse s = inl B ->
  http w1 (mkPayload (safeText text) id aid) 1 = Reply 200 B ->
  http w2 (mkPayload (safeText text) id aid) 1
  = Reply 200 (VArr [VObj [(lit "generated_text", VStr s)]]) ->
  invokeModelEndpoint w1 text id aid
  = ([EvPost 1 (mkPayload (safeText text) id aid)], Return B)
  /\ invokeModelEndpoint w2 text id aid
     = invokeModelEndpoint w1 text id aid.
Proof.
  intros Hc Hp H1 H2.
  assert (Hdirect : invokeModelEndpoint w1 text id aid
                    = ([EvPost 1 (mkPayload (safeText text) id aid)], Return B)).
  { unfold invokeModelEndpoint. change attempt_numbers with [1; 2; 3]%Z.
    cbn [attempts].
    rewrite (attempt_once_resolved _ _ _ _ _ H1) by
      (try reflexivity; destruct Hc as [fs [afs [-> _]]]; discriminate).
    unfold parse_response.
    assert (Hraw : match B with VStr s0 => JSON_parse_c s0 | _ => Return B end = Return B).
    { destruct Hc as [fs [afs [-> _]]]. reflexivity. }
    rewrite Hraw. simpl. rewrite (canonical_is_dynamodb_format Hc). reflexivity. }
  split; [exact Hdirect|]. rewrite Hdirect.
  unfold invokeModelEndpoint. change attempt_numbers with [1; 2; 3]%Z.
  cbn [attempts].
  rewrite (attempt_once_resolved _ _ _ _ _ H2) by (try reflexivity; discriminate).
  assert (Hs : s <> []).
  { intros ->. now apply parse_empty in Hp. }
  unfold parse_response. cbn [bind]. unfold is_dynamodb_format.
  rewrite get_analyticsId_array. cbn [bind ToBoolean].
  unfold decode_legacy.
  change (get (VObj [(lit "generated_text", VStr s)]) (lit "generated_text"))
    with (Return (VStr s)).
  cbn [bind]. destruct s as [|c s']; [congruence|]. cbn [ToBoolean ToString].
  unfold JSON_parse_c. rewrite Hp. reflexivity.
Qed.

End InvokerFacts.

(** ** The batch orchestrator *)

Section BatchFacts.
Context {NUM : Numbers} {J : JSON}.

(** A file the loop does not skip: its text does not load, or the id its
    name derives is numeric. *)
Definition attempted (w : world) (file : jsstring) : bool :=
  match readFile w (fullPath file) with
  | Throw _ => true
  | Return _ => negb (isNaN (StringToNumber (derived_id file)))
  end.

Definition failed_outcome (file msg : jsstring) : outcome :=
  mkOutcome (remove_first (lit ".txt") file) FAILED (Some msg).

(** What the report is to hold for one file, step by step: load, skip a
    non-numeric id, invoke, validate where the script does, persist. *)
Definition report_of (v : variant) (w : world) (aid : number) (file : jsstring)
  : list outcome :=
  match readFile w (fullPath file) with
  | Throw e =>
      [failed_outcome file (lit "Failed to read file " ++ fullPath file
                            ++ lit ": " ++ message e)]
  | Return text =>
      if isNaN (StringToNumber (derived_id file)) then []
      else
        match snd (invoke v w text (derived_id file) aid) with
        | Throw e => [failed_outcome file (message e)]
        | Return modelResult =>
            match (if validates v then validateDynamoDBStructure modelResult
                   else Return true) with
            | Throw e => [failed_outcome file (message e)]
            | Return _ =>
                match snd (saveAnalysisToDynamoDB w modelResult) with
                | Throw e =>
                    [mkOutcome (derived_id file) FAILED
                       (Some (match message e with
                              | [] => error_toString e
                              | m => m
                              end))]
                | Return _ => [mkOutcome (derived_id file) SUCCESS None]
                end
            end
        end
  end.

Lemma process_file_report v w aid results file :
  exists tr, process_file v w aid results file
             = (tr, Return (results ++ report_of v w aid file)).
Proof.
  unfold process_file, report_of, readAssignmentFromLocal, failed_outcome.
  destruct (readFile w (fullPath file)) as [text|e]; simpl.
  - destruct (isNaN (StringToNumber (derived_id file))); simpl.
    + rewrite app_nil_r. eauto.
    + destruct (invoke v w text (derived_id file) aid) as [tr1 [r|e1]]; simpl; [|eauto].
      destruct (validates v); simpl.
      * destruct (validateDynamoDBStructure r) as [b|e2]; simpl; [|eauto].
        destruct (saveAnalysisToDynamoDB w r) as [tr3 [[]|e3]]; simpl; eauto.
      * destruct (saveAnalysisToDynamoDB w r) as [tr3 [[]|e3]]; simpl; eauto.
  - eauto.
Qed.

Lemma process_files_report v w aid files : forall results,
  exists tr, process_files v w aid results files
             = (tr, Return (results ++ flat_map (report_of v w aid) files)).
Proof.
  induction files as [|file files IH]; intros results; simpl.
  - rewrite app_nil_r. unfold ret. eauto.
  - destruct (process_file_report v w aid results file) as [tr1 ->].
    destruct (IH (results ++ report_of v w aid file)) as [tr2 H2].
    simpl. rewrite H2. rewrite <- app_assoc. eauto.
Qed.

Lemma report_of_length v w aid file :
  length (report_of v w aid file) = if attempted w file then 1 else 0.
Proof.
  unfold report_of, attempted.
  destruct (readFile w (fullPath file)) as [text|e]; [|reflexivity].
  destruct (isNaN (StringToNumber (derived_id file))); simpl; [reflexivity|].
  destruct (snd (invoke v w text (derived_id file) aid)) as [r|e1]; [|reflexivity].
  destruct (if validates v then validateDynamoDBStructure r else Return true);
    [|reflexivity].
  destruct (snd (saveAnalysisToDynamoDB w r)); reflexivity.
Qed.

Lemma handler_returns v w maxId :
  highest_analyticsId w = Return maxId ->
  exists tr resp, handler v w = (tr, Return resp)
    /\ forall files,
         readdir w = Return files ->
         filter (fun f => endsWith f (lit ".txt")) files <> [] ->
         resp = mkResponse 200
                  (Results (flat_map (report_of v w (batch_id v maxId))
                                     (filter (fun f => endsWith f (lit ".txt")) files))).
Proof.
  intros Hpre. unfold handler. rewrite Hpre. simpl.
  destruct (readdir w) as [files|e]; simpl.
  - destruct (filter (fun f => endsWith f (lit ".txt")) files) as [|f txt] eqn:Htxt.
    + simpl. do 2 eexists. split; [reflexivity|].
      intros files' [= <-]. rewrite Htxt. congruence.
    + destruct (process_files_report v w (batch_id v maxId) (f :: txt) []) as [tr Hrun].
      rewrite Hrun. simpl. do 2 eexists. split; [reflexivity|].
      intros files' [= <-] _. rewrite Htxt. reflexivity.
  - do 2 eexists. split; [reflexivity|]. intros files' [=].
Qed.

(** *** What a run does to the world *)

Definition is_read (ev : event) : bool :=
  match ev with EvRead _ => true | _ => false end.

Definition is_put (ev : event) : bool :=
  match ev with EvPut _ => true | _ => false end.

(** The events of the loop body for one file: the read, then the
    invoker's events when the id is numeric, then the write when the
    invoker returned a result that passes the validation the script has. *)
Definition events_of (v : variant) (w : world) (aid : number) (file : jsstring)
  : list event :=
  EvRead (fullPath file) ::
  match readFile w (fullPath file) with
  | Throw _ => []
  | Return text =>
      if isNaN (StringToNumber (derived_id file)) then []
      else
        fst (invoke v w text (derived_id file) aid)
        ++ match snd (invoke v w text (derived_id file) aid) with
           | Throw _ => []
           | Return modelResult =>
               match (if validates v then validateDynamoDBStructure modelResult
                      else Return true) with
               | Throw _ => []
               | Return _ => [EvPut modelResult]
               end
           end
  end.

Lemma saveAnalysisToDynamoDB_trace w r :
  fst (saveAnalysisToDynamoDB w r) = [EvPut r].
Proof.
  unfold saveAnalysisToDynamoDB. simpl.
  destruct (putItem w r) as [[]|e]; simpl; [|reflexivity].
  destruct (get r (lit "assignmentId")) as [a|e]; simpl; [|reflexivity].
  destruct (get a (lit "N")); reflexivity.
Qed.

Lemma process_file_run v w aid results file :
  process_file v w aid results file
  = (events_of v w aid file, Return (results ++ report_of v w aid file)).
Proof.
  unfold process_file, report_of, events_of, readAssignmentFromLocal, failed_outcome.
  destruct (readFile w (fullPath file)) as [text|e]; simpl; [|reflexivity].
  destruct (isNaN (StringToNumber (derived_id file))); simpl.
  { now rewrite app_nil_r. }
  destruct (invoke v w text (derived_id file) aid) as [tr1 [r|e1]]; simpl;
    [|now rewrite app_nil_r].
  pose proof (saveAnalysisToDynamoDB_trace w r) as Htr.
  destruct (validates v); simpl.
  - destruct (validateDynamoDBStructure r) as [b|e2]; simpl;
      [|now rewrite !app_nil_r].
    destruct (saveAnalysisToDynamoDB w r) as [tr3 [[]|e3]]; simpl in Htr |- *;
      subst tr3; reflexivity.
  - destruct (saveAnalysisToDynamoDB w r) as [tr3 [[]|e3]]; simpl in Htr |- *;
      subst tr3; reflexivity.
Qed.

Lemma process_files_run v w aid files : forall results,
  process_files v w aid results files
  = (flat_map (events_of v w aid) files,
     Return (results ++ flat_map (report_of v w aid) files)).
Proof.
  induction files as [|file files IH]; intros results; simpl.
  - now rewrite app_nil_r.
  - rewrite process_file_run. simpl. rewrite IH. now rewrite <- app_assoc.
Qed.

Definition txt_files (files : list jsstring) : list jsstring :=
  filter (fun f => endsWith f (lit ".txt")) files.

Lemma handler_run v w maxId files :
  highest_analyticsId w = Return maxId ->
  readdir w = Return files ->
  txt_files files <> [] ->
  handler v w
  = (EvScan :: EvReaddir :: flat_map (events_of v w (batch_id v maxId)) (txt_files files),
     Return (mkResponse 200
               (Results (flat_map (report_of v w (batch_id v maxId)) (txt_files files))))).
Proof.
  intros Hpre Hdir Htxt. unfold handler, txt_files in *. rewrite Hpre. simpl.
  rewrite Hdir. simpl.
  destruct (filter (fun f => endsWith f (lit ".txt")) files) as [|f txt] eqn:E;
    [congruence|].
  rewrite process_files_run. simpl. now rewrite app_nil_r.
Qed.

Lemma handler_run_empty v w maxId files :
  highest_analyticsId w = Return maxId ->
  readdir w = Return files ->
  txt_files files = [] ->
  handler v w
  = ([EvScan; EvReaddir],
     Return (mkResponse 400 (Message (lit "No converted files found.")))).
Proof.
  intros Hpre Hdir Htxt. unfold handler, txt_files in *. rewrite Hpre. simpl.
  rewrite Hdir. simpl. now rewrite Htxt.
Qed.

Lemma handler_error_paths_aux (v : variant) (w : world) (e : error) :
  (highest_analyticsId w = Throw e -> handler v w = ([EvScan], Throw e))
  /\ (forall maxId, highest_analyticsId w = Return maxId ->
      readdir w = Throw e ->
      handler v w = ([EvScan; EvReaddir],
                     Return (mkResponse 500 (ErrorBody (message e))))).
Proof.
  split.
  - intros H. unfold handler. rewrite H. reflexivity.
  - intros maxId Hpre Hdir. unfold handler. rewrite Hpre. simpl.
    rewrite Hdir. reflexivity.
Qed.

(** An invoker that neither reads files nor writes to the store. *)
Definition quiet (v : variant) : Prop :=
  forall w text id aid,
    Forall (fun ev => is_read ev = false /\ is_put ev = false)
           (fst (invoke v w text id aid)).

Lemma lambda_script_quiet : quiet lambda_script.
Proof.
  intros w text id aid. simpl.
  destruct (invoke_trace_cases w text id aid) as [H|[H|H]]; rewrite H;
    repeat constructor.
Qed.

Lemma sagemaker_script_quiet : quiet sagemaker_script.
Proof.
  intros w text id aid. simpl. unfold invokeSagemaker. simpl.
  destruct (sagemaker w text id aid) as [raw|e]; simpl; [|repeat constructor].
  destruct (JSON_parse_c raw); repeat constructor.
Qed.

Lemma filter_quiet (f : event -> bool) tr :
  Forall (fun ev => f ev = false) tr -> filter f tr = [].
Proof.
  induction 1 as [|ev tr Hev _ IH]; simpl; [reflexivity|]. now rewrite Hev.
Qed.

Lemma reads_of_file v w aid file :
  quiet v -> filter is_read (events_of v w aid file) = [EvRead (fullPath file)].
Proof.
  intros Hq. unfold events_of. simpl. f_equal.
  destruct (readFile w (fullPath file)) as [text|e]; [|reflexivity].
  destruct (isNaN (StringToNumber (derived_id file))); [reflexivity|].
  rewrite filter_app, filter_quiet.
  - destruct (snd (invoke v w text (derived_id file) aid)) as [r|e]; [|reflexivity].
    destruct (if validates v then validateDynamoDBStructure r else Return true);
      reflexivity.
  - eapply Forall_impl; [|apply Hq]. intros ev [H _]. exact H.
Qed.

Lemma puts_of_file v w aid file :
  quiet v -> (length (filter is_put (events_of v w aid file)) <= 1)%nat.
Proof.
  intros Hq. unfold events_of. simpl.
  destruct (readFile w (fullPath file)) as [text|e]; [|simpl; lia].
  destruct (isNaN (StringToNumber (derived_id file))); [simpl; lia|].
  rewrite filter_app, filter_quiet.
  - destruct (snd (invoke v w text (derived_id file) aid)) as [r|e]; [|simpl; lia].
    destruct (if validates v then validateDynamoDBStructure r else Return true);
      simpl; lia.
  - eapply Forall_impl; [|apply Hq]. intros ev [_ H]. exact H.
Qed.

Lemma reads_of_files v w aid files :
  quiet v ->
  filter is_read (flat_map (events_of v w aid) files)
  = List.map (fun f => EvRead (fullPath f)) files.
Proof.
  intros Hq. induction files as [|f files IH]; [reflexivity|].
  cbn [flat_map List.map]. rewrite filter_app, IH. now rewrite reads_of_file.
Qed.

Lemma puts_of_files v w aid files :
  quiet v ->
  (length (filter is_put (flat_map (events_of v w aid) files)) <= length files)%nat.
Proof.
  intros Hq. induction files as [|f files IH]; [simpl; lia|].
  cbn [flat_map length]. rewrite filter_app, length_app.
  pose proof (puts_of_file w aid f Hq). lia.
Qed.

Lemma validate_returns_true r b :
  validateDynamoDBStructure r = Return b -> b = true.
Proof.
  unfold validateDynamoDBStructure.
  destruct (forEach (check_field r) required); simpl; congruence.
Qed.

(** What the store is asked to hold. *)
Definition stored (P : value -> Prop) (tr : list event) : Prop :=
  Forall (fun ev => match ev with EvPut r => P r | _ => True end) tr.

Lemma stored_quiet P tr :
  Forall (fun ev => is_read ev = false /\ is_put ev = false) tr -> stored P tr.
Proof.
  unfold stored. apply Forall_impl. intros [] [_ H]; try exact I. discriminate.
Qed.

Lemma stored_of_file v w aid file :
  quiet v -> validates v = true ->
  stored (fun r => validateDynamoDBStructure r = Return true) (events_of v w aid file).
Proof.
  intros Hq Hv. unfold events_of, stored. constructor; [exact I|].
  destruct (readFile w (fullPath file)) as [text|e]; [|constructor].
  destruct (isNaN (StringToNumber (derived_id file))); [constructor|].
  apply Forall_app. split; [apply stored_quiet, Hq|].
  destruct (snd (invoke v w text (derived_id file) aid)) as [r|e]; [|constructor].
  rewrite Hv.
  destruct (validateDynamoDBStructure r) as [b|e] eqn:E; [|constructor].
  apply validate_returns_true in E as Hb. subst b. now repeat constructor.
Qed.

Lemma stored_of_files v w aid files :
  quiet v -> validates v = true ->
  stored (fun r => validateDynamoDBStructure r = Return true)
         (flat_map (events_of v w aid) files).
Proof.
  intros Hq Hv. induction files as [|f files IH]; [constructor|].
  cbn [flat_map]. apply Forall_app. split; [now apply stored_of_file | exact IH].
Qed.

(** A result the validator accepts has an assignmentId whose [N] can be
    read, so the log line of saveAnalysisToDynamoDB does not throw. *)
Lemma validated_assignmentId r :
  validateDynamoDBStructure r = Return true ->
  exists a n, get r (lit "assignmentId") = Return a /\ get a (lit "N") = Return n.
Proof.
  unfold validateDynamoDBStructure. intros H.
  destruct (forEach (check_field r) required) as [[]|e] eqn:E; [|discriminate].
  destruct (forEach_return_inv _ _ E (lit "assignmentId")) as [a [Ha Ht]].
  { simpl. tauto. }
  exists a. destruct a; try discriminate; simpl; eauto.
Qed.

(** *** File names *)

Lemma last_segment_no_slash s :
  Forall (fun c => c <> 47%N) s -> forall acc, last_segment acc s = acc ++ s.
Proof.
  induction 1 as [|c s Hc _ IH]; intros acc; simpl.
  - now rewrite app_nil_r.
  - apply N.eqb_neq in Hc. rewrite Hc, IH. now rewrite <- app_assoc.
Qed.

Lemma from_last_dot_txt x : from_last_dot (x ++ lit ".txt") = Some (lit ".txt").
Proof.
  induction x as [|c x IH]; [reflexivity|].
  cbn [app from_last_dot]. now rewrite IH.
Qed.

Lemma not_dot_dot c x : str_eqb (c :: x ++ lit ".txt") (lit "..") = false.
Proof.
  destruct x as [|d [|e t]]; cbn; rewrite ?andb_false_r; reflexivity.
Qed.

Lemma extname_txt c stem :
  Forall (fun x => x <> 47%N) (c :: stem) ->
  extname ((c :: stem) ++ lit ".txt") = lit ".txt".
Proof.
  intros H. unfold extname.
  rewrite last_segment_no_slash.
  - cbn [app]. rewrite not_dot_dot. now rewrite from_last_dot_txt.
  - apply Forall_app. split; [exact H|]. repeat constructor; discriminate.
Qed.

Lemma remove_first_txt stem :
  Forall (fun c => c <> 46%N) stem ->
  remove_first (lit ".txt") (stem ++ lit ".txt") = stem.
Proof.
  induction 1 as [|c s Hc _ IH]; [reflexivity|].
  cbn [app remove_first].
  assert (Hs : starts_with (lit ".txt") (c :: s ++ lit ".txt") = false).
  { change (starts_with (lit ".txt") (c :: s ++ lit ".txt"))
      with ((46 =? c)%N && starts_with (lit "txt") (s ++ lit ".txt")).
    apply N.eqb_neq in Hc. rewrite N.eqb_sym in Hc. now rewrite Hc. }
  rewrite Hs. now rewrite IH.
Qed.

Lemma endsWith_app stem suffix : endsWith (stem ++ suffix) suffix = true.
Proof.
  unfold endsWith. rewrite length_app, Nat.add_sub.
  rewrite skipn_app, skipn_all, Nat.sub_diag. simpl.
  rewrite str_eqb_refl. apply Nat.leb_le. lia.
Qed.

(** What one file adds to the report, case by case. *)
Lemma report_of_cases (v : variant) (w : world) (aid : number) (file : jsstring) :
  (forall e,
      readFile w (fullPath file) = Throw e ->
      report_of v w aid file
      = [mkOutcome (remove_first (lit ".txt") file) FAILED
           (Some (lit "Failed to read file converted/" ++ file ++ lit ": "
                  ++ message e))])
  /\ (forall text,
         readFile w (fullPath file) = Return text ->
         isNaN (StringToNumber (derived_id file)) = false ->
         (forall e,
             snd (invoke v w text (derived_id file) aid) = Throw e ->
             report_of v w aid file
             = [mkOutcome (remove_first (lit ".txt") file) FAILED (Some (message e))])
         /\ (forall modelResult,
                snd (invoke v w text (derived_id file) aid) = Return modelResult ->
                (forall e,
                    validates v = true ->
                    validateDynamoDBStructure modelResult = Throw e ->
                    report_of v w aid file
                    = [mkOutcome (remove_first (lit ".txt") file) FAILED
                         (Some (message e))])
                /\ ((validates v = true ->
                     exists ok, validateDynamoDBStructure modelResult = Return ok) ->
                    (forall e,
                        snd (saveAnalysisToDynamoDB w modelResult) = Throw e ->
                        report_of v w aid file
                        = [mkOutcome (derived_id file) FAILED
                             (Some (match message e with
                                    | [] => error_toString e
                                    | m => m
                                    end))])
                    /\ (snd (saveAnalysisToDynamoDB w modelResult) = Return tt ->
                        report_of v w aid file
                        = [mkOutcome (derived_id file) SUCCESS None])))).
Proof.
  unfold report_of, failed_outcome. split.
  - intros e ->. reflexivity.
  - intros text -> ->. split.
    + intros e ->. reflexivity.
    + intros r ->. split.
      * intros e -> ->. reflexivity.
      * intros Hval.
        assert (Hv : exists ok, (if validates v then validateDynamoDBStructure r
                                 else Return true) = Return ok).
        { destruct (validates v); [now apply Hval | now exists true]. }
        destruct Hv as [ok ->]. split.
        -- intros e ->. reflexivity.
        -- intros ->. reflexivity.
Qed.

(** C7.  The loop over the documents never throws and isolates failures.
    For either script (and any invoker), the report after the loop is the
    report before it followed by what each file adds in turn, which is
    exactly one outcome for an attempted file and none for a skipped one.
    What a file adds: a file that does not load adds FAILED with
    [Failed to read file converted/<file>: <message>]; a failure of the
    invoker or of the validation adds FAILED with the error's message; a
    failure of the write to the store adds FAILED with the error's message
    (the error printed in full when it has no message); a file that is
    stored adds SUCCESS.  The id of a FAILED outcome of the first three
    kinds is the file name without its first [.txt], the id of the
    others is the derived id.  Once the handler has got past its initial
    table scan it returns a response; with a non-empty list of .txt files
    that response is status 200 with the report of all of them. *)
Theorem batch_isolates_failures (v : variant) (w : world) :
  (forall aid results files,
      snd (process_files v w aid results files)
      = Return (results ++ flat_map (report_of v w aid) files))
  /\ (forall aid file,
         length (report_of v w aid file) = if attempted w file then 1 else 0)
  /\ (forall aid file e,
         readFile w (fullPath file) = Throw e ->
         report_of v w aid file
         = [mkOutcome (remove_first (lit ".txt") file) FAILED
              (Some (lit "Failed to read file converted/" ++ file ++ lit ": "
                     ++ message e))])
  /\ (forall aid file text e,
         readFile w (fullPath file) = Return text ->
         isNaN (StringToNumber (derived_id file)) = false ->
         snd (invoke v w text (derived_id file) aid) = Throw e ->
         report_of v w aid file
         = [mkOutcome (remove_first (lit ".txt") file) FAILED (Some (message e))])
  /\ (forall aid file text modelResult e,
         readFile w (fullPath file) = Return text ->
         isNaN (StringToNumber (derived_id file)) = false ->
         snd (invoke v w text (derived_id file) aid) = Return modelResult ->
         validates v = true ->
         validateDynamoDBStructure modelResult = Throw e ->
         report_of v w aid file
         = [mkOutcome (remove_first (lit ".txt") file) FAILED (Some (message e))])
  /\ (forall aid file text modelResult e,
         readFile w (fullPath file) = Return text ->
         isNaN (StringToNumber (derived_id file)) = false ->
         snd (invoke v w text (derived_id file) aid) = Return modelResult ->
         (validates v = true ->
          exists ok, validateDynamoDBStructure modelResult = Return ok) ->
         snd (saveAnalysisToDynamoDB w modelResult) = Throw e ->
         report_of v w aid file
         = [mkOutcome (derived_id file) FAILED
              (Some (match message e with
                     | [] => error_toString e
                     | m => m
                     end))])
  /\ (forall aid file text modelResult,
         readFile w (fullPath file) = Return text ->
         isNaN (StringToNumber (derived_id file)) = false ->
         snd (invoke v w text (derived_id file) aid) = Return modelResult ->
         (validates v = true ->
          exists ok, validateDynamoDBStructure modelResult = Return ok) ->
         snd (saveAnalysisToDynamoDB w modelResult) = Return tt ->
         report_of v w aid file = [mkOutcome (derived_id file) SUCCESS None])
  /\ (forall maxId,
         highest_analyticsId w = Return maxId ->
         exists resp,
           snd (handler v w) = Return resp
           /\ forall files,
                readdir w = Return files ->
                filter (fun f => endsWith f (lit ".txt")) files <> [] ->
                resp = mkResponse 200
                         (Results
                            (flat_map (report_of v w (batch_id v maxId))
                               (filter (fun f => endsWith f (lit ".txt")) files)))).
Proof.
  split; [|split; [|split; [|split; [|split; [|split; [|split]]]]]].
  - intros aid results files.
    destruct (process_files_report v w aid files results) as [tr ->]. reflexivity.
  - intros aid file. apply report_of_length.
  - intros aid file e. apply (proj1 (report_of_cases v w aid file)).
  - intros aid file text e Hr Hn.
    apply (proj1 (proj2 (report_of_cases v w aid file) text Hr Hn)).
  - intros aid file text r e Hr Hn Hi.
    apply (proj1 (proj2 (proj2 (report_of_cases v w aid file) text Hr Hn) r Hi)).
  - intros aid file text r e Hr Hn Hi Hv.
    apply (proj1 (proj2 (proj2 (proj2 (report_of_cases v w aid file) text Hr Hn) r Hi)
                    Hv)).
  - intros aid file text r Hr Hn Hi Hv.
    apply (proj2 (proj2 (proj2 (proj2 (report_of_cases v w aid file) text Hr Hn) r Hi)
                    Hv)).
  - intros maxId Hpre.
    destruct (@handler_returns v w maxId Hpre) as [tr [resp [Hh Hresp]]].
    exists resp. rewrite Hh. split; [reflexivity | exact Hresp].
Qed.


(** The three ways out of the handler before its loop.  A failing table
    scan, or a stored row that cannot be decoded or read, is not caught:
    the handler throws that error before it looks at the directory.  A
    failing directory listing is caught: the handler answers 500 with the
    error's message.  With no [.txt] entry in the directory it answers
    400.  In all three it reads no file, calls no endpoint and writes
    nothing. *)
Theorem handler_early_exits (v : variant) (w : world) :
  (forall e, highest_analyticsId w = Throw e -> handler v w = ([EvScan], Throw e))
  /\ (forall maxId e,
        highest_analyticsId w = Return maxId ->
        readdir w = Throw e ->
        handler v w = ([EvScan; EvReaddir],
                       Return (mkResponse 500 (ErrorBody (message e)))))
  /\ (forall maxId files,
        highest_analyticsId w = Return maxId ->
        readdir w = Return files ->
        (forall f, In f files -> endsWith f (lit ".txt") = false) ->
        handler v w
        = ([EvScan; EvReaddir],
           Return (mkResponse 400 (Message (lit "No converted files found."))))).
Proof.
  split; [|split].
  - intros e. apply handler_error_paths_aux.
  - intros maxId e. apply handler_error_paths_aux.
  - intros maxId files Hpre Hdir Hno. apply (handler_run_empty v _ Hpre Hdir).
    clear Hdir. unfold txt_files. induction files as [|f files IH]; [reflexivity|].
    cbn [filter]. rewrite (Hno f) by (now left).
    apply IH. intros g Hg. apply Hno. now right.
Qed.

(** Either script reads exactly the [.txt] entries of the directory, each
    once and in directory order, and writes to the store at most once per
    such entry. *)
Theorem handler_reads_each_txt_file_once (v : variant) (w : world)
  (maxId : number) (files : list jsstring) :
  v = lambda_script \/ v = sagemaker_script ->
  highest_analyticsId w = Return maxId ->
  readdir w = Return files ->
  filter is_read (fst (handler v w))
  = List.map (fun f => EvRead (fullPath f))
             (filter (fun f => endsWith f (lit ".txt")) files)
  /\ (length (filter is_put (fst (handler v w)))
      <= length (filter (fun f => endsWith f (lit ".txt")) files))%nat.
Proof.
  intros Hv Hpre Hdir.
  assert (Hq : quiet v)
    by (destruct Hv as [-> | ->]; [apply lambda_script_quiet | apply sagemaker_script_quiet]).
  fold (txt_files files).
  destruct (txt_files files) as [|f txt] eqn:Htxt.
  - rewrite (handler_run_empty v _ Hpre Hdir Htxt). simpl. split; [reflexivity | lia].
  - rewrite (handler_run v _ Hpre Hdir) by (rewrite Htxt; discriminate).
    rewrite Htxt. cbn [fst filter is_read is_put].
    split; [now apply reads_of_files | now apply puts_of_files].
Qed.

(** part2_Sagemaker.js, whose validation call is live, never asks the
    store to hold a result the validator has not accepted, whatever the
    files, the endpoint and the store do; and a result the validator
    accepts is saved without an exception as soon as the store takes it,
    because the log line's read of [result.assignmentId.N] cannot throw on
    it. *)
Theorem sagemaker_script_stores_only_validated_results (w : world) :
  stored (fun r => validateDynamoDBStructure r = Return true)
         (fst (handler sagemaker_script w))
  /\ (forall r,
        validateDynamoDBStructure r = Return true ->
        putItem w r = Return tt ->
        saveAnalysisToDynamoDB w r = ([EvPut r], Return tt)).
Proof.
  split.
  - destruct (highest_analyticsId w) as [maxId|e] eqn:Hpre.
    2:{ rewrite (proj1 (handler_error_paths_aux sagemaker_script w e) Hpre).
        repeat constructor. }
    destruct (readdir w) as [files|e] eqn:Hdir.
    2:{ rewrite (proj2 (handler_error_paths_aux sagemaker_script w e) maxId Hpre Hdir).
        repeat constructor. }
    destruct (txt_files files) as [|f txt] eqn:Htxt.
    + rewrite (handler_run_empty sagemaker_script _ Hpre Hdir Htxt). repeat constructor.
    + rewrite (handler_run sagemaker_script _ Hpre Hdir) by (rewrite Htxt; discriminate).
      cbn [fst]. repeat (constructor; [exact I|]).
      apply stored_of_files; [apply sagemaker_script_quiet | reflexivity].
  - intros r Hv Hput. destruct (validated_assignmentId _ Hv) as [a [n [Ha Hn]]].
    unfold saveAnalysisToDynamoDB. simpl. rewrite Hput. simpl.
    rewrite Ha. simpl. rewrite Hn. reflexivity.
Qed.

(** The Lambda script, whose validation call is commented out, writes a
    result that has no assignmentId to the store and then reports the file
    FAILED: the write comes before the log line that reads
    [result.assignmentId.N]. *)
Theorem unvalidated_result_is_stored_then_failed (w : world) (aid : number)
  (results : list outcome) (file text : jsstring) (B : value) :
  readFile w (fullPath file) = Return text ->
  isNaN (StringToNumber (derived_id file)) = false ->
  http w (mkPayload (safeText text) (derived_id file) aid) 1 = Reply 200 B ->
  canonical_shape B ->
  get B (lit "assignmentId") = Return VUndef ->
  putItem w B = Return tt ->
  process_file lambda_script w aid results file
  = ([ EvRead (fullPath file);
       EvPost 1 (mkPayload (safeText text) (derived_id file) aid);
       EvPut B ],
     Return (results ++
             [mkOutcome (derived_id file) FAILED
                (Some (lit "Cannot read properties of undefined (reading 'N')"))])).
Proof.
  intros Hread Hnum Hh Hc Hmiss Hput.
  assert (Hinv : invokeModelEndpoint w text (derived_id file) aid
                 = ([EvPost 1 (mkPayload (safeText text) (derived_id file) aid)],
                    Return B)).
  { unfold invokeModelEndpoint. change attempt_numbers with [1; 2; 3]%Z.
    cbn [attempts].
    rewrite (attempt_once_resolved _ _ _ _ _ Hh) by
      (try reflexivity; destruct Hc as [fs [afs [-> _]]]; discriminate).
    unfold parse_response.
    assert (Hraw : match B with VStr s0 => JSON_parse_c s0 | _ => Return B end
                   = Return B) by (destruct Hc as [fs [afs [-> _]]]; reflexivity).
    rewrite Hraw. cbn [bind]. rewrite (canonical_is_dynamodb_format Hc). reflexivity. }
  rewrite process_file_run. unfold events_of, report_of.
  rewrite Hread, Hnum. cbn [invoke lambda_script validates]. rewrite Hinv.
  unfold saveAnalysisToDynamoDB. cbn [fst snd app].
  simpl. rewrite Hput. simpl. rewrite Hmiss. reflexivity.
Qed.

Lemma derived_id_txt (stem : jsstring) :
  stem <> [] ->
  Forall (fun c => c <> 46%N /\ c <> 47%N) stem ->
  derived_id (stem ++ lit ".txt") = stem.
Proof.
  intros Hne Hall.
  assert (Hdot : Forall (fun c => c <> 46%N) stem)
    by (eapply Forall_impl; [|exact Hall]; now intros c [H _]).
  assert (Hslash : Forall (fun c => c <> 47%N) stem)
    by (eapply Forall_impl; [|exact Hall]; now intros c [_ H]).
  unfold derived_id. destruct stem as [|c stem]; [congruence|].
  rewrite extname_txt by assumption. now apply remove_first_txt.
Qed.

(** A directory entry [<stem>.txt] whose stem is not empty and holds no
    dot and no slash is picked by the handler's filter; the assignment id
    derived from it is the stem, and the id the handler reports when the
    file fails is the same stem. *)
Theorem txt_name_gives_stem_as_id (stem : jsstring) :
  stem <> [] ->
  Forall (fun c => c <> 46%N /\ c <> 47%N) stem ->
  endsWith (stem ++ lit ".txt") (lit ".txt") = true
  /\ derived_id (stem ++ lit ".txt") = stem
  /\ remove_first (lit ".txt") (stem ++ lit ".txt") = stem.
Proof.
  intros Hne Hall.
  assert (Hdot : Forall (fun c => c <> 46%N) stem)
    by (eapply Forall_impl; [|exact Hall]; now intros c [H _]).
  assert (Hslash : Forall (fun c => c <> 47%N) stem)
    by (eapply Forall_impl; [|exact Hall]; now intros c [_ H]).
  split; [apply endsWith_app|]. split; [|now apply remove_first_txt].
  now apply derived_id_txt.
Qed.

(** The good case, end to end, in the Lambda script.  For a directory
    entry [<stem>.txt] with a plain stem that is numeric, whose text loads,
    whose first post is answered with a 2xx reply in the canonical shape
    that has an [assignmentId.N], and whose write the store accepts, the
    loop body reads the file, posts once, writes the reply to the store
    unchanged and reports SUCCESS under the id [<stem>]. *)
Theorem graded_file_is_saved (w : world) (aid : number) (results : list outcome)
  (stem text : jsstring) (status : Z) (B a n : value) :
  stem <> [] ->
  Forall (fun c => c <> 46%N /\ c <> 47%N) stem ->
  isNaN (StringToNumber stem) = false ->
  readFile w (fullPath (stem ++ lit ".txt")) = Return text ->
  http w (mkPayload (safeText text) stem aid) 1 = Reply status B ->
  is_2xx status = true ->
  canonical_shape B ->
  get B (lit "assignmentId") = Return a ->
  get a (lit "N") = Return n ->
  putItem w B = Return tt ->
  process_file lambda_script w aid results (stem ++ lit ".txt")
  = ([ EvRead (fullPath (stem ++ lit ".txt"));
       EvPost 1 (mkPayload (safeText text) stem aid);
       EvPut B ],
     Return (results ++ [mkOutcome stem SUCCESS None])).
Proof.
  intros Hne Hplain Hnum Hread Hh Hs Hc Ha Hn Hput.
  pose proof (derived_id_txt Hne Hplain) as Hid.
  assert (Hinv : invokeModelEndpoint w text stem aid
                 = ([EvPost 1 (mkPayload (safeText text) stem aid)], Return B)).
  { unfold invokeModelEndpoint. change attempt_numbers with [1; 2; 3]%Z.
    cbn [attempts].
    rewrite (attempt_once_resolved _ _ _ _ _ Hh Hs)
      by (destruct Hc as [fs [afs [-> _]]]; discriminate).
    unfold parse_response.
    assert (Hraw : match B with VStr s0 => JSON_parse_c s0 | _ => Return B end
                   = Return B) by (destruct Hc as [fs [afs [-> _]]]; reflexivity).
    rewrite Hraw. cbn [bind]. rewrite (canonical_is_dynamodb_format Hc). reflexivity. }
  rewrite process_file_run. unfold events_of, report_of.
  rewrite Hread, Hid, Hnum. cbn [invoke lambda_script validates]. rewrite Hinv.
  unfold saveAnalysisToDynamoDB. cbn [fst snd app].
  simpl. rewrite Hput. simpl. rewrite Ha. simpl. rewrite Hn. reflexivity.
Qed.

End BatchFacts.

(** ** The codec *)

Section CodecFacts.
Context {NUM : Numbers}.

(** Induction over a value and, through arrays and objects, its parts. *)
Lemma value_induction (P : value -> Prop) :
  P VUndef -> P VNull -> (forall b, P (VBool b)) -> (forall n, P (VNum n)) ->
  (forall s, P (VStr s)) ->
  (forall xs, Forall P xs -> P (VArr xs)) ->
  (forall fs, Forall (fun kv => P (snd kv)) fs -> P (VObj fs)) ->
  forall v, P v.
Proof.
  intros HU HN HB HNum HS HA HO.
  fix IH 1. intros [| | b | n | s | xs | fs].
  - exact HU.
  - exact HN.
  - apply HB.
  - apply HNum.
  - apply HS.
  - apply HA. induction xs as [|x xs IHxs]; constructor; [apply IH | exact IHxs].
  - apply HO. induction fs as [|[k x] fs IHfs]; constructor; [apply IH | exact IHfs].
Qed.

(** *** The values the round trip is about *)

(** The five discriminators of the wire format. *)
Definition reserved (k : jsstring) : bool :=
  str_eqb k (lit "S") || str_eqb k (lit "N") || str_eqb k (lit "BOOL")
  || str_eqb k (lit "M") || str_eqb k (lit "L").

(** A property name that an assignment turns into an own property. *)
Definition ordinary (k : jsstring) : bool := negb (str_eqb k PROTO).

(** No key occurs twice (an object has one property per name). *)
Fixpoint distinct (ks : list jsstring) : bool :=
  match ks with
  | [] => true
  | k :: rest => negb (existsb (str_eqb k) rest) && distinct rest
  end.

(** Built from strings, numbers, booleans, objects and lists, where no
    object has a property named like a discriminator or named
    [__proto__], and no list has a list as a direct element. *)
Fixpoint plain (v : value) : bool :=
  match v with
  | VStr _ | VNum _ | VBool _ => true
  | VArr xs =>
      forallb (fun x => match x with
                        | VArr _ => false
                        | _ => plain x
                        end) xs
  | VObj fs =>
      distinct (List.map fst fs)
      && forallb (fun k => negb (reserved k)) (List.map fst fs)
      && forallb ordinary (List.map fst fs)
      && forallb (fun kv => plain (snd kv)) fs
  | VUndef | VNull => false
  end.

Definition plain_object (v : value) : bool :=
  match v with
  | VObj _ => plain v
  | _ => false
  end.

(** The value with every number printed and read back. *)
Fixpoint reread (v : value) : value :=
  match v with
  | VNum n => VNum (StringToNumber (NumberToString n))
  | VArr xs => VArr (List.map reread xs)
  | VObj fs => VObj (List.map (fun kv => (fst kv, reread (snd kv))) fs)
  | _ => v
  end.

(** Every number in the value is integer-valued. *)
Fixpoint integral (v : value) : Prop :=
  match v with
  | VNum n => exists z, n = of_Z z
  | VArr xs =>
      (fix all (l : list value) : Prop :=
         match l with
         | [] => True
         | x :: l' => integral x /\ all l'
         end) xs
  | VObj fs =>
      (fix all (l : fields) : Prop :=
         match l with
         | [] => True
         | kv :: l' => integral (snd kv) /\ all l'
         end) fs
  | _ => True
  end.

(** A wire record without lists: an object none of whose keys is a type
    tag and each of whose attributes is a wrapper with one tag, [{S: x}],
    [{N: x}] or [{BOOL: x}] with [x] not undefined, or [{M: m}] with [m]
    again such a record. *)
Definition list_free_attr (list_free_record : value -> bool) (val : value) : bool :=
  match val with
  | VObj [(tag, x)] =>
      if str_eqb tag (lit "M") then list_free_record x
      else (str_eqb tag (lit "S") || str_eqb tag (lit "N") || str_eqb tag (lit "BOOL"))
           && defined x
  | _ => false
  end.

Fixpoint list_free_record (item : value) : bool :=
  match item with
  | VObj fs =>
      forallb (fun k => negb (reserved k)) (List.map fst fs)
      && forallb (fun kv => list_free_attr list_free_record (snd kv)) fs
  | _ => false
  end.


(** The shape of the wire format.  An attribute is an object with one
    property, named by a type tag, whose payload has the tag's type: a
    string under [S] and [N], a boolean under [BOOL], a map under [M], and
    under [L] an array of attributes that are not lists themselves.  A
    map is an object of attributes; [null] is not a map. *)
Definition is_string (v : value) : bool :=
  match v with VStr _ => true | _ => false end.

Definition is_boolean (v : value) : bool :=
  match v with VBool _ => true | _ => false end.

Definition wire_element (wire_map : value -> bool) (item : value) : bool :=
  match item with
  | VObj [(tag, x)] =>
      if str_eqb tag (lit "S") then is_string x
      else if str_eqb tag (lit "N") then is_string x
      else if str_eqb tag (lit "BOOL") then is_boolean x
      else if str_eqb tag (lit "M") then wire_map x
      else false
  | _ => false
  end.

Definition wire_attr (wire_map : value -> bool) (attr : value) : bool :=
  match attr with
  | VObj [(tag, x)] =>
      if str_eqb tag (lit "L") then
        match x with
        | VArr items => forallb (wire_element wire_map) items
        | _ => false
        end
      else wire_element wire_map attr
  | _ => false
  end.

Fixpoint wire_map (v : value) : bool :=
  match v with
  | VObj fs => forallb (fun kv => wire_attr wire_map (snd kv)) fs
  | _ => false
  end.

(** No [null] anywhere in the value. *)
Fixpoint null_free (v : value) : bool :=
  match v with
  | VNull => false
  | VArr xs => forallb null_free xs
  | VObj fs => forallb (fun kv => null_free (snd kv)) fs
  | _ => true
  end.

(** No object in the value has a property named [__proto__]. *)
Fixpoint proto_free (v : value) : bool :=
  match v with
  | VArr xs => forallb proto_free xs
  | VObj fs =>
      forallb ordinary (List.map fst fs) && forallb (fun kv => proto_free (snd kv)) fs
  | _ => true
  end.

(** No list anywhere in the value. *)
Fixpoint list_free (v : value) : bool :=
  match v with
  | VArr _ => false
  | VObj fs => forallb (fun kv => list_free (snd kv)) fs
  | _ => true
  end.

Lemma reread_integral v : integral v -> reread v = v.
Proof.
  induction v as [| | b | n | s | xs IH | fs IH] using value_induction;
    simpl; intros H; try reflexivity.
  - destruct H as [z ->]. now rewrite int_roundtrip.
  - f_equal. induction IH as [|x xs Hx _ IHxs]; simpl; [reflexivity|].
    destruct H as [H1 H2]. now rewrite Hx, IHxs.
  - f_equal. induction IH as [|[k x] fs Hx _ IHfs]; simpl; [reflexivity|].
    destruct H as [H1 H2]. simpl in *. now rewrite Hx, IHfs.
Qed.

(** *** Assignments into an object under construction *)

Lemma has_key_existsb k (fs : fields) :
  has_key k fs = existsb (str_eqb k) (List.map fst fs).
Proof.
  induction fs as [|[k' v] fs IH]; simpl; [reflexivity|]. now rewrite IH.
Qed.

Lemma has_key_app k (a b : fields) : has_key k (a ++ b) = has_key k a || has_key k b.
Proof.
  induction a as [|[k' v] a IH]; simpl; [reflexivity|].
  now rewrite IH, orb_assoc.
Qed.

Lemma obj_set_ordinary (out : fields) k v :
  ordinary k = true -> obj_set out k v = own_set out k v.
Proof.
  unfold ordinary, obj_set. intros H. apply negb_true_iff in H. now rewrite H.
Qed.

Lemma obj_set_fresh (out : fields) k v :
  ordinary k = true -> has_key k out = false -> obj_set out k v = out ++ [(k, v)].
Proof.
  intros Hk. rewrite obj_set_ordinary by exact Hk.
  induction out as [|[k' v'] out IH]; simpl; [reflexivity|].
  intros H. apply orb_false_iff in H. destruct H as [H1 H2].
  rewrite H1. now rewrite IH.
Qed.

Lemma existsb_false_In k ks k' :
  existsb (str_eqb k) ks = false -> In k' ks -> str_eqb k' k = false.
Proof.
  intros H Hin. rewrite str_eqb_sym.
  destruct (str_eqb k k') eqn:E; [|reflexivity].
  assert (existsb (str_eqb k) ks = true) by (apply existsb_exists; eauto).
  congruence.
Qed.

(** With distinct keys, none of them in [out] yet, the loop appends one
    property per field, in order. *)
Lemma assign_fields_map (f : value -> completion value) (e g : value -> value)
  (fs : fields) : forall out,
  (forall kv, In kv fs -> f (e (snd kv)) = Return (g (snd kv))) ->
  distinct (List.map fst fs) = true ->
  forallb ordinary (List.map fst fs) = true ->
  (forall k, In k (List.map fst fs) -> has_key k out = false) ->
  assign_fields f (List.map (fun kv => (fst kv, e (snd kv))) fs) out
  = Return (out ++ List.map (fun kv => (fst kv, g (snd kv))) fs).
Proof.
  induction fs as [|[k v] fs IH]; intros out Hf Hd Ho Hfresh; simpl.
  - now rewrite app_nil_r.
  - simpl in Hd. apply andb_true_iff in Hd. destruct Hd as [Hk Hd].
    simpl in Ho. apply andb_true_iff in Ho. destruct Ho as [Hok Ho].
    apply negb_true_iff in Hk.
    pose proof (Hf (k, v) (or_introl eq_refl)) as Hkv. simpl in Hkv.
    rewrite Hkv. simpl.
    rewrite obj_set_fresh by (try exact Hok; apply Hfresh; now left).
    rewrite IH.
    + now rewrite <- app_assoc.
    + intros kv Hin. apply Hf. now right.
    + exact Hd.
    + exact Ho.
    + intros k' Hin. rewrite has_key_app. simpl.
      rewrite (Hfresh k') by (now right). simpl.
      rewrite (@existsb_false_In _ _ _ Hk Hin). reflexivity.
Qed.

Lemma put_fields_map (e : value -> value) (fs : fields) : forall out,
  distinct (List.map fst fs) = true ->
  forallb ordinary (List.map fst fs) = true ->
  (forall k, In k (List.map fst fs) -> has_key k out = false) ->
  put_fields e fs out = out ++ List.map (fun kv => (fst kv, e (snd kv))) fs.
Proof.
  induction fs as [|[k v] fs IH]; intros out Hd Ho Hfresh; simpl.
  - now rewrite app_nil_r.
  - simpl in Hd. apply andb_true_iff in Hd. destruct Hd as [Hk Hd].
    simpl in Ho. apply andb_true_iff in Ho. destruct Ho as [Hok Ho].
    apply negb_true_iff in Hk.
    rewrite obj_set_fresh by (try exact Hok; apply Hfresh; now left).
    rewrite IH.
    + now rewrite <- app_assoc.
    + exact Hd.
    + exact Ho.
    + intros k' Hin. rewrite has_key_app. simpl.
      rewrite (Hfresh k') by (now right). simpl.
      rewrite (@existsb_false_In _ _ _ Hk Hin). reflexivity.
Qed.

Lemma map_c_map {A B C} (f : B -> completion C) (e : A -> B) (g : A -> C) xs :
  (forall x, In x xs -> f (e x) = Return (g x)) ->
  map_c f (List.map e xs) = Return (List.map g xs).
Proof.
  induction xs as [|x xs IH]; intros H; simpl; [reflexivity|].
  rewrite (H x) by (now left). simpl.
  rewrite IH by (intros y Hy; apply H; now right). reflexivity.
Qed.

(** *** The analytics decoder on what the encoder produces *)

Lemma not_reserved_not_wrapper (fs : fields) :
  forallb (fun k => negb (reserved k)) (List.map fst fs) = true ->
  Analytics.is_typed_wrapper fs = false.
Proof.
  intros H. unfold Analytics.is_typed_wrapper. rewrite !has_key_existsb.
  assert (Hk : forall tag, reserved (lit tag) = true ->
                           existsb (str_eqb (lit tag)) (List.map fst fs) = false).
  { intros tag Htag. destruct (existsb (str_eqb (lit tag)) (List.map fst fs)) eqn:E;
      [|reflexivity].
    apply existsb_exists in E. destruct E as [k [Hin Hk]].
    apply str_eqb_eq in Hk. subst k.
    rewrite forallb_forall in H. apply H in Hin. rewrite Htag in Hin. discriminate. }
  rewrite !Hk by reflexivity. reflexivity.
Qed.

Lemma convert_as_map (fs : fields) :
  Analytics.is_typed_wrapper fs = false ->
  Analytics.convert (VObj fs)
  = let* out := assign_fields Analytics.convert fs [] in Return (VObj out).
Proof. intros H. cbn [Analytics.convert ToBoolean negb]. now rewrite H. Qed.

Lemma convert_S v :
  v <> VUndef -> Analytics.convert (tagged "S" v) = Return v.
Proof. destruct v; try reflexivity. congruence. Qed.

Lemma convert_N s :
  Analytics.convert (tagged "N" (VStr s)) = Return (VNum (StringToNumber s)).
Proof. reflexivity. Qed.

Lemma convert_BOOL b : Analytics.convert (tagged "BOOL" (VBool b)) = Return (VBool b).
Proof. reflexivity. Qed.

Lemma convert_M fs :
  Analytics.convert (tagged "M" (VObj fs)) = Analytics.convert (VObj fs).
Proof. reflexivity. Qed.

Lemma convert_L ys :
  Analytics.convert (tagged "L" (VArr ys))
  = let* zs := map_c Analytics.convert ys in Return (VArr zs).
Proof. reflexivity. Qed.

Lemma toDynamoDBFormat_object fs :
  Analytics.toDynamoDBFormat (VObj fs)
  = VObj (put_fields (Analytics.encode_attr Analytics.toDynamoDBFormat) fs []).
Proof. reflexivity. Qed.

Lemma map_fst_map {A} (e : value -> A) (fs : fields) :
  List.map fst (List.map (fun kv => (fst kv, e (snd kv))) fs) = List.map fst fs.
Proof. rewrite map_map. reflexivity. Qed.

(** The three ways a plain value meets the decoder: as a property of an
    object, as an element of a list, as a nested object. *)
Lemma roundtrip_parts v :
  plain v = true ->
  Analytics.convert (Analytics.encode_attr Analytics.toDynamoDBFormat v) = Return (reread v)
  /\ ((forall xs, v <> VArr xs) ->
      Analytics.convert (Analytics.encode_item Analytics.toDynamoDBFormat v)
      = Return (reread v))
  /\ (forall fs, v = VObj fs ->
      Analytics.convert (Analytics.toDynamoDBFormat v) = Return (reread v)).
Proof.
  induction v as [| | b | n | s | xs IH | fs IH] using value_induction;
    intros Hp; try discriminate.
  - repeat split; try discriminate; intros; apply convert_BOOL.
  - repeat split; try discriminate; intros; apply convert_N.
  - repeat split; try discriminate; intros; now apply convert_S.
  - (* a list *)
    split; [|split; [intros H; now destruct (H xs) | discriminate]].
    cbn [Analytics.encode_attr]. rewrite convert_L.
    rewrite (map_c_map _ _ reread); [reflexivity|].
    intros x Hx. simpl in Hp. rewrite forallb_forall in Hp.
    rewrite Forall_forall in IH. specialize (Hp x Hx). specialize (IH x Hx).
    destruct x; try discriminate; now apply IH.
  - (* an object *)
    simpl in Hp. apply andb_true_iff in Hp. destruct Hp as [Hp Hall].
    apply andb_true_iff in Hp. destruct Hp as [Hp Ho].
    apply andb_true_iff in Hp. destruct Hp as [Hd Hr].
    assert (Hobj : Analytics.convert (Analytics.toDynamoDBFormat (VObj fs))
                   = Return (reread (VObj fs))).
    { cbn [Analytics.toDynamoDBFormat].
      rewrite put_fields_map by (try assumption; reflexivity). simpl app.
      rewrite convert_as_map
        by (apply not_reserved_not_wrapper; now rewrite map_fst_map).
      rewrite (assign_fields_map _ _ reread); try assumption; try reflexivity.
      intros kv Hin. rewrite forallb_forall in Hall. rewrite Forall_forall in IH.
      now apply (IH kv Hin), Hall. }
    repeat split.
    + cbn [Analytics.encode_attr].
      rewrite toDynamoDBFormat_object, convert_M, <- toDynamoDBFormat_object.
      exact Hobj.
    + intros _. cbn [Analytics.encode_item].
      rewrite toDynamoDBFormat_object, convert_M, <- toDynamoDBFormat_object.
      exact Hobj.
    + intros fs' _. exact Hobj.
Qed.

(** C6 (amended).  For every plain object, nested from strings, numbers,
    booleans, objects and lists, in which no object has a property named S,
    N, BOOL, M, L or [__proto__] and no list has a list as a direct element,
    decoding
    the encoding gives the object back with every number printed and read
    again; when its numbers are integer-valued it gives back the object
    itself. *)
Theorem decode_encode_roundtrip (v : value) :
  plain_object v = true ->
  Analytics.convert (Analytics.toDynamoDBFormat v) = Return (reread v)
  /\ (integral v -> Analytics.convert (Analytics.toDynamoDBFormat v) = Return v).
Proof.
  intros Hp. destruct v as [| | | | | |fs]; try discriminate.
  simpl in Hp.
  destruct (@roundtrip_parts (VObj fs) Hp) as [_ [_ H]].
  specialize (H fs eq_refl).
  split.
  - exact H.
  - intros Hi. rewrite H. now rewrite (@reread_integral (VObj fs) Hi).
Qed.

Lemma assign_fields_ext (f g : value -> completion value) (fs : fields) :
  (forall kv, In kv fs -> f (snd kv) = g (snd kv)) ->
  forall out, assign_fields f fs out = assign_fields g fs out.
Proof.
  induction fs as [|[k v] fs IH]; intros H out; simpl; [reflexivity|].
  pose proof (H (k, v) (or_introl eq_refl)) as Hkv. simpl in Hkv. rewrite Hkv.
  destruct (g v) as [y|e]; simpl; [|reflexivity].
  apply IH. intros kv Hin. apply H. now right.
Qed.

Lemma wrapper_scalar tag x :
  (str_eqb tag (lit "S") || str_eqb tag (lit "N") || str_eqb tag (lit "BOOL")) = true ->
  defined x = true ->
  Batch.convert_attr Batch.convert (VObj [(tag, x)]) = Analytics.convert (VObj [(tag, x)]).
Proof.
  intros Ht Hx.
  apply orb_true_iff in Ht. destruct Ht as [Ht|Ht];
    [apply orb_true_iff in Ht; destruct Ht as [Ht|Ht]|];
    apply str_eqb_eq in Ht; subst tag;
    destruct x; try discriminate; reflexivity.
Qed.

Lemma wrapper_map fs :
  Batch.convert_attr Batch.convert (VObj [(lit "M", VObj fs)]) = Batch.convert (VObj fs)
  /\ Analytics.convert (VObj [(lit "M", VObj fs)]) = Analytics.convert (VObj fs).
Proof. split; reflexivity. Qed.

Lemma decoders_agree_parts v :
  (list_free_record v = true -> Batch.convert v = Analytics.convert v)
  /\ (list_free_attr list_free_record v = true ->
      Batch.convert_attr Batch.convert v = Analytics.convert v).
Proof.
  induction v as [| | b | n | s | xs _ | fs IH] using value_induction;
    try (split; discriminate).
  split.
  - intros H. cbn [list_free_record] in H.
    apply andb_true_iff in H. destruct H as [Hk Ha].
    rewrite (convert_as_map _ (not_reserved_not_wrapper _ Hk)).
    cbn [Batch.convert ToBoolean negb].
    rewrite (@assign_fields_ext (Batch.convert_attr Batch.convert) Analytics.convert fs);
      [reflexivity|].
    intros kv Hin. rewrite Forall_forall in IH. rewrite forallb_forall in Ha.
    apply (IH kv Hin). apply Ha, Hin.
  - intros H. destruct fs as [|[tag x] [|? ?]]; try discriminate.
    cbn [list_free_attr] in H.
    destruct (str_eqb tag (lit "M")) eqn:Hm.
    + apply str_eqb_eq in Hm. subst tag.
      apply Forall_inv in IH. simpl in IH. destruct IH as [IH _].
      destruct x as [| | | | | |fs']; try discriminate.
      destruct (wrapper_map fs') as [-> ->]. now apply IH.
    + apply andb_true_iff in H. destruct H as [Ht Hx]. now apply wrapper_scalar.
Qed.

(** On wire records without lists the two decoders agree: they return the
    same plain value or throw the same error. *)
Theorem decoders_agree_without_lists (item : value) :
  list_free_record item = true ->
  Batch.convert item = Analytics.convert item.
Proof. apply decoders_agree_parts. Qed.


(** *** Reading an attribute of a decoded record *)

Lemma lookup_obj_set_same k (out : fields) y :
  ordinary k = true -> lookup k (obj_set out k y) = y.
Proof.
  intros Hk. rewrite obj_set_ordinary by exact Hk.
  induction out as [|[k' v'] out IH]; simpl.
  - now rewrite str_eqb_refl.
  - destruct (str_eqb k k') eqn:E; simpl; [now rewrite str_eqb_refl|].
    now rewrite E.
Qed.

Lemma lookup_obj_set_other k k' (out : fields) y :
  str_eqb k k' = false -> lookup k (obj_set out k' y) = lookup k out.
Proof.
  intros Hk. unfold obj_set. destruct (str_eqb k' PROTO); [reflexivity|].
  induction out as [|[k2 v2] out IH]; simpl.
  - now rewrite Hk.
  - destruct (str_eqb k' k2) eqn:E; simpl.
    + apply str_eqb_eq in E. subst k2. now rewrite Hk.
    + now rewrite IH.
Qed.

Lemma assign_fields_untouched (f : value -> completion value) k (fs : fields) :
  forall out out',
  assign_fields f fs out = Return out' ->
  has_key k fs = false ->
  lookup k out' = lookup k out.
Proof.
  induction fs as [|[k' v] fs IH]; intros out out' Hrun Hk; simpl in *.
  - now injection Hrun as <-.
  - apply orb_false_iff in Hk. destruct Hk as [Hk Hrest].
    destruct (f v) as [y|e]; simpl in Hrun; [|discriminate].
    rewrite (IH _ _ Hrun Hrest). now apply lookup_obj_set_other.
Qed.

Lemma assign_fields_lookup (f : value -> completion value) k (fs : fields) :
  ordinary k = true ->
  forall out out',
  distinct (List.map fst fs) = true ->
  assign_fields f fs out = Return out' ->
  has_key k fs = true ->
  f (lookup k fs) = Return (lookup k out').
Proof.
  intros Ho.
  induction fs as [|[k' v] fs IH]; intros out out' Hd Hrun Hk; simpl in *;
    [discriminate|].
  apply andb_true_iff in Hd. destruct Hd as [Hfresh Hd].
  apply negb_true_iff in Hfresh.
  destruct (f v) as [y|e] eqn:Ef; simpl in Hrun; [|discriminate].
  destruct (str_eqb k k') eqn:E.
  - apply str_eqb_eq in E. subst k'.
    rewrite (assign_fields_untouched _ _ _ _ Hrun)
      by (now rewrite has_key_existsb).
    now rewrite lookup_obj_set_same.
  - simpl in Hk. now apply (IH _ _ Hd Hrun).
Qed.

Lemma batch_convert_object fs :
  Batch.convert (VObj fs)
  = let* out := assign_fields (Batch.convert_attr Batch.convert) fs [] in
    Return (VObj out).
Proof. reflexivity. Qed.

Lemma batch_convert_get fs a k :
  distinct (List.map fst fs) = true ->
  Batch.convert (VObj fs) = Return a ->
  (ordinary k = true -> has_key k fs = true ->
   Batch.convert_attr Batch.convert (lookup k fs) = Return (lookup k match a with
                                                                     | VObj out => out
                                                                     | _ => []
                                                                     end))
  /\ (has_key k fs = false -> get a k = Return VUndef)
  /\ exists out, a = VObj out.
Proof.
  intros Hd. rewrite batch_convert_object.
  destruct (assign_fields (Batch.convert_attr Batch.convert) fs []) as [out|e] eqn:E;
    simpl; [|discriminate].
  intros [= <-]. split; [|split].
  - intros Ho Hk. eapply assign_fields_lookup; eassumption.
  - intros Hk. simpl. now rewrite (assign_fields_untouched _ _ _ _ E Hk).
  - eauto.
Qed.

(** The batch scripts' decoder works attribute by attribute: on a
    record with distinct attribute names, none of them [__proto__], that it
    decodes, a number attribute [{N: s}] reads back as [Number(s)], a
    string attribute [{S: s}] as [s], and a name that the record lacks and
    that no object inherits reads as undefined. *)
Theorem batch_convert_is_attribute_wise (fs : fields) (a : value) (k s : jsstring) :
  distinct (List.map fst fs) = true ->
  has_key PROTO fs = false ->
  Batch.convert (VObj fs) = Return a ->
  (lookup k fs = tagged "N" (VStr s) -> get a k = Return (VNum (StringToNumber s)))
  /\ (lookup k fs = tagged "S" (VStr s) -> get a k = Return (VStr s))
  /\ (has_key k fs = false -> inherited k = false -> get a k = Return VUndef).
Proof.
  intros Hd Hproto Hrun.
  destruct (@batch_convert_get fs a k Hd Hrun) as [Hin [Hout [out ->]]].
  assert (Hkey : forall v, lookup k fs = v -> v <> VUndef -> has_key k fs = true).
  { intros v Hv Hne. destruct (has_key k fs) eqn:E; [reflexivity|].
    exfalso. apply Hne. rewrite <- Hv. clear -E.
    induction fs as [|[k' x] fs IH]; simpl in *; [reflexivity|].
    apply orb_false_iff in E. destruct E as [-> E]. auto. }
  assert (Hord : has_key k fs = true -> ordinary k = true).
  { intros Hk. unfold ordinary. destruct (str_eqb k PROTO) eqn:E; [|reflexivity].
    apply str_eqb_eq in E. subst k. congruence. }
  split; [|split; [|intros Hk _; exact (Hout Hk)]].
  - intros Hl. pose proof (Hkey _ Hl ltac:(discriminate)) as Hk.
    specialize (Hin (Hord Hk) Hk).
    rewrite Hl in Hin. simpl in Hin. simpl. now injection Hin as <-.
  - intros Hl. pose proof (Hkey _ Hl ltac:(discriminate)) as Hk.
    specialize (Hin (Hord Hk) Hk).
    rewrite Hl in Hin. simpl in Hin. simpl. now injection Hin as <-.
Qed.

(** *** The shape of what the encoder produces *)

Lemma Forall_obj_set (Q : value -> Prop) (out : fields) k y :
  Forall (fun kv => Q (snd kv)) out -> Q y ->
  Forall (fun kv => Q (snd kv)) (obj_set out k y).
Proof.
  intros Hout Hy. unfold obj_set. destruct (str_eqb k PROTO); [exact Hout|].
  induction Hout as [|[k' v'] out Hv Hout IH]; simpl.
  - now repeat constructor.
  - destruct (str_eqb k k'); constructor; simpl in *; auto.
Qed.

Lemma Forall_put_fields (Q : value -> Prop) (e : value -> value) (fs : fields) :
  Forall (fun kv => Q (e (snd kv))) fs ->
  forall out, Forall (fun kv => Q (snd kv)) out ->
  Forall (fun kv => Q (snd kv)) (put_fields e fs out).
Proof.
  induction 1 as [|[k v] fs Hv _ IH]; intros out Hout; simpl; [exact Hout|].
  apply IH. now apply Forall_obj_set.
Qed.

Lemma Forall_put_indexed (Q : value -> Prop) (e : value -> value) (xs : list value) :
  Forall (fun x => Q (e x)) xs ->
  forall i out, Forall (fun kv => Q (snd kv)) out ->
  Forall (fun kv => Q (snd kv)) (put_indexed e i xs out).
Proof.
  induction 1 as [|x xs Hx _ IH]; intros i out Hout; simpl; [exact Hout|].
  apply IH. now apply Forall_obj_set.
Qed.

Lemma Forall_put_chars (Q : value -> Prop) (e : value -> value) (s : jsstring) :
  (forall c, Q (e (VStr [c]))) ->
  forall i out, Forall (fun kv => Q (snd kv)) out ->
  Forall (fun kv => Q (snd kv)) (put_chars e i s out).
Proof.
  intros He. induction s as [|c s IH]; intros i out Hout; simpl; [exact Hout|].
  apply IH. now apply Forall_obj_set.
Qed.

Lemma wire_map_intro (fs : fields) :
  Forall (fun kv => wire_attr wire_map (snd kv) = true) fs ->
  wire_map (VObj fs) = true.
Proof. intros H. simpl. apply forallb_forall. now apply Forall_forall. Qed.

Lemma encoder_shape v :
  null_free v = true ->
  (v <> VUndef -> wire_map (Analytics.toDynamoDBFormat v) = true)
  /\ wire_attr wire_map (Analytics.encode_attr Analytics.toDynamoDBFormat v) = true
  /\ wire_element wire_map (Analytics.encode_item Analytics.toDynamoDBFormat v) = true.
Proof.
  induction v as [| | b | n | s | xs IH | fs IH] using value_induction;
    intros Hnull; try discriminate;
    try (repeat split; reflexivity).
  - (* undefined *)
    split; [now intros H|]. split; reflexivity.
  - (* a string: its characters, one attribute each *)
    split; [intros _|split; reflexivity].
    cbn [Analytics.toDynamoDBFormat]. apply wire_map_intro.
    apply Forall_put_chars with (Q := fun a => wire_attr wire_map a = true); [reflexivity | constructor].
  - (* an array *)
    simpl in Hnull. rewrite forallb_forall in Hnull.
    assert (IH' : Forall (fun x =>
                     wire_attr wire_map (Analytics.encode_attr Analytics.toDynamoDBFormat x) = true
                     /\ wire_element wire_map
                          (Analytics.encode_item Analytics.toDynamoDBFormat x) = true) xs).
    { rewrite Forall_forall in *. intros x Hx. now apply (IH x Hx (Hnull x Hx)). }
    assert (Hmap : wire_map (Analytics.toDynamoDBFormat (VArr xs)) = true).
    { cbn [Analytics.toDynamoDBFormat]. apply wire_map_intro.
      apply Forall_put_indexed with (Q := fun a => wire_attr wire_map a = true); [|constructor].
      eapply Forall_impl; [|exact IH']. intros x Hx. apply Hx. }
    split; [intros _; exact Hmap|]. split.
    + cbn [Analytics.encode_attr tagged wire_attr]. cbn [str_eqb lit].
      change (str_eqb (lit "L") (lit "L")) with true. cbv iota.
      apply forallb_forall. intros y Hy. apply in_map_iff in Hy.
      destruct Hy as [x [<- Hx]]. rewrite Forall_forall in IH'. now apply IH'.
    + cbn [Analytics.encode_item tagged wire_element].
      change (str_eqb (lit "M") (lit "S")) with false.
      change (str_eqb (lit "M") (lit "N")) with false.
      change (str_eqb (lit "M") (lit "BOOL")) with false.
      change (str_eqb (lit "M") (lit "M")) with true. cbv iota. exact Hmap.
  - (* an object *)
    simpl in Hnull. rewrite forallb_forall in Hnull.
    assert (Hmap : wire_map (Analytics.toDynamoDBFormat (VObj fs)) = true).
    { cbn [Analytics.toDynamoDBFormat]. apply wire_map_intro.
      apply Forall_put_fields with (Q := fun a => wire_attr wire_map a = true); [|constructor].
      rewrite Forall_forall in *. intros kv Hkv.
      now apply (IH kv Hkv (Hnull kv Hkv)). }
    split; [intros _; exact Hmap|]. split.
    + cbn [Analytics.encode_attr tagged wire_attr wire_element].
      change (str_eqb (lit "M") (lit "L")) with false.
      change (str_eqb (lit "M") (lit "S")) with false.
      change (str_eqb (lit "M") (lit "N")) with false.
      change (str_eqb (lit "M") (lit "BOOL")) with false.
      change (str_eqb (lit "M") (lit "M")) with true. cbv iota. exact Hmap.
    + cbn [Analytics.encode_item tagged wire_element].
      change (str_eqb (lit "M") (lit "S")) with false.
      change (str_eqb (lit "M") (lit "N")) with false.
      change (str_eqb (lit "M") (lit "BOOL")) with false.
      change (str_eqb (lit "M") (lit "M")) with true. cbv iota. exact Hmap.
Qed.

(** Given a value that is not undefined, holds no [null] and has no
    property named [__proto__], the encoder returns a map in wire format:
    every attribute carries exactly one type tag with a payload of that
    tag's type (a string under S and N, a boolean under BOOL, again such a
    map under M, an array under L), and no list holds a list.  A property
    that is [null] is encoded as [{M: null}], which has no map under its
    tag. *)
Theorem encoder_output_is_wire_format (v : value) :
  null_free v = true -> proto_free v = true -> v <> VUndef ->
  wire_map (Analytics.toDynamoDBFormat v) = true
  /\ Analytics.encode_attr Analytics.toDynamoDBFormat VNull = tagged "M" VNull
  /\ wire_attr wire_map (tagged "M" VNull) = false.
Proof.
  intros Hnull _ Hdef. split; [now apply encoder_shape|]. split; reflexivity.
Qed.

(** *** The batch decoder on what the encoder produces *)

Lemma encoded_list_free v :
  plain v = true -> list_free v = true ->
  list_free_attr list_free_record (Analytics.encode_attr Analytics.toDynamoDBFormat v)
  = true
  /\ (forall fs, v = VObj fs ->
      list_free_record (Analytics.toDynamoDBFormat v) = true).
Proof.
  induction v as [| | b | n | s | xs IH | fs IH] using value_induction;
    intros Hp Hl; try discriminate; try (split; [reflexivity | discriminate]).
  simpl in Hp. apply andb_true_iff in Hp. destruct Hp as [Hp Hall].
  apply andb_true_iff in Hp. destruct Hp as [Hp Ho].
  apply andb_true_iff in Hp. destruct Hp as [Hd Hr].
  assert (Hrec : list_free_record (Analytics.toDynamoDBFormat (VObj fs)) = true).
  { cbn [Analytics.toDynamoDBFormat].
    rewrite put_fields_map by (try assumption; reflexivity). cbn [app list_free_record].
    rewrite map_fst_map, Hr. cbn [andb].
    apply forallb_forall. intros kv' Hin'. apply in_map_iff in Hin'.
    destruct Hin' as [kv [<- Hin]]. cbn [snd].
    rewrite Forall_forall in IH. rewrite forallb_forall in Hall.
    simpl in Hl. rewrite forallb_forall in Hl.
    now apply (IH kv Hin (Hall kv Hin) (Hl kv Hin)). }
  split; [|intros fs' _; exact Hrec].
  cbn [Analytics.encode_attr tagged list_free_attr].
  change (str_eqb (lit "M") (lit "M")) with true. cbv iota. exact Hrec.
Qed.

(** On plain objects without lists (distinct property names, none of
    them S, N, BOOL, M, L or [__proto__], at every level) the batch
    scripts' decoder inverts the encoder as the analytics decoder does:
    decoding the encoding gives the object back with every number printed
    and read again. *)
Theorem batch_decoder_inverts_encoder_without_lists (v : value) :
  plain_object v = true ->
  list_free v = true ->
  Batch.convert (Analytics.toDynamoDBFormat v) = Return (reread v).
Proof.
  intros Hp Hl. destruct v as [| | | | | |fs]; try discriminate.
  simpl in Hp.
  destruct (@encoded_list_free (VObj fs) Hp Hl) as [_ Hrec].
  rewrite (proj1 (decoders_agree_parts _) (Hrec fs eq_refl)).
  now apply (@roundtrip_parts (VObj fs) Hp).
Qed.

(** C10 (what the code does).  On a wire record with a list attribute whose
    elements are typed string wrappers, the decoder of the batch scripts
    leaves the elements wrapped, while the decoder of the analytics script
    unwraps them. *)
Theorem decoders_disagree_on_lists :
  Batch.convert
    (VObj [(lit "highlightedAreaOfAIUse",
            VObj [(lit "L", VArr [VObj [(lit "S", VStr (lit "10"))]])])])
  = Return (VObj [(lit "highlightedAreaOfAIUse",
                   VArr [VObj [(lit "S", VStr (lit "10"))]])])
  /\ Analytics.convert
       (VObj [(lit "highlightedAreaOfAIUse",
               VObj [(lit "L", VArr [VObj [(lit "S", VStr (lit "10"))]])])])
     = Return (VObj [(lit "highlightedAreaOfAIUse", VArr [VStr (lit "10")])]).
Proof. split; reflexivity. Qed.

End CodecFacts.

(** ** The batch id *)

Section BatchIdFacts.
Context {NUM : Numbers} {J : JSON}.

(** The integers strictly between [-2^53] and [2^53]: a double holds each
    of them exactly and tells each from its neighbours.  ([2^53] itself is
    held exactly too, but [2^53 + 1] rounds back to it.) *)
Definition safe (z : Z) : Prop := (- 2 ^ 53 < z < 2 ^ 53)%Z.

(** Facts of IEEE doubles on such integers that the class [Numbers] does
    not list: they compare and add as the integers do, none is NaN, and
    each is above [-Infinity]. *)
Record integer_laws : Prop := {
  gt_of_Z : forall a b, safe a -> safe b -> num_gtb (of_Z a) (of_Z b) = (b <? a)%Z;
  gt_neg_infinity : forall a, safe a -> num_gtb (of_Z a) neg_infinity = true;
  of_Z_not_NaN : forall a, safe a -> isNaN (of_Z a) = false;
  add_of_Z : forall a b, safe a -> safe b -> safe (a + b) ->
                         num_add (of_Z a) (of_Z b) = of_Z (a + b)
}.

(** A stored row in wire format whose analyticsId attribute is the number
    [n], and that the decoder accepts. *)
Definition row_with_id (row : value) (n : Z) : Prop :=
  exists fs,
    row = VObj fs
    /\ distinct (List.map fst fs) = true
    /\ lookup (lit "analyticsId") fs = tagged "N" (VStr (NumberToString (of_Z n)))
    /\ exists a, Batch.convert row = Return a.

Lemma decoded_rows rows ns :
  Forall2 row_with_id rows ns ->
  exists decoded,
    map_c Batch.convert rows = Return decoded
    /\ Forall2 (fun a n => get a (lit "analyticsId") = Return (VNum (of_Z n)))
               decoded ns.
Proof.
  induction 1 as [|row n rows ns Hrow _ [decoded [Hmap Hall]]].
  - exists []. split; [reflexivity | constructor].
  - destruct Hrow as [fs [-> [Hd [Hid [a Ha]]]]].
    exists (a :: decoded). split.
    + cbn [map_c]. rewrite Ha. cbn [bind]. rewrite Hmap. reflexivity.
    + constructor; [|exact Hall].
      pose proof (@batch_convert_get _ fs a (lit "analyticsId") Hd Ha) as [Hin [_ [out ->]]].
      assert (Hk : has_key (lit "analyticsId") fs = true).
      { destruct (has_key (lit "analyticsId") fs) eqn:E; [reflexivity|].
        exfalso. clear -E Hid.
        induction fs as [|[k' x] fs IH]; simpl in *; [discriminate|].
        apply orb_false_iff in E. destruct E as [E1 E2]. rewrite E1 in Hid. auto. }
      specialize (Hin eq_refl Hk). rewrite Hid in Hin. simpl in Hin.
      rewrite int_roundtrip in Hin. simpl. now injection Hin as <-.
Qed.

Lemma highest_id_from (L : integer_laws) decoded ns :
  Forall2 (fun a n => get a (lit "analyticsId") = Return (VNum (of_Z n))) decoded ns ->
  Forall safe ns ->
  forall c, safe c ->
  exists m, (m = c \/ In m ns) /\ (c <= m)%Z /\ (forall n, In n ns -> (n <= m)%Z)
            /\ safe m /\ highest_id (of_Z c) decoded = Return (of_Z m).
Proof.
  induction 1 as [|a n decoded ns Ha _ IH]; intros Hsafe c Hc.
  - exists c. split; [now left|]. split; [lia|]. split; [intros n []|].
    split; [exact Hc | reflexivity].
  - inversion Hsafe as [|? ? Hn Hrest]; subst.
    cbn [highest_id]. rewrite Ha. cbn [bind ToNumber].
    rewrite (of_Z_not_NaN L Hn), (gt_of_Z L Hn Hc). cbn [negb andb].
    destruct (c <? n)%Z eqn:E.
    + apply Z.ltb_lt in E.
      destruct (IH Hrest n Hn) as [m [Hm [Hle [Hmax [Hsm Hrun]]]]].
      refine (ex_intro _ m (conj _ (conj _ (conj _ (conj Hsm Hrun))))); [|lia|].
      * destruct Hm as [->|Hm]; right; [now left | now right].
      * intros k [<-|Hk]; [lia | now apply Hmax].
    + apply Z.ltb_ge in E.
      destruct (IH Hrest c Hc) as [m [Hm [Hle [Hmax [Hsm Hrun]]]]].
      refine (ex_intro _ m (conj _ (conj Hle (conj _ (conj Hsm Hrun))))).
      * destruct Hm as [->|Hm]; [now left | right; now right].
      * intros k [<-|Hk]; [lia | now apply Hmax].
Qed.

Lemma highest_id_of_rows (L : integer_laws) decoded ns :
  Forall2 (fun a n => get a (lit "analyticsId") = Return (VNum (of_Z n))) decoded ns ->
  Forall safe ns ->
  ns <> [] ->
  exists m, In m ns /\ (forall n, In n ns -> (n <= m)%Z) /\ safe m
            /\ highest_id neg_infinity decoded = Return (of_Z m).
Proof.
  intros Hall Hsafe Hne. destruct Hall as [|a n decoded ns Ha Hall]; [congruence|].
  inversion Hsafe as [|? ? Hn Hrest]; subst.
  cbn [highest_id]. rewrite Ha. cbn [bind ToNumber].
  rewrite (of_Z_not_NaN L Hn), (gt_neg_infinity L Hn). cbn [negb andb].
  destruct (highest_id_from L Hall Hrest Hn) as [m [Hm [Hle [Hmax [Hsm Hrun]]]]].
  refine (ex_intro _ m (conj _ (conj _ (conj Hsm Hrun)))).
  - destruct Hm as [->|Hm]; [now left | now right].
  - intros k [<-|Hk]; [lia | now apply Hmax].
Qed.

(** The batch id of a run.  When the table holds rows whose
    analyticsId attributes are integers [ns], each of which, and its
    successor, lies strictly between [-2^53] and [2^53], the scan finds
    their maximum [m]; the Lambda script then labels the batch [m + 1],
    which is above every stored id, while part2_Sagemaker.js labels it [m],
    the id of the latest stored batch. *)
Theorem next_batch_id_is_fresh (w : world) (rows : list value) (ns : list Z) :
  integer_laws ->
  scan w = Return rows ->
  Forall2 row_with_id rows ns ->
  Forall safe ns ->
  Forall (fun n => safe (n + 1)) ns ->
  ns <> [] ->
  exists m,
    In m ns /\ (forall n, In n ns -> (n <= m)%Z)
    /\ highest_analyticsId w = Return (of_Z m)
    /\ batch_id lambda_script (of_Z m) = of_Z (m + 1)
    /\ (forall n, In n ns -> num_gtb (batch_id lambda_script (of_Z m)) (of_Z n) = true)
    /\ batch_id sagemaker_script (of_Z m) = of_Z m.
Proof.
  intros L Hscan Hrows Hsafe Hnext Hne.
  destruct (decoded_rows Hrows) as [decoded [Hmap Hall]].
  destruct (highest_id_of_rows L Hall Hsafe Hne) as [m [Hin [Hmax [Hsm Hrun]]]].
  assert (Hm1 : safe (m + 1)) by (rewrite Forall_forall in Hnext; now apply Hnext).
  assert (H1 : safe 1) by (unfold safe; lia).
  assert (Hid : batch_id lambda_script (of_Z m) = of_Z (m + 1))
    by (simpl; now apply (add_of_Z L)).
  exists m. split; [exact Hin|]. split; [exact Hmax|].
  split; [unfold highest_analyticsId; rewrite Hscan; cbn [bind]; rewrite Hmap; exact Hrun|].
  split; [exact Hid|]. split; [|reflexivity].
  intros n Hn. rewrite Hid.
  rewrite (gt_of_Z L Hm1) by (rewrite Forall_forall in Hsafe; now apply Hsafe).
  apply Z.ltb_lt. specialize (Hmax n Hn). lia.
Qed.

(** With an empty table the scan leaves the running maximum at
    [-Infinity]: part2_Sagemaker.js sends that as the batch id, the Lambda
    script sends [-Infinity + 1]. *)
Lemma empty_table_batch_id (w : world) :
  scan w = Return [] -> highest_analyticsId w = Return neg_infinity.
Proof. intros H. unfold highest_analyticsId. now rewrite H. Qed.

End BatchIdFacts.

(** ** The analytics summary *)

Section SummaryFacts.
Context {NUM : Numbers} {AR : Summary.Arithmetic}.
Import Summary.

Lemma map_c_Forall2 {A B} (f : A -> completion B) xs : forall ys,
  map_c f xs = Return ys -> Forall2 (fun x y => f x = Return y) xs ys.
Proof.
  induction xs as [|x xs IH]; simpl; intros ys H.
  - injection H as <-. constructor.
  - destruct (f x) as [y|e] eqn:E; simpl in H; [|discriminate].
    destruct (map_c f xs) as [ys'|e]; simpl in H; [|discriminate].
    injection H as <-. constructor; auto.
Qed.

Lemma with_field_cases {A} k (fs : fields) (found : value -> A) (otherwise : A) :
  with_field k fs found otherwise = otherwise
  \/ exists v, v <> VUndef /\ In v (List.map snd fs)
               /\ with_field k fs found otherwise = found v.
Proof.
  unfold with_field. induction fs as [|[k' v] fs IH]; [now left|].
  destruct (str_eqb k k').
  - destruct v;
      [ now left
      | right; refine (ex_intro _ _ (conj _ (conj (or_introl eq_refl) eq_refl)));
        discriminate .. ].
  - destruct IH as [IH|[x [Hx [Hin IH]]]]; [now left|].
    right. exists x. split; [exact Hx|]. split; [now right | exact IH].
Qed.

(** The decoder never returns [undefined]. *)
Lemma convert_defined v : forall r, Analytics.convert v = Return r -> r <> VUndef.
Proof.
  induction v as [| | b | n | s | xs IH | fs IH] using value_induction; intros r.
  - simpl. now intros [= <-].
  - simpl. now intros [= <-].
  - simpl. destruct b; simpl; now intros [= <-].
  - simpl. destruct (negb (negb (is_zero n || isNaN n))); now intros [= <-].
  - destruct s; simpl; [now intros [= <-] | discriminate].
  - simpl. destruct (assign_indexed Analytics.convert 0 xs []); simpl;
      [now intros [= <-] | discriminate].
  - assert (Hmap : forall r0,
              (let* out := assign_fields Analytics.convert fs [] in Return (VObj out))
              = Return r0 -> r0 <> VUndef).
    { intros r0. destruct (assign_fields Analytics.convert fs []); simpl;
        [now intros [= <-] | discriminate]. }
    cbn [Analytics.convert ToBoolean negb].
    destruct (Analytics.is_typed_wrapper fs); [|apply Hmap].
    destruct (with_field_cases (lit "S") fs (fun s => Return s)
      (with_field (lit "N") fs (fun n => Return (VNum (ToNumber n)))
      (with_field (lit "BOOL") fs (fun b => Return b)
      (with_field (lit "M") fs (fun m => Analytics.convert m)
      (with_field (lit "L") fs (fun l => map_method "item.L" Analytics.convert l)
         (let* out := assign_fields Analytics.convert fs [] in Return (VObj out)))))))
      as [->|[v [Hv [_ ->]]]]; [|now intros [= <-]].
    destruct (with_field_cases (lit "N") fs (fun n => Return (VNum (ToNumber n)))
      (with_field (lit "BOOL") fs (fun b => Return b)
      (with_field (lit "M") fs (fun m => Analytics.convert m)
      (with_field (lit "L") fs (fun l => map_method "item.L" Analytics.convert l)
         (let* out := assign_fields Analytics.convert fs [] in Return (VObj out))))))
      as [->|[v [Hv [_ ->]]]]; [|now intros [= <-]].
    destruct (with_field_cases (lit "BOOL") fs (fun b => Return b)
      (with_field (lit "M") fs (fun m => Analytics.convert m)
      (with_field (lit "L") fs (fun l => map_method "item.L" Analytics.convert l)
         (let* out := assign_fields Analytics.convert fs [] in Return (VObj out)))))
      as [->|[v [Hv [_ ->]]]]; [|now intros [= <-]].
    destruct (with_field_cases (lit "M") fs (fun m => Analytics.convert m)
      (with_field (lit "L") fs (fun l => map_method "item.L" Analytics.convert l)
         (let* out := assign_fields Analytics.convert fs [] in Return (VObj out))))
      as [->|[v [Hv [Hin ->]]]].
    2:{ apply in_map_iff in Hin. destruct Hin as [kv [<- Hin]].
        rewrite Forall_forall in IH. apply (IH kv Hin). }
    destruct (with_field_cases (lit "L") fs (fun l => map_method "item.L" Analytics.convert l)
         (let* out := assign_fields Analytics.convert fs [] in Return (VObj out)))
      as [->|[v [Hv [_ ->]]]]; [apply Hmap|].
    unfold map_method. destruct v; try discriminate.
    destruct (map_c Analytics.convert items); simpl; [now intros [= <-] | discriminate].
Qed.

Lemma convert_falsy item : ToBoolean item = false -> Analytics.convert item = Return VNull.
Proof.
  intros H. destruct item; simpl in *; try rewrite H; try reflexivity; discriminate.
Qed.

Definition null_row_error : error :=
  TypeError (lit "Cannot read properties of null (reading 'analyticsId')").

Lemma filter_c_null id rows :
  In VNull rows -> Forall (fun r => r <> VUndef) rows ->
  filter_c (of_batch id) rows = Throw null_row_error.
Proof.
  induction rows as [|r rows IH]; intros Hin Hall; [contradiction|].
  inversion Hall as [|? ? Hr Hrest]; subst.
  cbn [filter_c]. destruct r; try contradiction; try reflexivity.
  all: destruct Hin as [Hin|Hin]; [discriminate|];
    unfold of_batch at 1; cbn [get bind]; rewrite (IH Hin Hrest); reflexivity.
Qed.

Lemma filter_c_none id rows :
  (forall e, In e rows ->
     exists v, get e (lit "analyticsId") = Return v /\ strict_equals v id = false) ->
  filter_c (of_batch id) rows = Return [].
Proof.
  induction rows as [|r rows IH]; intros H; [reflexivity|].
  cbn [filter_c]. unfold of_batch at 1.
  destruct (H r (or_introl eq_refl)) as [v [Hv Hne]]. rewrite Hv. cbn [bind].
  rewrite IH by (intros e He; apply H; now right). cbn [bind]. now rewrite Hne.
Qed.






(** The summary of a batch with no submission. *)
Definition empty_summary (analyticsId : number) (timestamp : jsstring) : value :=
  VObj
    [ (lit "analyticsId", VNum analyticsId);
      (lit "timestamp", VStr timestamp);
      (lit "submissionCount", VNum (of_Z 0));
      (lit "gradeDistribution",
         VObj [ (lit "topGrade", VNum (of_Z 0));
                (lit "bottomGrade", VNum (of_Z 0));
                (lit "averageGrade", VNum (of_Z 0)) ]);
      (lit "aiGeneratedAnalytics",
         VObj [ (lit "averagePercentageOfAIUsed", VNum (of_Z 0));
                (lit "countOfAssignmentsUsedAI", VNum (of_Z 0));
                (lit "countOfAssignmentsUsedAIOver70", VNum (of_Z 0)) ]);
      (lit "plagarismAnalytics",
         VObj [ (lit "noOfPlagarisedAssignments", VNum (of_Z 0));
                (lit "averagePercentageOfPlagarism", VNum (of_Z 0)) ]);
      (lit "listOfAIGeneratedAssignementsAbove70", VArr []);
      (lit "listOfPlagarisedAssignmentsAbove50", VArr []) ].

(** When no stored row belongs to the batch (the table is empty, or every
    decoded row has another analyticsId, or none), the summary reports
    zero submissions, zero for every grade, average and count, and two
    empty lists: the running maximum [-Infinity] and minimum [Infinity]
    are not let out. *)
Theorem summary_of_an_empty_batch (scan : completion (list value))
  (timestamp : jsstring) (analyticsId : number) (items rows : list value) :
  num_eqb neg_infinity neg_infinity = true ->
  num_eqb pos_infinity pos_infinity = true ->
  scan = Return items ->
  map_c Analytics.convert items = Return rows ->
  (forall e, In e rows ->
     exists v, get e (lit "analyticsId") = Return v
               /\ strict_equals v analyticsId = false) ->
  generateAnalyticsSummary scan timestamp analyticsId
  = Return (empty_summary analyticsId timestamp).
Proof.
  intros Hneg Hpos -> Hrows Hnone. unfold generateAnalyticsSummary. cbn [bind].
  rewrite Hrows. cbn [bind]. rewrite (filter_c_none _ _ Hnone). cbn [bind fold_c].
  unfold summary_of, empty_summary. cbn [initial topGrade bottomGrade submissionCount
    countAIUsed countAIOver70 countPlagiarized listAIAbove70 listPlagiarismAbove50].
  rewrite Hneg, Hpos. reflexivity.
Qed.


(** One stored item that is falsy (a [null] among the rows) makes the
    whole summary fail: the decoder turns it into [null], and the batch
    filter throws a TypeError on reading its analyticsId. *)
Theorem summary_fails_on_a_null_row (scan : completion (list value))
  (timestamp : jsstring) (analyticsId : number) (items rows : list value)
  (item : value) :
  scan = Return items ->
  map_c Analytics.convert items = Return rows ->
  In item items -> ToBoolean item = false ->
  generateAnalyticsSummary scan timestamp analyticsId = Throw null_row_error.
Proof.
  intros -> Hrows Hin Hfalsy. unfold generateAnalyticsSummary. cbn [bind].
  rewrite Hrows. cbn [bind].
  apply map_c_Forall2 in Hrows.
  rewrite filter_c_null; [reflexivity | |].
  - clear -Hrows Hin Hfalsy. induction Hrows as [|x y xs ys Hxy _ IH]; [contradiction|].
    destruct Hin as [->|Hin]; [|right; now apply IH].
    left. rewrite (convert_falsy _ Hfalsy) in Hxy. now injection Hxy as <-.
  - clear -Hrows. induction Hrows as [|x y xs ys Hxy _ IH]; constructor; [|exact IH].
    now apply (convert_defined x).
Qed.

(** *** Home data *)

(** Strips one [bind] off a hypothesis that says a computation returned. *)
Ltac returned H :=
  match type of H with
  | context [bind ?c _] =>
      let E := fresh "E" in
      destruct c eqn:E; cbn [bind] in H; [|discriminate H]
  end.

(** The elements one summary contributes to an aggregated list. *)
Definition listed (k : jsstring) (summary : value) : list value :=
  match get summary k with
  | Return v => match push_all [] v with
                | Return xs => xs
                | Throw _ => []
                end
  | Throw _ => []
  end.

Lemma push_all_app agg v l :
  push_all agg v = Return l ->
  l = agg ++ match push_all [] v with Return xs => xs | Throw _ => [] end.
Proof.
  unfold push_all. destruct (ToBoolean v).
  - destruct (spread v) as [xs|e]; simpl; [|discriminate]. now intros [= <-].
  - intros [= <-]. now rewrite app_nil_r.
Qed.

Lemma home_item_counts t summary t' :
  home_item t summary = Return t' ->
  totalNoAssignments t' = S (totalNoAssignments t)
  /\ analyzedAssignments t' = S (analyzedAssignments t)
  /\ aggregatedAIAbove70 t'
     = aggregatedAIAbove70 t ++ listed (lit "listOfAIGeneratedAssignementsAbove70") summary
  /\ aggregatedPlagiarismAbove50 t'
     = aggregatedPlagiarismAbove50 t
       ++ listed (lit "listOfPlagarisedAssignmentsAbove50") summary.
Proof.
  unfold home_item. intros H.
  returned H. returned H. returned H. returned H. returned H. returned H. returned H.
  returned H. returned H. returned H. returned H.
  destruct a1 as [[top bottom] avg], a3 as [[pct used] over], a5 as [plagiarized plagiarism].
  injection H as <-. cbn [totalNoAssignments analyzedAssignments aggregatedAIAbove70
                          aggregatedPlagiarismAbove50].
  unfold listed.
  repeat match goal with
         | E : get summary _ = Return _ |- _ => rewrite E; clear E
         end.
  repeat match goal with
         | E : push_all _ _ = Return _ |- _ => apply push_all_app in E; rewrite <- E; clear E
         end.
  repeat split; reflexivity.
Qed.

Lemma fold_home_counts summaries : forall t t',
  fold_c home_item summaries t = Return t' ->
  totalNoAssignments t' = (totalNoAssignments t + length summaries)%nat
  /\ analyzedAssignments t' = (analyzedAssignments t + length summaries)%nat
  /\ aggregatedAIAbove70 t'
     = aggregatedAIAbove70 t
       ++ flat_map (listed (lit "listOfAIGeneratedAssignementsAbove70")) summaries
  /\ aggregatedPlagiarismAbove50 t'
     = aggregatedPlagiarismAbove50 t
       ++ flat_map (listed (lit "listOfPlagarisedAssignmentsAbove50")) summaries.
Proof.
  induction summaries as [|s summaries IH]; simpl; intros t t' H.
  - injection H as <-. rewrite !app_nil_r. repeat split; lia.
  - destruct (home_item t s) as [t1|e] eqn:E; simpl in H; [|discriminate].
    destruct (home_item_counts _ _ E) as [H1 [H2 [H3 H4]]].
    destruct (IH _ _ H) as [H1' [H2' [H3' H4']]].
    rewrite H1', H2', H3', H4', H1, H2, H3, H4, <- !app_assoc.
    repeat split; lia.
Qed.

Lemma home_data_fields timestamp summaries t hd :
  home_data_of timestamp summaries t = Return hd ->
  get hd (lit "id") = Return (VNum (of_Z 1))
  /\ get hd (lit "isAssignmentToBeAnalyzed")
     = Return (VBool (num_gtb (count (totalNoAssignments t))
                              (count (analyzedAssignments t))))
  /\ get hd (lit "totalNoAssignments") = Return (VNum (count (totalNoAssignments t)))
  /\ get hd (lit "analyzedAssignments") = Return (VNum (count (analyzedAssignments t)))
  /\ get hd (lit "listOfAIGeneratedAssignementsAbove70")
     = Return (VArr (aggregatedAIAbove70 t))
  /\ get hd (lit "listOfPlagarisedAssignmentsAbove50")
     = Return (VArr (aggregatedPlagiarismAbove50 t)).
Proof.
  unfold home_data_of. intros H. returned H. returned H. injection H as <-.
  repeat split; reflexivity.
Qed.

(** Home data never reports an assignment waiting to be analysed: the two
    counters it compares grow together, so [isAssignmentToBeAnalyzed] is
    false and both counts are the number of stored summaries; the item's
    id is always 1. *)
Theorem home_data_has_nothing_pending (scan : completion (list value))
  (timestamp : jsstring) (items : list value) (homeData : value) :
  (forall n, num_gtb (of_Z n) (of_Z n) = false) ->
  scan = Return items ->
  generateHomeDataSummary scan timestamp = Return homeData ->
  get homeData (lit "isAssignmentToBeAnalyzed") = Return (VBool false)
  /\ get homeData (lit "totalNoAssignments") = Return (VNum (count (length items)))
  /\ get homeData (lit "analyzedAssignments") = Return (VNum (count (length items)))
  /\ get homeData (lit "id") = Return (VNum (of_Z 1)).
Proof.
  intros Hirr -> H. unfold generateHomeDataSummary in H. cbn [bind] in H.
  returned H. returned H.
  apply map_c_Forall2, Forall2_length in E.
  destruct (fold_home_counts _ _ E0) as [H1 [H2 _]]. simpl in H1, H2.
  destruct (home_data_fields _ _ _ H) as [Hid [Hp [Hn [Ha _]]]].
  rewrite Hp, Hn, Ha, Hid, H1, H2, <- E. unfold count. rewrite Hirr.
  repeat split; reflexivity.
Qed.


Lemma home_item_map_list t fs xs :
  lookup (lit "listOfAIGeneratedAssignementsAbove70") fs = VObj xs ->
  exists e, home_item t (VObj fs) = Throw e.
Proof.
  intros Hl. unfold home_item.
  repeat match goal with
         | |- exists e, bind ?c _ = Throw e =>
             let E := fresh "E" in
             destruct c eqn:E; cbn [bind]; [|eauto]
         end.
  exfalso.
  match goal with
  | E1 : get (VObj fs) (lit "listOfAIGeneratedAssignementsAbove70") = Return ?l,
    E2 : push_all _ ?l = Return _ |- _ =>
      simpl in E1; rewrite Hl in E1; injection E1 as <-; discriminate E2
  end.
Qed.

Lemma fold_home_throws summaries s :
  In s summaries ->
  (forall t, exists e, home_item t s = Throw e) ->
  forall t, exists e, fold_c home_item summaries t = Throw e.
Proof.
  intros Hin Hs. induction summaries as [|x summaries IH]; [contradiction|].
  intros t. cbn [fold_c].
  destruct Hin as [->|Hin].
  - destruct (Hs t) as [e ->]. simpl. eauto.
  - destruct (home_item t x) as [t1|e]; simpl; [now apply IH | eauto].
Qed.

(** One stored summary whose list of AI-generated assignments is a map
    instead of a list makes home data fail: the spread of a value that is
    not iterable throws. *)
Lemma home_data_fails_on_a_map_list (scan : completion (list value))
  (timestamp : jsstring) (items summaries : list value) (fs xs : fields) :
  scan = Return items ->
  map_c Analytics.convert items = Return summaries ->
  In (VObj fs) summaries ->
  lookup (lit "listOfAIGeneratedAssignementsAbove70") fs = VObj xs ->
  exists e, generateHomeDataSummary scan timestamp = Throw e.
Proof.
  intros -> Hrows Hin Hl. unfold generateHomeDataSummary. cbn [bind].
  rewrite Hrows. cbn [bind].
  destruct (@fold_home_throws summaries (VObj fs) Hin
              (fun t => home_item_map_list t _ Hl) home_initial) as [e ->].
  simpl. eauto.
Qed.

(** Each of the two runners writes nothing when its summary cannot be
    computed, and otherwise writes exactly one item, to its own table: the
    encoded summary, whose key attribute (analyticsId for [main], id for
    [updateHomeData]) is the number 1, so that each run replaces the item
    of the run before. *)
Theorem runners_write_one_item (scan : completion (list value)) (timestamp : jsstring)
  (put : jsstring -> value -> completion unit) :
  (forall e, generateAnalyticsSummary scan timestamp (of_Z 1) = Throw e ->
             main scan timestamp put = ([], Throw e))
  /\ (forall summary,
        generateAnalyticsSummary scan timestamp (of_Z 1) = Return summary ->
        fst (main scan timestamp put)
        = [(lit "analysis_data", Analytics.toDynamoDBFormat summary)]
        /\ get (Analytics.toDynamoDBFormat summary) (lit "analyticsId")
           = Return (tagged "N" (VStr (NumberToString (of_Z 1)))))
  /\ (forall e, generateHomeDataSummary scan timestamp = Throw e ->
                updateHomeData scan timestamp put = ([], Throw e))
  /\ (forall homeData,
        generateHomeDataSummary scan timestamp = Return homeData ->
        fst (updateHomeData scan timestamp put)
        = [(lit "home_data", Analytics.toDynamoDBFormat homeData)]
        /\ get (Analytics.toDynamoDBFormat homeData) (lit "id")
           = Return (tagged "N" (VStr (NumberToString (of_Z 1))))).
Proof.
  split; [|split; [|split]].
  - intros e H. unfold main. now rewrite H.
  - intros summary H. split; [unfold main; now rewrite H|].
    unfold generateAnalyticsSummary in H.
    returned H. returned H. returned H. returned H.
    injection H as <-. reflexivity.
  - intros e H. unfold updateHomeData. now rewrite H.
  - intros homeData H. split; [unfold updateHomeData; now rewrite H|].
    unfold generateHomeDataSummary in H.
    returned H. returned H. returned H.
    unfold home_data_of in H. returned H. returned H.
    injection H as <-. reflexivity.
Qed.

End SummaryFacts.

(** ** PDF conversion *)

Section ConversionFacts.
Import Conversion.

Definition is_notice (a : action) : bool :=
  match a with WriteNotice _ _ => true | _ => false end.

(** An extension that the fetch step's test [toLowerCase().endsWith('.pdf')]
    and the placeholder's pattern [/\.pdf$/i] both accept: [.pdf] in any
    mix of cases. *)
Definition pdf_extension (ext : jsstring) : bool :=
  match ext with
  | [dot; p; d; f] => (dot =? 46)%N && letter 112 p && letter 100 d && letter 102 f
  | _ => false
  end.

(** A file-name stem: not empty, no dot, no slash. *)
Definition plain_stem (stem : jsstring) : Prop :=
  stem <> [] /\ Forall (fun c => c <> 46%N /\ c <> 47%N) stem.

Lemma convert_one_cases h f :
  (snd (convert_one h f) = None
   /\ exists e, filter is_notice (fst (convert_one h f))
                = [WriteNotice (converted_path (replace_pdf_suffix (fileName f)))
                               (failureNotice f e)])
  \/ (exists n,
        snd (convert_one h f)
        = Some (mkConverted (fileName f)
                  (replace_first (lit ".pdf") (lit ".txt") (fileName f))
                  (converted_path (replace_first (lit ".pdf") (lit ".txt") (fileName f)))
                  n)
        /\ filter is_notice (fst (convert_one h f)) = []).
Proof.
  unfold convert_one.
  destruct (readBinary h (localPath f)) as [[]|e]; [|left; split; [reflexivity | now exists e]].
  destruct (pdftotext h (localPath f) _) as [[]|e];
    [|left; split; [reflexivity | now exists e]].
  destruct (readText h _) as [content|e]; [|left; split; [reflexivity | now exists e]].
  right. exists (length content). split; reflexivity.
Qed.

(** The three steps of the [try] block for one file, in order: read the
    PDF, run pdftotext, read the text it wrote.  The result is the text, or
    the error of the first step that fails. *)
Definition conversion (h : host) (f : pdf_file) : completion jsstring :=
  let txtFilePath :=
    lit "converted/" ++ replace_first (lit ".pdf") (lit ".txt") (fileName f) in
  let* _ := readBinary h (localPath f) in
  let* _ := pdftotext h (localPath f) txtFilePath in
  readText h txtFilePath.

(** What [convertedFiles] gains from a file: one entry when its conversion
    succeeds, nothing otherwise. *)
Definition entries (h : host) (f : pdf_file) : list converted_file :=
  match conversion h f with
  | Return txtContent =>
      [mkConverted (fileName f)
         (replace_first (lit ".pdf") (lit ".txt") (fileName f))
         (lit "converted/" ++ replace_first (lit ".pdf") (lit ".txt") (fileName f))
         (length txtContent)]
  | Throw _ => []
  end.

(** The failure notices a file leaves: one when its conversion fails,
    carrying the file's name and the error's message (the error in full
    when it has no message), none otherwise. *)
Definition notices (h : host) (f : pdf_file) : list action :=
  match conversion h f with
  | Return _ => []
  | Throw e =>
      [WriteNotice (lit "converted/" ++ replace_pdf_suffix (fileName f))
         (lit "Conversion failed for " ++ fileName f ++ [10%N]
          ++ lit "Error: "
          ++ match message e with [] => error_toString e | m => m end
          ++ [10%N])]
  end.

Lemma convert_one_run h f :
  match snd (convert_one h f) with Some c => [c] | None => [] end = entries h f
  /\ filter is_notice (fst (convert_one h f)) = notices h f.
Proof.
  unfold convert_one, entries, notices, conversion, converted_path. cbn [bind].
  destruct (readBinary h (localPath f)) as [[]|e]; [|split; reflexivity].
  destruct (pdftotext h (localPath f) _) as [[]|e]; [|split; reflexivity].
  destruct (readText h _) as [content|e]; split; reflexivity.
Qed.

Lemma one_entry_or_notice h f :
  (length (entries h f) + length (notices h f) = 1)%nat.
Proof. unfold entries, notices. now destruct (conversion h f). Qed.

Lemma convert_all_run h pdfFiles : forall acc,
  snd (convert_all h pdfFiles acc) = acc ++ flat_map (entries h) pdfFiles
  /\ filter is_notice (fst (convert_all h pdfFiles acc))
     = flat_map (notices h) pdfFiles.
Proof.
  induction pdfFiles as [|f rest IH]; intros acc; cbn [convert_all flat_map].
  - now rewrite app_nil_r.
  - destruct (convert_one_run h f) as [He Hn].
    destruct (convert_one h f) as [acts r]; cbn [fst snd] in *.
    rewrite <- He, <- Hn.
    destruct (IH (match r with Some c => acc ++ [c] | None => acc end))
      as [Hout Hacts].
    destruct (convert_all h rest _) as [acts' out]; cbn [fst snd] in *.
    rewrite filter_app, Hacts. split; [|reflexivity].
    rewrite Hout. destruct r; [now rewrite <- app_assoc | reflexivity].
Qed.

Lemma entries_and_notices h pdfFiles :
  (length (flat_map (entries h) pdfFiles) + length (flat_map (notices h) pdfFiles)
   = length pdfFiles)%nat.
Proof.
  induction pdfFiles as [|f rest IH]; [reflexivity|].
  cbn [flat_map length]. rewrite !length_app.
  pose proof (one_entry_or_notice h f). lia.
Qed.

(** *** Names *)

Lemma replace_first_pdf stem :
  Forall (fun c => c <> 46%N) stem ->
  replace_first (lit ".pdf") (lit ".txt") (stem ++ lit ".pdf") = stem ++ lit ".txt".
Proof.
  induction 1 as [|c s Hc _ IH]; [reflexivity|].
  cbn [app replace_first].
  assert (Hs : starts_with (lit ".pdf") (c :: s ++ lit ".pdf") = false).
  { change (starts_with (lit ".pdf") (c :: s ++ lit ".pdf"))
      with ((46 =? c)%N && starts_with (lit "pdf") (s ++ lit ".pdf")).
    apply N.eqb_neq in Hc. rewrite N.eqb_sym in Hc. now rewrite Hc. }
  rewrite Hs. now rewrite IH.
Qed.

Lemma starts_with_short pat : forall s,
  (length s < length pat)%nat -> starts_with pat s = false.
Proof.
  induction pat as [|a pat IH]; intros s H; [simpl in H; lia|].
  destruct s as [|b s]; [reflexivity|]. simpl in *.
  rewrite IH by lia. apply andb_false_r.
Qed.

Lemma starts_with_same_length pat : forall s,
  starts_with pat s = true -> length s = length pat -> s = pat.
Proof.
  induction pat as [|a pat IH]; intros [|b s] H Hl; try discriminate; [reflexivity|].
  simpl in *. apply andb_true_iff in H. destruct H as [Hab H].
  apply N.eqb_eq in Hab. subst b. f_equal. apply IH; [exact H | lia].
Qed.

Lemma replace_first_short pat rep s :
  (length s < length pat)%nat -> replace_first pat rep s = s.
Proof.
  induction s as [|c s IH]; intros H; cbn [replace_first].
  - now rewrite starts_with_short.
  - rewrite starts_with_short by exact H. f_equal. apply IH. simpl in H. lia.
Qed.

Lemma replace_first_cons pat rep c s :
  starts_with pat (c :: s) = false ->
  replace_first pat rep (c :: s) = c :: replace_first pat rep s.
Proof. intros H. cbn [replace_first]. now rewrite H. Qed.

Lemma replace_first_other stem ext :
  Forall (fun c => c <> 46%N) stem ->
  pdf_extension ext = true -> ext <> lit ".pdf" ->
  replace_first (lit ".pdf") (lit ".txt") (stem ++ ext) = stem ++ ext.
Proof.
  intros Hstem Hext Hne. induction Hstem as [|c s Hc _ IH].
  - destruct ext as [|dot [|p [|d [|f [|? ?]]]]]; try discriminate.
    cbn [app].
    destruct (starts_with (lit ".pdf") [dot; p; d; f]) eqn:E.
    + exfalso. apply Hne. now apply starts_with_same_length.
    + rewrite (@replace_first_cons _ (lit ".txt") _ _ E). f_equal.
      apply replace_first_short. simpl. lia.
  - cbn [app replace_first].
    assert (Hs : starts_with (lit ".pdf") (c :: s ++ ext) = false).
    { change (starts_with (lit ".pdf") (c :: s ++ ext))
        with ((46 =? c)%N && starts_with (lit "pdf") (s ++ ext)).
      apply N.eqb_neq in Hc. rewrite N.eqb_sym in Hc. now rewrite Hc. }
    rewrite Hs. now rewrite IH.
Qed.

Lemma replace_pdf_suffix_cons c s :
  (4 <= length s)%nat -> replace_pdf_suffix (c :: s) = c :: replace_pdf_suffix s.
Proof.
  destruct s as [|a [|b [|d [|e t]]]]; simpl length; intros H; try lia; reflexivity.
Qed.

Lemma replace_pdf_suffix_ext stem ext :
  pdf_extension ext = true -> replace_pdf_suffix (stem ++ ext) = stem ++ lit ".txt".
Proof.
  intros Hext. induction stem as [|c s IH].
  - destruct ext as [|dot [|p [|d [|f [|? ?]]]]]; try discriminate.
    cbn [app replace_pdf_suffix]. cbn [pdf_extension] in Hext. now rewrite Hext.
  - cbn [app]. rewrite replace_pdf_suffix_cons, IH; [reflexivity|].
    rewrite length_app.
    destruct ext as [|dot [|p [|d [|f [|? ?]]]]]; try discriminate. simpl. lia.
Qed.

Lemma other_extension_not_txt stem ext :
  pdf_extension ext = true -> endsWith (stem ++ ext) (lit ".txt") = false.
Proof.
  intros Hext. unfold endsWith.
  destruct ext as [|dot [|p [|d [|f [|? ?]]]]]; try discriminate.
  rewrite length_app. simpl length. rewrite Nat.add_sub.
  rewrite skipn_app, skipn_all, Nat.sub_diag. simpl skipn. simpl app.
  destruct (str_eqb [dot; p; d; f] (lit ".txt")) eqn:E; [|reflexivity].
  apply str_eqb_eq in E. injection E as -> -> -> ->. discriminate Hext.
Qed.

(** No failure of a file stops the conversion.  The result holds,
    in the order of the files, one entry for each file whose three steps
    succeed (its name, the text name and path the success path computes,
    and the length of the text), and the function leaves, in the order of
    the files, one failure notice for each other file; the summary written
    last holds the number of files, the number of entries and the entries;
    the function throws only when that summary cannot be written. *)
Theorem conversion_survives_failures (h : host) (now : jsstring)
  (pdfFiles : list pdf_file) :
  let converted := flat_map (entries h) pdfFiles in
  let summary := mkSummary now (length pdfFiles) (length converted) converted in
  exists acts,
    fst (convertPDFsToText h now pdfFiles) = acts ++ [WriteSummary summary]
    /\ filter is_notice acts = flat_map (notices h) pdfFiles
    /\ snd (convertPDFsToText h now pdfFiles)
       = (let* _ := writeSummary h summary in Return converted)
    /\ (length converted + length (filter is_notice acts) = length pdfFiles)%nat.
Proof.
  intros converted summary. subst summary converted.
  unfold convertPDFsToText.
  destruct (convert_all_run h pdfFiles []) as [Hout Hacts].
  destruct (convert_all h pdfFiles []) as [acts out]. cbn [fst snd app] in *.
  subst out. exists acts. rewrite Hacts.
  repeat split. apply entries_and_notices.
Qed.

(** What the batch handler later finds for a file [<stem><ext>] with a
    plain stem and the extension [.pdf] in any mix of cases.  When the
    conversion fails, the failure notice goes to [converted/<stem>.txt]: a
    name the handler's [.txt] filter accepts and reads under the
    assignment id [<stem>], so the grader is sent the notice.  When it
    succeeds and the extension is [.pdf], the text is
    [converted/<stem>.txt], read under the id [<stem>].  When it succeeds
    and the extension is in another mix of cases ([.PDF], [.Pdf]), the
    first-match replacement finds nothing: the text is written under the
    PDF's own name, which the handler's filter never picks. *)
Theorem converted_names_and_the_grader (h : host) (f : pdf_file)
  (stem ext : jsstring) :
  fileName f = stem ++ ext ->
  pdf_extension ext = true ->
  plain_stem stem ->
  endsWith (stem ++ lit ".txt") (lit ".txt") = true
  /\ derived_id (stem ++ lit ".txt") = stem
  /\ (snd (convert_one h f) = None ->
      exists e, filter is_notice (fst (convert_one h f))
                = [WriteNotice (fullPath (stem ++ lit ".txt")) (failureNotice f e)])
  /\ (forall c, snd (convert_one h f) = Some c ->
      (ext = lit ".pdf" ->
       textFile c = stem ++ lit ".txt" /\ textPath c = fullPath (stem ++ lit ".txt"))
      /\ (ext <> lit ".pdf" ->
          textFile c = fileName f /\ endsWith (textFile c) (lit ".txt") = false)).
Proof.
  intros Hname Hext [Hne Hplain].
  assert (Hdot : Forall (fun x => x <> 46%N) stem)
    by (eapply Forall_impl; [|exact Hplain]; now intros x [H _]).
  split; [apply endsWith_app|]. split; [now apply derived_id_txt|]. split.
  - intros Hnone.
    destruct (convert_one_cases h f) as [[_ [e He]]|[n [Hsome _]]]; [|congruence].
    exists e. rewrite He, Hname, (@replace_pdf_suffix_ext stem ext Hext). reflexivity.
  - intros c Hsome.
    destruct (convert_one_cases h f) as [[Hnone _]|[n [Hc _]]]; [congruence|].
    rewrite Hc in Hsome. injection Hsome as <-. cbn [textFile textPath].
    rewrite Hname. split.
    + intros ->. rewrite (@replace_first_pdf stem Hdot). split; reflexivity.
    + intros Hother. rewrite (@replace_first_other stem ext Hdot Hext Hother).
      split; [reflexivity | now apply other_extension_not_txt].
Qed.

End ConversionFacts.

(* ================================================================== *)
(** * Part IV.  A reference runtime for closed examples                *)
(* ================================================================== *)

(** Numbers restricted to the integers, the two infinities and NaN, with
    decimal integer literals; JSON restricted to the same numbers.  On the
    inputs used below it agrees with the language. *)

Module IntRuntime.

Inductive num :=
| NNaN
| NInf (negative : bool)
| NInt (z : Z).

Definition num_to_string (n : num) : jsstring :=
  match n with
  | NNaN => lit "NaN"
  | NInf false => lit "Infinity"
  | NInf true => lit "-Infinity"
  | NInt z => dec z
  end.

(** Code units back to a [string], when all of them are below 256. *)
Definition to_string (s : jsstring) : option string :=
  if forallb (fun c => c <? 256)%N s
  then Some (string_of_list_ascii (List.map ascii_of_N s))
  else None.

Definition int_literal (t : jsstring) : option Z :=
  match t with
  | [] => Some 0%Z
  | c :: r =>
      if (c =? 43)%N then
        match to_string r with
        | Some s => option_map (fun u => Z.of_int (Decimal.Pos u)) (NilZero.uint_of_string s)
        | None => None
        end
      else
        match to_string t with
        | Some s => option_map Z.of_int (NilZero.int_of_string s)
        | None => None
        end
  end.

Definition string_to_num (s : jsstring) : num :=
  let t := trim s in
  if str_eqb t (lit "Infinity") || str_eqb t (lit "+Infinity") then NInf false
  else if str_eqb t (lit "-Infinity") then NInf true
  else match int_literal t with
       | Some z => NInt z
       | None => NNaN
       end.

Definition num_is_nan (n : num) : bool :=
  match n with
  | NNaN => true
  | _ => false
  end.

Definition num_is_zero (n : num) : bool :=
  match n with
  | NInt 0 => true
  | _ => false
  end.

Definition num_gt (a b : num) : bool :=
  match a, b with
  | NNaN, _ | _, NNaN => false
  | NInf false, NInf false => false
  | NInf false, _ => true
  | _, NInf true => match a with NInf true => false | _ => true end
  | NInf true, _ => false
  | _, NInf false => false
  | NInt x, NInt y => (y <? x)%Z
  end.

Definition num_plus (a b : num) : num :=
  match a, b with
  | NNaN, _ | _, NNaN => NNaN
  | NInf s, NInf s' => if Bool.eqb s s' then NInf s else NNaN
  | NInf s, _ | _, NInf s => NInf s
  | NInt x, NInt y => NInt (x + y)
  end.

(** *** Printing an integer and reading it back *)

Lemma lit_cons a s : lit (String a s) = N_of_ascii a :: lit s.
Proof. reflexivity. Qed.

Lemma to_string_lit s : to_string (lit s) = Some s.
Proof.
  unfold to_string.
  assert (Hb : forallb (fun c => c <? 256)%N (lit s) = true).
  { induction s as [|a s IH]; [reflexivity|].
    rewrite lit_cons. simpl. rewrite IH, andb_true_r.
    apply N.ltb_lt, N_ascii_bounded. }
  rewrite Hb. f_equal. clear Hb.
  induction s as [|a s IH]; [reflexivity|].
  rewrite lit_cons. simpl. now rewrite ascii_N_embedding, IH.
Qed.

Definition digit_or_minus (c : N) : Prop := c = 45%N \/ (48 <= c <= 57)%N.

Lemma uint_chars d : Forall digit_or_minus (lit (NilEmpty.string_of_uint d)).
Proof.
  induction d; simpl NilEmpty.string_of_uint;
    [constructor | rewrite lit_cons; constructor; [right; cbn; lia | assumption] ..].
Qed.

Lemma zero_chars : Forall digit_or_minus (lit "0").
Proof. constructor; [right; cbn; lia | constructor]. Qed.

Lemma dec_chars z : Forall digit_or_minus (dec z).
Proof.
  unfold dec. destruct (Z.to_int z) as [d|d]; simpl.
  - destruct d; first [apply zero_chars | apply uint_chars].
  - rewrite lit_cons. constructor; [now left|].
    destruct d; first [apply zero_chars | apply uint_chars].
Qed.

Lemma digit_or_minus_no_space c : digit_or_minus c -> is_space c = false.
Proof.
  intros [->|[H1 H2]]; [reflexivity|].
  unfold is_space.
  repeat match goal with
    | |- context [N.leb ?a ?b] => destruct (N.leb_spec a b); try lia
    | |- context [N.eqb ?a ?b] => destruct (N.eqb_spec a b); try lia
    end.
  all: try reflexivity.
Qed.

Lemma trim_no_space s : Forall (fun c => is_space c = false) s -> trim s = s.
Proof.
  intros H. unfold trim, trimEnd.
  assert (Hs : forall t, Forall (fun c => is_space c = false) t -> trimStart t = t).
  { intros t Ht. destruct Ht as [|c t Hc _]; simpl; [reflexivity|now rewrite Hc]. }
  rewrite (Hs s H). rewrite Hs by (now apply Forall_rev). apply rev_involutive.
Qed.

Lemma dec_cons z : exists c r, dec z = c :: r /\ c <> 43%N.
Proof.
  pose proof (dec_chars z) as H.
  assert (Hne : dec z <> []).
  { unfold dec. destruct (Z.to_int z) as [d|d]; simpl.
    - destruct d; discriminate.
    - discriminate. }
  destruct (dec z) as [|c r]; [congruence|].
  exists c, r. split; [reflexivity|].
  inversion H as [|? ? Hc _]; subst. destruct Hc; lia.
Qed.

Lemma dec_differs z t : In 73%N t -> str_eqb (dec z) t = false.
Proof.
  intros Hin.
  destruct (str_eqb (dec z) t) eqn:Eb; [|reflexivity].
  apply str_eqb_eq in Eb. rename Eb into E.
  pose proof (dec_chars z) as H. rewrite E in H.
  rewrite Forall_forall in H. destruct (H _ Hin); lia.
Qed.

Lemma to_int_proper z :
  Z.to_int z <> Decimal.Pos Decimal.Nil /\ Z.to_int z <> Decimal.Neg Decimal.Nil.
Proof.
  destruct z as [|p|p]; simpl; split; try discriminate;
    intros [= E]; now apply DecimalPos.Unsigned.to_uint_nonnil in E.
Qed.

Lemma string_to_num_dec z : string_to_num (dec z) = NInt z.
Proof.
  unfold string_to_num.
  rewrite trim_no_space
    by (eapply Forall_impl; [apply digit_or_minus_no_space | apply dec_chars]).
  rewrite !dec_differs by (cbv; tauto). simpl.
  destruct (dec_cons z) as [c [r [E Hc]]].
  unfold int_literal. rewrite E.
  apply N.eqb_neq in Hc. rewrite Hc. rewrite <- E.
  unfold dec. rewrite to_string_lit.
  destruct (to_int_proper z) as [H1 H2].
  rewrite NilZero.isi by assumption. simpl.
  now rewrite DecimalZ.of_to.
Qed.

#[export] Instance numbers : Numbers := {
  number := num;
  NaN := NNaN;
  neg_infinity := NInf true;
  of_Z := NInt;
  NumberToString := num_to_string;
  StringToNumber := string_to_num;
  isNaN := num_is_nan;
  is_zero := num_is_zero;
  num_gtb := num_gt;
  num_add := num_plus;
  isNaN_NaN := eq_refl;
  is_zero_0 := eq_refl;
  int_roundtrip := string_to_num_dec
}.

(** *** JSON text for this runtime *)

Definition hex_digit (n : N) : N := if (n <? 10)%N then (48 + n)%N else (87 + n)%N.

(** One character inside a JSON string literal. *)
Definition quote_char (c : N) : jsstring :=
  if (c =? 34)%N then [92; 34]%N
  else if (c =? 92)%N then [92; 92]%N
  else if (c =? 8)%N then [92; 98]%N
  else if (c =? 9)%N then [92; 116]%N
  else if (c =? 10)%N then [92; 110]%N
  else if (c =? 12)%N then [92; 102]%N
  else if (c =? 13)%N then [92; 114]%N
  else if (c <? 32)%N then [92; 117; 48; 48; hex_digit (c / 16); hex_digit (c mod 16)]%N
  else [c].

Definition quote (s : jsstring) : jsstring :=
  34%N :: flat_map quote_char s ++ [34%N].

Fixpoint stringify (v : value) : jsstring :=
  match v with
  | VUndef | VNull => lit "null"
  | VBool true => lit "true"
  | VBool false => lit "false"
  | VNum (NInt z) => dec z
  | VNum _ => lit "null"
  | VStr s => quote s
  | VArr xs => 91%N :: join_comma (List.map stringify xs) ++ [93%N]
  | VObj fs =>
      123%N :: join_comma
                 (flat_map (fun kv : jsstring * value => let (k, x) := kv in
                                      if defined x
                                      then [quote k ++ 58%N :: stringify x]
                                      else []) fs)
            ++ [125%N]
  end.

Definition json_stringify (v : value) : option jsstring :=
  match v with
  | VUndef => None
  | _ => Some (stringify v)
  end.

Fixpoint skip_ws (s : jsstring) : jsstring :=
  match s with
  | c :: s' => if ((c =? 32) || (c =? 9) || (c =? 10) || (c =? 13))%N then skip_ws s' else s
  | [] => []
  end.

Definition hex_value (c : N) : option N :=
  if ((48 <=? c) && (c <=? 57))%N then Some (c - 48)%N
  else if ((97 <=? c) && (c <=? 102))%N then Some (c - 87)%N
  else if ((65 <=? c) && (c <=? 70))%N then Some (c - 55)%N
  else None.

Definition escape_value (e : N) : option N :=
  if ((e =? 34) || (e =? 92) || (e =? 47))%N then Some e
  else if (e =? 98)%N then Some 8%N
  else if (e =? 102)%N then Some 12%N
  else if (e =? 110)%N then Some 10%N
  else if (e =? 114)%N then Some 13%N
  else if (e =? 116)%N then Some 9%N
  else None.

(** The characters of a string literal after its opening quote. *)
Fixpoint string_body (acc s : jsstring) : option (jsstring * jsstring) :=
  match s with
  | [] => None
  | c :: s' =>
      if (c =? 34)%N then Some (rev acc, s')
      else if (c =? 92)%N then
        match s' with
        | e :: s'' =>
            if (e =? 117)%N then
              match s'' with
              | h1 :: h2 :: h3 :: h4 :: rest =>
                  match hex_value h1, hex_value h2, hex_value h3, hex_value h4 with
                  | Some a, Some b, Some c', Some d =>
                      string_body ((4096 * a + 256 * b + 16 * c' + d)%N :: acc) rest
                  | _, _, _, _ => None
                  end
              | _ => None
              end
            else match escape_value e with
                 | Some x => string_body (x :: acc) s''
                 | None => None
                 end
        | [] => None
        end
      else if (c <? 32)%N then None
      else string_body (c :: acc) s'
  end.

Fixpoint take_digits (s : jsstring) : jsstring * jsstring :=
  match s with
  | c :: s' =>
      if ((48 <=? c) && (c <=? 57))%N
      then let (ds, rest) := take_digits s' in (c :: ds, rest)
      else ([], s)
  | [] => ([], [])
  end.

(** An integer literal: an optional minus, then [0] or a digit string
    without leading zero; a fraction or an exponent is not of this
    runtime. *)
Definition number_token (s : jsstring) : option (Z * jsstring) :=
  let (negative, s1) := match s with
                        | c :: s' => if (c =? 45)%N then (true, s') else (false, s)
                        | [] => (false, s)
                        end in
  let (ds, rest) := take_digits s1 in
  match ds, rest with
  | [], _ => None
  | (48%N :: _ :: _), _ => None
  | _, c :: _ =>
      if ((c =? 46) || (c =? 101) || (c =? 69))%N then None
      else option_map (fun n => ((if negative then - Z.of_N n else Z.of_N n)%Z, rest))
                      (digits_value 0 ds)
  | _, [] =>
      option_map (fun n => ((if negative then - Z.of_N n else Z.of_N n)%Z, rest))
                 (digits_value 0 ds)
  end.

Fixpoint parse_value (fuel : nat) (s : jsstring) : option (value * jsstring) :=
  match fuel with
  | O => None
  | S fuel' =>
      match skip_ws s with
      | [] => None
      | c :: r =>
          if (c =? 123)%N then
            match skip_ws r with
            | c' :: r' => if (c' =? 125)%N then Some (VObj [], r')
                          else parse_members fuel' [] (skip_ws r)
            | [] => None
            end
          else if (c =? 91)%N then
            match skip_ws r with
            | c' :: r' => if (c' =? 93)%N then Some (VArr [], r')
                          else parse_elements fuel' [] r
            | [] => None
            end
          else if (c =? 34)%N then
            option_map (fun sr => (VStr (fst sr), snd sr)) (string_body [] r)
          else if starts_with (lit "true") (c :: r) then Some (VBool true, skipn 4 (c :: r))
          else if starts_with (lit "false") (c :: r) then Some (VBool false, skipn 5 (c :: r))
          else if starts_with (lit "null") (c :: r) then Some (VNull, skipn 4 (c :: r))
          else option_map (fun zr => (VNum (NInt (fst zr)), snd zr)) (number_token (c :: r))
      end
  end
with parse_elements (fuel : nat) (acc : list value) (s : jsstring)
  : option (value * jsstring) :=
  match fuel with
  | O => None
  | S fuel' =>
      match parse_value fuel' s with
      | Some (v, rest) =>
          match skip_ws rest with
          | c :: r =>
              if (c =? 44)%N then parse_elements fuel' (acc ++ [v]) r
              else if (c =? 93)%N then Some (VArr (acc ++ [v]), r)
              else None
          | [] => None
          end
      | None => None
      end
  end
with parse_members (fuel : nat) (acc : fields) (s : jsstring)
  : option (value * jsstring) :=
  match fuel with
  | O => None
  | S fuel' =>
      match s with
      | q :: s' =>
          if (q =? 34)%N then
            match string_body [] s' with
            | Some (k, rest) =>
                match skip_ws rest with
                | colon :: r =>
                    if (colon =? 58)%N then
                      match parse_value fuel' r with
                      | Some (v, rest') =>
                          match skip_ws rest' with
                          | c :: r' =>
                              if (c =? 44)%N
                              then parse_members fuel' (own_set acc k v) (skip_ws r')
                              else if (c =? 125)%N then Some (VObj (own_set acc k v), r')
                              else None
                          | [] => None
                          end
                      | None => None
                      end
                    else None
                | [] => None
                end
            | None => None
            end
          else None
      | [] => None
      end
  end.

Definition json_parse (s : jsstring) : value + jsstring :=
  match parse_value (2 * length s + 2) s with
  | Some (v, rest) =>
      match skip_ws rest with
      | [] => inl v
      | _ :: _ => inr (lit "Unexpected non-whitespace character after JSON")
      end
  | None => inr (lit "Unexpected token or end of JSON input")
  end.

Lemma json_parse_empty (v : value) : json_parse [] <> inl v.
Proof. discriminate. Qed.

Lemma json_stringify_undefined (v : value) : json_stringify v = None <-> v = VUndef.
Proof. destruct v; simpl; split; intros H; try discriminate; reflexivity. Qed.

#[export] Instance json : JSON := {
  JSON_parse := json_parse;
  JSON_stringify := json_stringify;
  parse_empty := json_parse_empty;
  stringify_undefined := json_stringify_undefined
}.

End IntRuntime.

(** ** Closed instances of the theorems, and the inputs that separate the
    code from the statements it does not satisfy *)

Module Examples.
Import IntRuntime.

(** Closes an equation between closed terms by evaluating both sides. *)
Ltac by_evaluation :=
  match goal with
  | |- ?x = ?y => vm_cast_no_check (@eq_refl _ y)
  end.

(** Whether a computation ended in an exception. *)
Definition thrown {A} (c : completion A) : bool :=
  match c with
  | Throw _ => true
  | Return _ => false
  end.

Definition obj (l : list (string * value)) : value :=
  VObj (List.map (fun kv => (lit (fst kv), snd kv)) l).
Definition str (s : string) : value := VStr (lit s).
Definition int (z : Z) : value := VNum (NInt z).

(** A grading result in wire format, as the system prompt of
    part2_Sagemaker.js lays it out. *)
Definition graded (id : jsstring) : value :=
  obj [ ("analyticsId", obj [("N", str "1")]);
        ("assignmentId", obj [("N", VStr id)]);
        ("gradeReceived", obj [("N", str "85")]);
        ("aiGeneratedAnalytics",
           obj [("M", obj [ ("isAIUsed", obj [("BOOL", VBool true)]);
                            ("percentageOfAIUsed", obj [("N", str "60")]);
                            ("highlightedAreaOfAIUse",
                               obj [("L", VArr [obj [("S", str "10")];
                                                obj [("S", str "25")]])]) ])]);
        ("plagarismAnalytics",
           obj [("M", obj [ ("isPlagarised", obj [("BOOL", VBool false)]);
                            ("plagarisedPercentage", obj [("N", str "0")]);
                            ("plagarisedFrom", obj [("L", VArr [])]) ])]);
        ("gradeReasoning", obj [("S", str "Significant AI-generated content.")]);
        ("remarks", obj [("S", str "More original work, please.")]) ].

(** A world in which nothing is stored yet, every file reads as [text],
    the store accepts every write, and the grading endpoint answers as
    [net] says. *)
Definition world_of (files : list jsstring) (text : jsstring)
  (net : payload -> Z -> http_outcome) : world :=
  mkWorld (Return []) (Return files) (fun _ => Return text) net
          (fun _ id _ => match json_stringify (graded id) with
                         | Some t => Return t
                         | None => Throw (Error [])
                         end)
          (fun _ => Return tt).

Definition always (status : Z) (data : value) : payload -> Z -> http_outcome :=
  fun _ _ => Reply status data.

Definition request (text : string) (id : string) : payload :=
  mkPayload (safeText (lit text)) (lit id) (NInt 1).

(** *** C1 *)

Lemma retries_exhausted_on_502_witness :
  (forall k, exists data,
      http (world_of [] [] (always 502 VNull)) (request "hello world" "7") k
      = Reply 502 data)
  /\ invokeModelEndpoint (world_of [] [] (always 502 VNull)) (lit "hello world")
       (lit "7") (NInt 1)
     = ([ EvPost 1 (request "hello world" "7"); EvSleep 1000;
          EvPost 2 (request "hello world" "7"); EvSleep 2000;
          EvPost 3 (request "hello world" "7") ],
        Throw (Error (lit "Lambda invocation failed after " ++ dec MAX_RETRIES
                      ++ lit " attempts: " ++ message (status_error 502)))).
Proof.
  assert (H : forall k, exists data,
             http (world_of [] [] (always 502 VNull)) (request "hello world" "7") k
             = Reply 502 data).
  { intros k. exists VNull. reflexivity. }
  split; [exact H|].
  apply (@retries_exhausted_on_502 _ _ (world_of [] [] (always 502 VNull))
           (lit "hello world") (lit "7") (NInt 1) H).
Defined.

(** *** C2 *)

Lemma no_retry_on_404_or_bad_body_witness :
  (exists data,
      http (world_of [] [] (always 404 VNull)) (request "hello world" "7") 1
      = Reply 404 data)
  /\ exists e,
       invokeModelEndpoint (world_of [] [] (always 404 VNull)) (lit "hello world")
         (lit "7") (NInt 1)
       = ([EvPost 1 (request "hello world" "7")], Throw e).
Proof.
  assert (H : exists data,
             http (world_of [] [] (always 404 VNull)) (request "hello world" "7") 1
             = Reply 404 data).
  { exists VNull. reflexivity. }
  split; [exact H|].
  apply (proj2 (@no_retry_on_404_or_bad_body _ _ (world_of [] [] (always 404 VNull))
                  (lit "hello world") (lit "7") (NInt 1) 1%Z [] (or_introl H))).
  reflexivity.
Defined.

(** A body that is not JSON, and a body of neither shape, at attempt 1. *)
Example malformed_body_fails_at_once :
  invokeModelEndpoint (world_of [] [] (always 200 (str "<html>Bad Gateway</html>")))
    (lit "hello world") (lit "7") (NInt 1)
  = ([EvPost 1 (request "hello world" "7")],
     Throw (SyntaxError (lit "Unexpected token or end of JSON input"))).
Proof. by_evaluation. Qed.

Example unknown_shape_fails_at_once :
  fst (invokeModelEndpoint (world_of [] [] (always 200 (obj [("message", str "ok")])))
         (lit "hello world") (lit "7") (NInt 1))
  = [EvPost 1 (request "hello world" "7")]
  /\ thrown (snd (invokeModelEndpoint
                     (world_of [] [] (always 200 (obj [("message", str "ok")])))
                     (lit "hello world") (lit "7") (NInt 1)))
     = true.
Proof. split; by_evaluation. Qed.

(** *** C3 *)

Definition legacy_body (s : jsstring) : value :=
  VArr [VObj [(lit "generated_text", VStr s)]].

(** A typed-attribute map with a top-level analyticsId attribute of
    string type. *)
Definition string_id_body : value := obj [("analyticsId", obj [("S", str "7")])].

(** Sent directly it is refused as an unknown format; sent in the legacy
    wrapping it is returned. *)
Lemma legacy_differs_without_N :
  JSON_parse (stringify string_id_body) = inl string_id_body
  /\ snd (invokeModelEndpoint
            (world_of [] [] (always 200 (legacy_body (stringify string_id_body))))
            (lit "hello world") (lit "7") (NInt 1))
     = Return string_id_body
  /\ thrown (snd (invokeModelEndpoint (world_of [] [] (always 200 string_id_body))
                     (lit "hello world") (lit "7") (NInt 1)))
     = true.
Proof. repeat split; by_evaluation. Defined.

Lemma graded_is_canonical id : canonical_shape (graded id).
Proof.
  eexists. eexists. split; [reflexivity|]. split; [reflexivity|]. discriminate.
Qed.

Lemma legacy_body_same_as_canonical_witness :
  canonical_shape (graded (lit "7"))
  /\ JSON_parse (stringify (graded (lit "7"))) = inl (graded (lit "7"))
  /\ invokeModelEndpoint
       (world_of [] [] (always 200 (legacy_body (stringify (graded (lit "7"))))))
       (lit "hello world") (lit "7") (NInt 1)
     = invokeModelEndpoint (world_of [] [] (always 200 (graded (lit "7"))))
         (lit "hello world") (lit "7") (NInt 1).
Proof.
  assert (Hp : JSON_parse (stringify (graded (lit "7"))) = inl (graded (lit "7"))).
  { by_evaluation. }
  split; [apply graded_is_canonical|]. split; [exact Hp|].
  apply (proj2 (@legacy_body_same_as_canonical _ _
                  (world_of [] [] (always 200 (graded (lit "7"))))
                  (world_of [] [] (always 200 (legacy_body (stringify (graded (lit "7"))))))
                  (lit "hello world") (lit "7") (NInt 1)
                  (stringify (graded (lit "7"))) (graded (lit "7"))
                  (graded_is_canonical (lit "7")) Hp eq_refl eq_refl)).
Defined.

(** *** C4 and C5 *)

(** A zero grade on a result that lacks analyticsId: the error names
    analyticsId, not gradeReceived. *)
Lemma zero_grade_error_names_first_missing :
  get (obj [("gradeReceived", int 0)]) (lit "gradeReceived") = Return (VNum (of_Z 0))
  /\ validateDynamoDBStructure (obj [("gradeReceived", int 0)])
     = Throw (Error (lit "Missing required field: analyticsId"))
  /\ validateDynamoDBStructure (obj [("gradeReceived", int 0)])
     <> Throw (Error (lit "Missing required field: gradeReceived")).
Proof.
  assert (H : validateDynamoDBStructure (obj [("gradeReceived", int 0)])
              = Throw (Error (lit "Missing required field: analyticsId")))
    by by_evaluation.
  split; [by_evaluation|]. split; [exact H|].
  rewrite H. intros E.
  apply (f_equal (fun c => match c with Throw e => message e | Return _ => [] end)) in E.
  vm_compute in E. discriminate E.
Defined.

Definition zero_graded : value :=
  obj [("analyticsId", int 1); ("assignmentId", int 7); ("gradeReceived", int 0);
       ("aiGeneratedAnalytics", obj []); ("plagarismAnalytics", obj []);
       ("gradeReasoning", str "none"); ("remarks", str "none")].

Lemma present_intro (result : value) (field : jsstring) (v : value) :
  get result field = Return v -> ToBoolean v = true -> present result field.
Proof. intros H1 H2. exists v. now split. Qed.

Lemma missing_intro (result : value) (field : jsstring) (v : value) :
  get result field = Return v -> ToBoolean v = false -> missing result field.
Proof. intros H1 H2. exists v. now split. Qed.

(** A zero grade with both ids, with neither, and with analyticsId only. *)
Lemma zero_grade_is_rejected_witness :
  (get zero_graded (lit "gradeReceived") = Return (VNum (of_Z 0))
   /\ validateDynamoDBStructure zero_graded
      = Throw (Error (lit "Missing required field: gradeReceived")))
  /\ (get (obj [("gradeReceived", int 0)]) (lit "gradeReceived")
      = Return (VNum (of_Z 0))
      /\ validateDynamoDBStructure (obj [("gradeReceived", int 0)])
         = Throw (Error (lit "Missing required field: analyticsId")))
  /\ (get (obj [("analyticsId", int 1); ("gradeReceived", int 0)]) (lit "gradeReceived")
      = Return (VNum (of_Z 0))
      /\ validateDynamoDBStructure (obj [("analyticsId", int 1); ("gradeReceived", int 0)])
         = Throw (Error (lit "Missing required field: assignmentId"))).
Proof.
  split; [|split]; (split; [reflexivity|]).
  - apply (proj1 (proj1 (@zero_grade_is_rejected _ zero_graded) eq_refl)).
    + apply (@present_intro zero_graded (lit "analyticsId") (int 1)); reflexivity.
    + apply (@present_intro zero_graded (lit "assignmentId") (int 7)); reflexivity.
  - apply (proj1 (proj2 (proj1 (@zero_grade_is_rejected _
                                  (obj [("gradeReceived", int 0)])) eq_refl))).
    apply (@missing_intro _ (lit "analyticsId") VUndef); reflexivity.
  - apply (proj1 (proj2 (proj2 (proj1 (@zero_grade_is_rejected _
              (obj [("analyticsId", int 1); ("gradeReceived", int 0)])) eq_refl)))).
    + apply (@present_intro _ (lit "analyticsId") (int 1)); reflexivity.
    + apply (@missing_intro _ (lit "assignmentId") VUndef); reflexivity.
Defined.

(** assignmentId, gradeReceived and remarks are missing: the error names
    assignmentId. *)
Definition three_missing : value :=
  obj [("analyticsId", int 1); ("assignmentId", str ""); ("gradeReceived", int 0);
       ("aiGeneratedAnalytics", obj []); ("plagarismAnalytics", obj []);
       ("gradeReasoning", str "none")].

Lemma validate_reports_first_missing_witness :
  missing three_missing (lit "assignmentId")
  /\ missing three_missing (lit "gradeReceived")
  /\ missing three_missing (lit "remarks")
  /\ validateDynamoDBStructure three_missing
     = Throw (Error (lit "Missing required field: assignmentId")).
Proof.
  assert (Ha : missing three_missing (lit "assignmentId"))
    by (exists (str ""); split; reflexivity).
  split; [exact Ha|].
  split; [exists (int 0); split; reflexivity|].
  split; [exists VUndef; split; reflexivity|].
  apply (proj1 (@validate_reports_first_missing _ three_missing)
           [lit "analyticsId"] (lit "assignmentId")
           [lit "gradeReceived"; lit "aiGeneratedAnalytics"; lit "plagarismAnalytics";
            lit "gradeReasoning"; lit "remarks"] eq_refl).
  - intros g [<-|[]].
    apply (@present_intro three_missing (lit "analyticsId") (int 1)); reflexivity.
  - exact Ha.
Defined.

(** *** C6 *)

(** A property named like a discriminator does not survive the round
    trip; neither does a list inside a list. *)
Lemma roundtrip_fails_on_reserved_key :
  Analytics.convert (Analytics.toDynamoDBFormat (obj [("S", int 5)]))
  = Return (obj [("N", str "5")])
  /\ Analytics.convert (Analytics.toDynamoDBFormat (obj [("S", int 5)]))
     <> Return (obj [("S", int 5)])
  /\ Analytics.convert (Analytics.toDynamoDBFormat (obj [("a", VArr [VArr [int 1]])]))
     = Return (obj [("a", VArr [obj [("0", int 1)]])]).
Proof.
  assert (H : Analytics.convert (Analytics.toDynamoDBFormat (obj [("S", int 5)]))
              = Return (obj [("N", str "5")])) by by_evaluation.
  split; [exact H|]. split; [|by_evaluation].
  rewrite H. intros E.
  apply (f_equal (fun c => match c with
                           | Return (VObj ((k, _) :: _)) => k
                           | _ => []
                           end)) in E.
  vm_compute in E. discriminate E.
Defined.

Definition report_card : value :=
  obj [ ("analyticsId", int 12); ("title", str "Essay"); ("late", VBool false);
        ("marks", VArr [int 85; str "B+"; obj [("bonus", int 0)]]);
        ("meta", obj [("pages", int 3); ("tags", VArr [str "x"; str ""])]) ].

Lemma decode_encode_roundtrip_witness :
  plain_object report_card = true
  /\ integral report_card
  /\ Analytics.convert (Analytics.toDynamoDBFormat report_card) = Return report_card.
Proof.
  assert (Hi : integral report_card).
  { simpl. repeat split; eexists; reflexivity. }
  split; [reflexivity|]. split; [exact Hi|].
  apply (proj2 (@decode_encode_roundtrip _ report_card eq_refl) Hi).
Defined.

(** *** C7 and C8 *)

(** Five documents; the endpoint answers 500 for document 3 and a graded
    result for the others. *)
Definition five_files : list jsstring :=
  [lit "1.txt"; lit "2.txt"; lit "3.txt"; lit "4.txt"; lit "5.txt"].

Definition third_fails : payload -> Z -> http_outcome :=
  fun p _ => if str_eqb (assignmentId p) (lit "3") then Reply 500 VNull
             else Reply 200 (graded (assignmentId p)).

Definition five_documents : world := world_of five_files (lit "hello world") third_fails.

(** The same five documents, all graded; the store rejects the write of
    document 3. *)
Definition rejects_third (item : value) : completion unit :=
  match get item (lit "assignmentId") with
  | Return (VObj [(_, VStr id)]) =>
      if str_eqb id (lit "3") then Throw (Error (lit "The table is unavailable"))
      else Return tt
  | _ => Return tt
  end.

Definition third_not_stored : world :=
  mkWorld (Return []) (Return five_files) (fun _ => Return (lit "hello world"))
          (fun p _ => Reply 200 (graded (assignmentId p)))
          (fun _ _ _ => Throw (Error []))
          rejects_third.

Lemma batch_isolates_failures_witness :
  (highest_analyticsId five_documents = Return (NInf true)
   /\ readdir five_documents = Return five_files
   /\ snd (handler lambda_script five_documents)
      = Return (mkResponse 200
                  (Results [ mkOutcome (lit "1") SUCCESS None;
                             mkOutcome (lit "2") SUCCESS None;
                             mkOutcome (lit "3") FAILED
                               (Some (lit "Request failed with status code 500"));
                             mkOutcome (lit "4") SUCCESS None;
                             mkOutcome (lit "5") SUCCESS None ])))
  /\ (snd (saveAnalysisToDynamoDB third_not_stored (graded (lit "3")))
      = Throw (Error (lit "The table is unavailable"))
      /\ report_of lambda_script third_not_stored (NInt 1) (lit "3.txt")
         = [mkOutcome (lit "3") FAILED (Some (lit "The table is unavailable"))]
      /\ snd (handler lambda_script third_not_stored)
         = Return (mkResponse 200
                     (Results [ mkOutcome (lit "1") SUCCESS None;
                                mkOutcome (lit "2") SUCCESS None;
                                mkOutcome (lit "3") FAILED
                                  (Some (lit "The table is unavailable"));
                                mkOutcome (lit "4") SUCCESS None;
                                mkOutcome (lit "5") SUCCESS None ]))).
Proof.
  split.
  - split; [reflexivity|]. split; [reflexivity|].
    destruct (@batch_isolates_failures _ lambda_script five_documents)
      as [_ [_ [_ [_ [_ [_ [_ Hhandler]]]]]]].
    destruct (Hhandler (NInf true) eq_refl) as [resp [Hrun Hresp]].
    rewrite Hrun. f_equal.
    rewrite (Hresp five_files eq_refl) by (vm_compute; discriminate).
    by_evaluation.
  - assert (Hsave : snd (saveAnalysisToDynamoDB third_not_stored (graded (lit "3")))
                    = Throw (Error (lit "The table is unavailable"))) by by_evaluation.
    destruct (@batch_isolates_failures _ lambda_script third_not_stored)
      as [_ [_ [_ [_ [_ [Hstore [_ Hhandler]]]]]]].
    split; [exact Hsave|]. split.
    + apply (Hstore (NInt 1) (lit "3.txt") (lit "hello world") (graded (lit "3"))
                    (Error (lit "The table is unavailable")));
        [reflexivity | reflexivity | by_evaluation | intros H; discriminate H
        | exact Hsave].
    + destruct (Hhandler (NInf true) eq_refl) as [resp [Hrun Hresp]].
      rewrite Hrun. f_equal.
      rewrite (Hresp five_files eq_refl) by (vm_compute; discriminate).
      by_evaluation.
Defined.

(** The same batch through part2_Sagemaker.js, whose endpoint grades every
    document. *)
Example sagemaker_batch :
  snd (handler sagemaker_script five_documents)
  = Return (mkResponse 200
              (Results [ mkOutcome (lit "1") SUCCESS None;
                         mkOutcome (lit "2") SUCCESS None;
                         mkOutcome (lit "3") SUCCESS None;
                         mkOutcome (lit "4") SUCCESS None;
                         mkOutcome (lit "5") SUCCESS None ])).
Proof. by_evaluation. Qed.

(** The end-to-end scenario: 7.txt holds "hello world", abc.txt holds
    "ignored". *)
Definition two_documents : world :=
  mkWorld (Return []) (Return [lit "7.txt"; lit "abc.txt"])
          (fun path => if str_eqb path (lit "converted/7.txt")
                       then Return (lit "hello world") else Return (lit "ignored"))
          (fun p _ => Reply 200 (graded (assignmentId p)))
          (fun _ _ _ => Throw (Error []))
          (fun _ => Return tt).


Example end_to_end :
  snd (handler lambda_script two_documents)
  = Return (mkResponse 200 (Results [mkOutcome (lit "7") SUCCESS None])).
Proof. by_evaluation. Qed.



(** *** Further instances *)

Definition never_answers : payload -> Z -> http_outcome :=
  fun _ _ => NoReply timeout_error.

Lemma retries_exhausted_on_timeout_witness :
  (forall k, http (world_of [] [] never_answers) (request "hello world" "7") k
             = NoReply timeout_error)
  /\ invokeModelEndpoint (world_of [] [] never_answers) (lit "hello world")
       (lit "7") (NInt 1)
     = ([ EvPost 1 (request "hello world" "7"); EvSleep 1000;
          EvPost 2 (request "hello world" "7"); EvSleep 2000;
          EvPost 3 (request "hello world" "7") ],
        Throw (Error (lit "Lambda invocation failed after " ++ dec MAX_RETRIES
                      ++ lit " attempts: " ++ message timeout_error))).
Proof.
  split; [intros k; reflexivity|].
  apply (@retries_exhausted_on_timeout _ _ (world_of [] [] never_answers)
           (lit "hello world") (lit "7") (NInt 1)).
  intros k. reflexivity.
Defined.

Definition second_succeeds : payload -> Z -> http_outcome :=
  fun p k => if (k =? 1)%Z then Reply 502 VNull else Reply 200 (graded (assignmentId p)).

Lemma retry_then_success_witness :
  invokeModelEndpoint (world_of [] [] second_succeeds) (lit "hello world")
    (lit "7") (NInt 1)
  = ([ EvPost 1 (request "hello world" "7"); EvSleep 1000;
       EvPost 2 (request "hello world" "7") ],
     Return (graded (lit "7"))).
Proof.
  apply (@retry_then_success _ _ (world_of [] [] second_succeeds)
           (lit "hello world") (lit "7") (NInt 1) VNull (graded (lit "7"))
           eq_refl eq_refl (graded_is_canonical (lit "7"))).
Defined.

(** A graded result in wire format whose grade is zero. *)
Definition zero_graded_wire : value :=
  obj [ ("analyticsId", obj [("N", str "1")]);
        ("assignmentId", obj [("N", str "7")]);
        ("gradeReceived", obj [("N", str "0")]);
        ("aiGeneratedAnalytics", obj [("M", obj [])]);
        ("plagarismAnalytics", obj [("M", obj [])]);
        ("gradeReasoning", obj [("S", str "")]);
        ("remarks", obj [("S", str "")]) ].

Lemma validate_accepts_typed_attributes_witness :
  get zero_graded_wire (lit "gradeReceived") = Return (obj [("N", str "0")])
  /\ validateDynamoDBStructure zero_graded_wire = Return true.
Proof.
  split; [reflexivity|].
  apply (@validate_accepts_typed_attributes _ zero_graded_wire).
  intros g Hg. unfold required in Hg. simpl in Hg.
  repeat (destruct Hg as [<-|Hg]; [eexists; reflexivity|]).
  contradiction.
Defined.

(** A stored record without lists. *)
Definition stored_record : value :=
  obj [ ("analyticsId", obj [("N", str "12")]);
        ("gradeReasoning", obj [("S", str "Original work.")]);
        ("aiGeneratedAnalytics",
           obj [("M", obj [ ("isAIUsed", obj [("BOOL", VBool false)]);
                            ("percentageOfAIUsed", obj [("N", str "0")]) ])]) ].

Lemma decoders_agree_without_lists_witness :
  list_free_record stored_record = true
  /\ Batch.convert stored_record = Analytics.convert stored_record
  /\ Analytics.convert stored_record
     = Return (obj [ ("analyticsId", int 12);
                     ("gradeReasoning", str "Original work.");
                     ("aiGeneratedAnalytics",
                        obj [("isAIUsed", VBool false); ("percentageOfAIUsed", int 0)]) ]).
Proof.
  split; [reflexivity|]. split; [|by_evaluation].
  apply (@decoders_agree_without_lists _ stored_record). reflexivity.
Defined.

End Examples.

(** ** Further closed instances *)

Module MoreExamples.
Import IntRuntime Examples.

(** *** The integer runtime's arithmetic.  Division gives the quotient
    when it is an integer; the examples below only divide exactly. *)

Definition num_equal (a b : num) : bool :=
  match a, b with
  | NInt x, NInt y => (x =? y)%Z
  | NInf s, NInf s' => Bool.eqb s s'
  | _, _ => false
  end.

Definition num_maximum (a b : num) : num :=
  match a, b with
  | NNaN, _ | _, NNaN => NNaN
  | _, _ => if num_gt b a then b else a
  end.

Definition num_minimum (a b : num) : num :=
  match a, b with
  | NNaN, _ | _, NNaN => NNaN
  | _, _ => if num_gt a b then b else a
  end.

Definition num_times (a b : num) : num :=
  match a, b with
  | NInt x, NInt y => NInt (x * y)
  | NInf s, NInf s' => NInf (xorb s s')
  | NInf s, NInt z | NInt z, NInf s =>
      if (z =? 0)%Z then NNaN else NInf (xorb s (z <? 0)%Z)
  | _, _ => NNaN
  end.

Definition num_quotient (a b : num) : num :=
  match a, b with
  | NInt x, NInt y =>
      if (y =? 0)%Z then
        if (x =? 0)%Z then NNaN else NInf (x <? 0)%Z
      else if (x mod y =? 0)%Z then NInt (x / y) else NNaN
  | NInt _, NInf _ => NInt 0
  | NInf s, NInt y => NInf (xorb s (y <? 0)%Z)
  | _, _ => NNaN
  end.

#[export] Instance arithmetic : Summary.Arithmetic := {
  Summary.pos_infinity := NInf false;
  Summary.num_eqb := num_equal;
  Summary.num_max := num_maximum;
  Summary.num_min := num_minimum;
  Summary.num_mul := num_times;
  Summary.num_div := num_quotient;
  Summary.num_round := fun x => x
}.

Lemma integers_behave : integer_laws.
Proof.
  constructor.
  - intros a b _ _. reflexivity.
  - intros a _. reflexivity.
  - intros a _. reflexivity.
  - intros a b _ _ _. reflexivity.
Qed.


(** *** The invoker *)

Definition two_502_then (last : value) : payload -> Z -> http_outcome :=
  fun _ k => if (k <? 3)%Z then Reply 502 VNull else Reply 200 last.

Lemma last_attempt_error_is_wrapped_witness :
  invokeModelEndpoint (world_of [] [] (two_502_then (str "<html>Bad Gateway</html>")))
    (lit "hello world") (lit "7") (NInt 1)
  = ([ EvPost 1 (request "hello world" "7"); EvSleep 1000;
       EvPost 2 (request "hello world" "7"); EvSleep 2000;
       EvPost 3 (request "hello world" "7") ],
     Throw (Error (lit "Lambda invocation failed after " ++ dec MAX_RETRIES
                   ++ lit " attempts: "
                   ++ message (SyntaxError (lit "Unexpected token or end of JSON input"))))).
Proof.
  apply (@last_attempt_error_is_wrapped _ _
           (world_of [] [] (two_502_then (str "<html>Bad Gateway</html>")))
           (lit "hello world") (lit "7") (NInt 1) VNull VNull
           (str "<html>Bad Gateway</html>") 200
           (SyntaxError (lit "Unexpected token or end of JSON input"))
           eq_refl eq_refl eq_refl eq_refl).
  - discriminate.
  - by_evaluation.
Defined.

Definition refused : error :=
  mkError (lit "Error") (lit "connect ECONNREFUSED 10.0.0.1:443") None
          (Some (lit "ECONNREFUSED")).

Lemma only_502_and_timeouts_are_retried_witness :
  invokeModelEndpoint (world_of [] [] (always 503 VNull)) (lit "hello world")
    (lit "7") (NInt 1)
  = ([EvPost 1 (request "hello world" "7")], Throw (status_error 503))
  /\ invokeModelEndpoint (world_of [] [] (fun _ _ => NoReply refused))
       (lit "hello world") (lit "7") (NInt 1)
     = ([EvPost 1 (request "hello world" "7")], Throw refused).
Proof.
  split.
  - apply (proj1 (@only_502_and_timeouts_are_retried _ _
                    (world_of [] [] (always 503 VNull))
                    (lit "hello world") (lit "7") (NInt 1)) 503%Z VNull eq_refl eq_refl).
    discriminate.
  - apply (proj2 (@only_502_and_timeouts_are_retried _ _
                    (world_of [] [] (fun _ _ => NoReply refused))
                    (lit "hello world") (lit "7") (NInt 1)) refused eq_refl eq_refl eq_refl).
Defined.

(** *** The handler *)

(** A directory with two texts and a stray file. *)
Definition mixed_directory : world :=
  world_of [lit "7.txt"; lit "notes.md"; lit "8.txt"] (lit "hello world")
           (fun p _ => Reply 200 (graded (assignmentId p))).

Lemma handler_reads_each_txt_file_once_witness :
  filter is_read (fst (handler lambda_script mixed_directory))
  = [EvRead (lit "converted/7.txt"); EvRead (lit "converted/8.txt")]
  /\ (length (filter is_put (fst (handler lambda_script mixed_directory))) <= 2)%nat.
Proof.
  destruct (@handler_reads_each_txt_file_once _ _ lambda_script mixed_directory
              (NInf true) [lit "7.txt"; lit "notes.md"; lit "8.txt"]
              (or_introl eq_refl) eq_refl eq_refl) as [Hreads Hputs].
  split; [rewrite Hreads; reflexivity | exact Hputs].
Defined.

Definition no_texts : world :=
  world_of [lit "notes.md"; lit "7.pdf"] (lit "hello world") (always 200 VNull).

Lemma handler_early_exits_witness :
  handler sagemaker_script no_texts
  = ([EvScan; EvReaddir],
     Return (mkResponse 400 (Message (lit "No converted files found.")))).
Proof.
  apply (proj2 (proj2 (@handler_early_exits _ sagemaker_script no_texts))
           (NInf true) [lit "notes.md"; lit "7.pdf"] eq_refl eq_refl).
  intros f [<-|[<-|[]]]; reflexivity.
Defined.

(** A reply in the canonical shape that lacks assignmentId. *)
Definition id_only : value := obj [("analyticsId", obj [("N", str "1")])].

Lemma id_only_is_canonical : canonical_shape id_only.
Proof.
  eexists. eexists. split; [reflexivity|]. split; [reflexivity|]. discriminate.
Qed.

Definition careless_endpoint : world :=
  world_of [lit "7.txt"] (lit "hello world") (always 200 id_only).

Lemma unvalidated_result_is_stored_then_failed_witness :
  process_file lambda_script careless_endpoint (NInt 1) [] (lit "7.txt")
  = ([ EvRead (lit "converted/7.txt"); EvPost 1 (request "hello world" "7");
       EvPut id_only ],
     Return [mkOutcome (lit "7") FAILED
               (Some (lit "Cannot read properties of undefined (reading 'N')"))]).
Proof.
  apply (@unvalidated_result_is_stored_then_failed _ _ careless_endpoint (NInt 1) []
           (lit "7.txt") (lit "hello world") id_only
           eq_refl eq_refl eq_refl id_only_is_canonical eq_refl eq_refl).
Defined.

Lemma graded_file_is_saved_witness :
  process_file lambda_script mixed_directory (NInt 1) [] (lit "7.txt")
  = ([ EvRead (lit "converted/7.txt"); EvPost 1 (request "hello world" "7");
       EvPut (graded (lit "7")) ],
     Return [mkOutcome (lit "7") SUCCESS None]).
Proof.
  apply (@graded_file_is_saved _ _ mixed_directory (NInt 1) [] (lit "7")
           (lit "hello world") 200 (graded (lit "7"))
           (obj [("N", str "7")]) (str "7")).
  - discriminate.
  - constructor; [split; discriminate | constructor].
  - reflexivity.
  - reflexivity.
  - reflexivity.
  - reflexivity.
  - apply graded_is_canonical.
  - reflexivity.
  - reflexivity.
  - reflexivity.
Defined.

Lemma txt_name_gives_stem_as_id_witness :
  endsWith (lit "7.txt") (lit ".txt") = true
  /\ derived_id (lit "7.txt") = lit "7"
  /\ remove_first (lit ".txt") (lit "7.txt") = lit "7".
Proof.
  apply (@txt_name_gives_stem_as_id (lit "7")).
  - discriminate.
  - constructor; [split; discriminate | constructor].
Defined.

(** *** The batch id *)

Definition stored_row (id grade : string) : value :=
  obj [ ("analyticsId", obj [("N", str id)]);
        ("assignmentId", obj [("N", str "7")]);
        ("gradeReceived", obj [("N", str grade)]) ].

Definition decoded_row (id grade : Z) : value :=
  obj [("analyticsId", int id); ("assignmentId", int 7); ("gradeReceived", int grade)].

Definition two_batches : world :=
  mkWorld (Return [stored_row "3" "85"; stored_row "7" "60"]) (Return [])
          (fun _ => Return []) (always 200 VNull) (fun _ _ _ => Throw (Error []))
          (fun _ => Return tt).

Lemma next_batch_id_is_fresh_witness :
  exists m,
    In m [3; 7]%Z /\ (forall n, In n [3; 7]%Z -> (n <= m)%Z)
    /\ highest_analyticsId two_batches = Return (NInt m)
    /\ batch_id lambda_script (NInt m) = NInt (m + 1)
    /\ (forall n, In n [3; 7]%Z -> num_gtb (batch_id lambda_script (NInt m)) (NInt n) = true)
    /\ batch_id sagemaker_script (NInt m) = NInt m.
Proof.
  apply (@next_batch_id_is_fresh _ _ two_batches
           [stored_row "3" "85"; stored_row "7" "60"] [3; 7]%Z integers_behave eq_refl).
  - constructor; [|constructor; [|constructor]].
    + eexists. split; [reflexivity|]. split; [reflexivity|]. split; [reflexivity|].
      exists (decoded_row 3 85). by_evaluation.
    + eexists. split; [reflexivity|]. split; [reflexivity|]. split; [reflexivity|].
      exists (decoded_row 7 60). by_evaluation.
  - repeat constructor.
  - repeat constructor.
  - discriminate.
Defined.

(** *** The codec *)

Definition typed_row : fields :=
  [ (lit "analyticsId", obj [("N", str "3")]);
    (lit "assignmentId", obj [("N", str "7")]);
    (lit "gradeReasoning", obj [("S", str "Original work.")]) ].

Lemma batch_convert_is_attribute_wise_witness :
  distinct (List.map fst typed_row) = true
  /\ has_key PROTO typed_row = false
  /\ Batch.convert (VObj typed_row)
     = Return (obj [ ("analyticsId", int 3); ("assignmentId", int 7);
                     ("gradeReasoning", str "Original work.") ])
  /\ get (obj [ ("analyticsId", int 3); ("assignmentId", int 7);
                ("gradeReasoning", str "Original work.") ]) (lit "analyticsId")
     = Return (VNum (StringToNumber (lit "3")))
  /\ get (obj [ ("analyticsId", int 3); ("assignmentId", int 7);
                ("gradeReasoning", str "Original work.") ]) (lit "gradeReasoning")
     = Return (VStr (lit "Original work."))
  /\ get (obj [ ("analyticsId", int 3); ("assignmentId", int 7);
                ("gradeReasoning", str "Original work.") ]) (lit "remarks")
     = Return VUndef.
Proof.
  assert (Hrun : Batch.convert (VObj typed_row)
                 = Return (obj [ ("analyticsId", int 3); ("assignmentId", int 7);
                                 ("gradeReasoning", str "Original work.") ]))
    by by_evaluation.
  split; [reflexivity|]. split; [reflexivity|]. split; [exact Hrun|].
  split; [|split].
  - apply (proj1 (@batch_convert_is_attribute_wise _ typed_row _
                    (lit "analyticsId") (lit "3") eq_refl eq_refl Hrun)).
    reflexivity.
  - apply (proj1 (proj2 (@batch_convert_is_attribute_wise _ typed_row _
                           (lit "gradeReasoning") (lit "Original work.")
                           eq_refl eq_refl Hrun))).
    reflexivity.
  - apply (proj2 (proj2 (@batch_convert_is_attribute_wise _ typed_row _
                           (lit "remarks") [] eq_refl eq_refl Hrun)));
      reflexivity.
Defined.

Definition nested_record : value :=
  obj [ ("analyticsId", int 12); ("title", str "Essay"); ("late", VBool false);
        ("marks", VArr [int 85; str "B+"; obj [("bonus", int 0)]; VArr [int 1]]);
        ("meta", obj [("pages", int 3); ("tags", VArr [])]) ].

Lemma encoder_output_is_wire_format_witness :
  null_free nested_record = true
  /\ proto_free nested_record = true
  /\ nested_record <> VUndef
  /\ wire_map (Analytics.toDynamoDBFormat nested_record) = true.
Proof.
  split; [reflexivity|]. split; [reflexivity|]. split; [discriminate|].
  apply (proj1 (@encoder_output_is_wire_format _ nested_record eq_refl eq_refl
                  ltac:(discriminate))).
Defined.

Definition essay_record : value :=
  obj [ ("analyticsId", int 12); ("title", str "Essay"); ("late", VBool false);
        ("meta", obj [("pages", int 3); ("grader", str "kk")]) ].

Lemma batch_decoder_inverts_encoder_without_lists_witness :
  plain_object essay_record = true
  /\ list_free essay_record = true
  /\ Batch.convert (Analytics.toDynamoDBFormat essay_record) = Return (reread essay_record).
Proof.
  split; [reflexivity|]. split; [reflexivity|].
  apply (@batch_decoder_inverts_encoder_without_lists _ essay_record); reflexivity.
Defined.

(** *** The summaries *)

Import Summary.

(** A graded assignment of batch [batch] as the table holds it. *)
Definition assignment_row (batch id grade ai plagiarism : string) : value :=
  obj [ ("analyticsId", obj [("N", str batch)]);
        ("assignmentId", obj [("N", str id)]);
        ("gradeReceived", obj [("N", str grade)]);
        ("aiGeneratedAnalytics",
           obj [("M", obj [ ("isAIUsed", obj [("BOOL", VBool true)]);
                            ("percentageOfAIUsed", obj [("N", str ai)]) ])]);
        ("plagarismAnalytics",
           obj [("M", obj [ ("isPlagarised", obj [("BOOL", VBool false)]);
                            ("plagarisedPercentage", obj [("N", str plagiarism)]) ])]) ].

Definition assignments : list value :=
  [ assignment_row "1" "7" "80" "90" "0";
    assignment_row "2" "8" "100" "0" "0";
    assignment_row "1" "9" "60" "20" "60" ].

Definition noon : jsstring := lit "2025-01-01T12:00:00.000Z".


Definition decoded_assignment (batch id grade ai plagiarism : Z) : value :=
  obj [ ("analyticsId", int batch);
        ("assignmentId", int id);
        ("gradeReceived", int grade);
        ("aiGeneratedAnalytics",
           obj [("isAIUsed", VBool true); ("percentageOfAIUsed", int ai)]);
        ("plagarismAnalytics",
           obj [("isPlagarised", VBool false); ("plagarisedPercentage", int plagiarism)]) ].

Definition decoded_assignments : list value :=
  [ decoded_assignment 1 7 80 90 0;
    decoded_assignment 2 8 100 0 0;
    decoded_assignment 1 9 60 20 60 ].

Lemma assignments_decode :
  map_c Analytics.convert assignments = Return decoded_assignments.
Proof. by_evaluation. Qed.

(** The same table has no assignment of batch 5. *)
Lemma summary_of_an_empty_batch_witness :
  generateAnalyticsSummary (Return assignments) noon (NInt 5)
  = Return (empty_summary (NInt 5) noon).
Proof.
  apply (@summary_of_an_empty_batch numbers arithmetic (Return assignments) noon (NInt 5) assignments
           decoded_assignments eq_refl eq_refl eq_refl assignments_decode).
  intros e [<-|[<-|[<-|[]]]]; eexists; split; reflexivity.
Defined.

(** A [null] among the items. *)
Lemma summary_fails_on_a_null_row_witness :
  generateAnalyticsSummary (Return [assignment_row "1" "7" "80" "90" "0"; VNull])
    noon (NInt 1)
  = Throw null_row_error.
Proof.
  apply (@summary_fails_on_a_null_row _ _
           (Return [assignment_row "1" "7" "80" "90" "0"; VNull]) noon (NInt 1)
           [assignment_row "1" "7" "80" "90" "0"; VNull]
           [decoded_assignment 1 7 80 90 0; VNull] VNull eq_refl).
  - by_evaluation.
  - right. now left.
  - reflexivity.
Defined.

(** Two stored summaries, as [main] writes them. *)
Definition stored_summary (batch : string) (above70 : value) : value :=
  obj [ ("analyticsId", obj [("N", str batch)]);
        ("submissionCount", obj [("N", str "2")]);
        ("gradeDistribution",
           obj [("M", obj [ ("topGrade", obj [("N", str "80")]);
                            ("bottomGrade", obj [("N", str "60")]);
                            ("averageGrade", obj [("N", str "70")]) ])]);
        ("listOfAIGeneratedAssignementsAbove70", obj [("L", above70)]);
        ("listOfPlagarisedAssignmentsAbove50", obj [("L", VArr [])]) ].

Definition flagged (id : string) : value :=
  obj [("M", obj [("assignmentId", obj [("N", str id)])])].

Definition summaries : list value :=
  [ stored_summary "1" (VArr [flagged "7"; flagged "9"]);
    stored_summary "2" (VArr [flagged "4"]) ].





Lemma home_data_has_nothing_pending_witness :
  exists homeData,
    generateHomeDataSummary (Return summaries) noon = Return homeData
    /\ get homeData (lit "isAssignmentToBeAnalyzed") = Return (VBool false)
    /\ get homeData (lit "totalNoAssignments") = Return (VNum (NInt 2))
    /\ get homeData (lit "analyzedAssignments") = Return (VNum (NInt 2))
    /\ get homeData (lit "id") = Return (VNum (NInt 1)).
Proof.
  destruct (generateHomeDataSummary (Return summaries) noon) as [homeData|e] eqn:E.
  - exists homeData. split; [reflexivity|].
    apply (@home_data_has_nothing_pending numbers arithmetic (Return summaries) noon summaries homeData);
      [|reflexivity|exact E].
    intros n. apply Z.ltb_irrefl.
  - exfalso. apply (f_equal thrown) in E. vm_compute in E. discriminate E.
Defined.


(** *** The conversion *)

Import Conversion.

(** A host on which pdftotext fails. *)
Definition broken_host : host :=
  mkHost (fun _ => Return tt) (fun _ _ => Throw (Error (lit "Command failed: pdftotext")))
         (fun _ => Return []) (fun _ _ => Return tt) (fun _ => Return tt).

Definition working_host : host :=
  mkHost (fun _ => Return tt) (fun _ _ => Return tt)
         (fun _ => Return (lit "hello world")) (fun _ _ => Return tt) (fun _ => Return tt).

Definition downloaded (name : string) : pdf_file :=
  mkPdfFile (lit name) (lit "assignments/" ++ lit name) (lit "assignments/" ++ lit name).

Lemma seven_is_plain : plain_stem (lit "7").
Proof. split; [discriminate|]. constructor; [split; discriminate | constructor]. Qed.

Lemma converted_names_and_the_grader_witness :
  (exists e, filter is_notice (fst (convert_one broken_host (downloaded "7.PDF")))
             = [WriteNotice (lit "converted/7.txt") (failureNotice (downloaded "7.PDF") e)])
  /\ derived_id (lit "7.txt") = lit "7"
  /\ (forall c, snd (convert_one working_host (downloaded "7.pdf")) = Some c ->
      textFile c = lit "7.txt")
  /\ (forall c, snd (convert_one working_host (downloaded "7.PDF")) = Some c ->
      textFile c = lit "7.PDF" /\ endsWith (textFile c) (lit ".txt") = false).
Proof.
  destruct (@converted_names_and_the_grader broken_host (downloaded "7.PDF")
              (lit "7") (lit ".PDF") eq_refl eq_refl seven_is_plain)
    as [_ [Hid [Hfail _]]].
  destruct (@converted_names_and_the_grader working_host (downloaded "7.pdf")
              (lit "7") (lit ".pdf") eq_refl eq_refl seven_is_plain)
    as [_ [_ [_ Hlower]]].
  destruct (@converted_names_and_the_grader working_host (downloaded "7.PDF")
              (lit "7") (lit ".PDF") eq_refl eq_refl seven_is_plain)
    as [_ [_ [_ Hupper]]].
  split; [exact (Hfail eq_refl)|]. split; [exact Hid|]. split.
  - intros c Hc. exact (proj1 (proj1 (Hlower c Hc) eq_refl)).
  - intros c Hc. apply (proj2 (Hupper c Hc)). discriminate.
Defined.

End MoreExamples.
